(** * Finance app: goal engine, budget projection, health score, breakdowns

    A shallow embedding of the analytics and goal-progress core of the
    application: the [Goal] model (schema, pre-save hook, [addContribution],
    the statistics and priority queries), the goal routes (create, update,
    contribute, auto-save), the [Expense] category breakdown, the budget
    analysis and financial-health handlers and the budget suggestion helper.

    Conventions of the embedding.
    - JavaScript numbers that hold money or percentages are rationals
      ([Q]); the only unguarded division of the code (the goal-progress
      ratio) is written out with its IEEE results on a zero divisor. The
      budget analysis, whose status turns on how a quotient and a product
      round, rounds the result of each operation to the nearest binary64
      value ([double]).
    - A [Date] is its millisecond timestamp ([Z]); every reading of the
      clock is an explicit argument.
    - A MongoDB collection is the list of its documents; [save] runs the
      schema validators and the model's pre-save hook and yields the
      document that is written back.
    - A route handler returns either a failure (HTTP status, message and
      error class) or its payload, together with the collection it leaves. *)

From Stdlib Require Import ZArith QArith Lqa Lia List Ascii String Bool.
From Stdlib Require Import Qround Qpower Sorting.Sorted Permutation.
From stdpp Require Import base gmap strings pretty.
Import ListNotations.

Local Open Scope Q_scope.

(** ** Shared vocabulary *)

Definition Time := Z.
Definition ObjectId := nat.

(** The error classes handlers fall into. *)
Inductive ErrorKind :=
| ValidationError
| NotFoundError
| InvalidState
| StoreFailure.

(** What a handler sends when it rejects: [res.status(http).json({message})]. *)
Record Failure := {
  kind : ErrorKind;
  http : nat;
  message : string
}.

Definition Result (A : Type) : Type := (Failure + A)%type.

(** Left-to-right sum, as [$sum] and [Array.prototype.reduce] compute it. *)
Definition sumQ (l : list Q) : Q := fold_left Qplus l 0.

(** [x >= y] and [x > y] on numbers. *)
Definition geQ (x y : Q) : bool := Qle_bool y x.
Definition gtQ (x y : Q) : bool := negb (Qle_bool x y).
Definition leQ (x y : Q) : bool := Qle_bool x y.
Definition ltQ (x y : Q) : bool := negb (Qle_bool y x).

(** The Number value of a real: the nearest binary64 value, ties to the
    even significand. [ilog2 x] is the exponent of a positive [x], the
    significand has 53 bits; the exponent is not bounded, the amounts of
    the application being far from the ends of its range. *)
Definition ilog2 (x : Q) : Z :=
  let k := (Z.log2 (Qnum x) - Z.log2 (Z.pos (Qden x)))%Z in
  if Qle_bool (2 ^ k) x then k else (k - 1)%Z.

Definition roundTiesToEven (m : Q) : Z :=
  let f := Qfloor m in
  match Qcompare (m - inject_Z f) (1 # 2) with
  | Lt => f
  | Gt => (f + 1)%Z
  | Eq => if Z.even f then f else (f + 1)%Z
  end.

Definition doublePos (x : Q) : Q :=
  let e := ilog2 x in
  inject_Z (roundTiesToEven (x * 2 ^ (52 - e))) * 2 ^ (e - 52).

Definition double (x : Q) : Q :=
  Qred match Qnum x with
       | Z0 => 0
       | Zpos _ => doublePos x
       | Zneg _ => - doublePos (- x)
       end.

(** [String.prototype.trim], on the ASCII white space. *)
Definition is_space (a : ascii) : bool :=
  match nat_of_ascii a with
  | 9%nat | 10%nat | 11%nat | 12%nat | 13%nat | 32%nat => true
  | _ => false
  end.

Fixpoint ltrim (s : string) : string :=
  match s with
  | EmptyString => EmptyString
  | String a s' => if is_space a then ltrim s' else s
  end.

Fixpoint rtrim (s : string) : string :=
  match s with
  | EmptyString => EmptyString
  | String a s' =>
      match rtrim s' with
      | EmptyString => if is_space a then EmptyString else String a EmptyString
      | r => String a r
      end
  end.

Definition trim (s : string) : string := rtrim (ltrim s).

(** ** The aggregation stages and the sort the models use

    MongoDB fixes neither the order in which [$group] emits its rows nor
    the order [$sort] leaves among documents with equal keys. The stages
    below emit groups in the order their keys first occur and sort stably;
    nothing proved about them depends on either choice. *)

Module Mongo.

Section Group.
Context {Doc Key Acc : Type}.
Variable key : Doc -> Key.
Variable key_eqb : Key -> Key -> bool.
Variable init : Acc.
Variable step : Acc -> Doc -> Acc.

(** Feed one document to the accumulator of its group, opening a new
    group when its key is seen for the first time. *)
Fixpoint upsert (d : Doc) (groups : list (Key * Acc)) : list (Key * Acc) :=
  match groups with
  | [] => [(key d, step init d)]
  | (k, acc) :: rest =>
      if key_eqb (key d) k then (k, step acc d) :: rest
      else (k, acc) :: upsert d rest
  end.

(** [{ $group: { _id: key, ...accumulators } }]. *)
Definition group (docs : list Doc) : list (Key * Acc) :=
  fold_left (fun groups d => upsert d groups) docs [].

(** The documents of the group with key [k]. *)
Definition members (k : Key) (docs : list Doc) : list Doc :=
  List.filter (fun d => key_eqb (key d) k) docs.

(** The accumulator of the group with key [k], if there is one. *)
Fixpoint rowOf (k : Key) (groups : list (Key * Acc)) : option Acc :=
  match groups with
  | [] => None
  | (k', acc) :: rest => if key_eqb k k' then Some acc else rowOf k rest
  end.
End Group.

Section Sort.
Context {A : Type}.
Variable before : A -> A -> bool.

Fixpoint place (x : A) (l : list A) : list A :=
  match l with
  | [] => [x]
  | y :: l' => if before x y then x :: l else y :: place x l'
  end.

(** [a] may stand before [b] in the sorted result. *)
Definition inOrder (a b : A) : Prop := before a b = true.

(** [$sort] / [.sort(...)]: a stable sort by the given order. *)
Definition sort (l : list A) : list A := fold_right place [] l.
End Sort.

End Mongo.

(** ** models/Goal.js *)

Module GoalModel.

Inductive Category :=
| EmergencyFund | Gadget | Travel | Education | Investment
| Entertainment | Health | OtherCategory.

Inductive Priority := Low | Medium | High | Urgent.

Inductive Status := Active | Completed | Paused | Cancelled.

Inductive Frequency := Daily | Weekly | Monthly.

Inductive Source := Manual | AutoSaveSource | Bonus | OtherSource.

(** The strings stored in the documents. *)
Definition status_label (s : Status) : string :=
  match s with
  | Active => "active"
  | Completed => "completed"
  | Paused => "paused"
  | Cancelled => "cancelled"
  end.

Definition priority_label (p : Priority) : string :=
  match p with
  | Low => "low"
  | Medium => "medium"
  | High => "high"
  | Urgent => "urgent"
  end.

Definition status_eqb (a b : Status) : bool :=
  match a, b with
  | Active, Active | Completed, Completed
  | Paused, Paused | Cancelled, Cancelled => true
  | _, _ => false
  end.

Definition category_eqb (a b : Category) : bool :=
  match a, b with
  | EmergencyFund, EmergencyFund | Gadget, Gadget | Travel, Travel
  | Education, Education | Investment, Investment
  | Entertainment, Entertainment | Health, Health
  | OtherCategory, OtherCategory => true
  | _, _ => false
  end.

Module AutoSave.
Record t := {
  enabled : bool;
  amount : Q;
  frequency : Frequency;
  lastAutoSave : option Time
}.
Definition default : t :=
  {| enabled := false; amount := 0; frequency := Monthly; lastAutoSave := None |}.
End AutoSave.

Module Milestone.
Record t := {
  percentage : Q;
  amount : Q;
  achievedDate : option Time;
  isAchieved : bool
}.
End Milestone.

Module Contribution.
Record t := {
  amount : Q;
  date : Time;
  note : string;
  source : Source
}.
End Contribution.

Record Goal := {
  _id : ObjectId;
  user : ObjectId;
  title : string;
  description : option string;
  targetAmount : Q;
  currentAmount : Q;
  category : Category;
  priority : Priority;
  targetDate : Time;
  status : Status;
  autoSave : AutoSave.t;
  milestones : list Milestone.t;
  contributions : list Contribution.t;
  tags : list string;
  isPublic : bool;
  completedAt : option Time;
  createdAt : Time;
  updatedAt : Time
}.

(** Assignments to one path of a document. *)

Definition set_title (v : string) (g : Goal) : Goal :=
  {|
     _id := _id g; user := user g; title := v;
     description := description g; targetAmount := targetAmount g; currentAmount := currentAmount g;
     category := category g; priority := priority g; targetDate := targetDate g;
     status := status g; autoSave := autoSave g; milestones := milestones g;
     contributions := contributions g; tags := tags g; isPublic := isPublic g;
     completedAt := completedAt g; createdAt := createdAt g; updatedAt := updatedAt g |}.

Definition set_description (v : option string) (g : Goal) : Goal :=
  {|
     _id := _id g; user := user g; title := title g;
     description := v; targetAmount := targetAmount g; currentAmount := currentAmount g;
     category := category g; priority := priority g; targetDate := targetDate g;
     status := status g; autoSave := autoSave g; milestones := milestones g;
     contributions := contributions g; tags := tags g; isPublic := isPublic g;
     completedAt := completedAt g; createdAt := createdAt g; updatedAt := updatedAt g |}.

Definition set_targetAmount (v : Q) (g : Goal) : Goal :=
  {|
     _id := _id g; user := user g; title := title g;
     description := description g; targetAmount := v; currentAmount := currentAmount g;
     category := category g; priority := priority g; targetDate := targetDate g;
     status := status g; autoSave := autoSave g; milestones := milestones g;
     contributions := contributions g; tags := tags g; isPublic := isPublic g;
     completedAt := completedAt g; createdAt := createdAt g; updatedAt := updatedAt g |}.

Definition set_currentAmount (v : Q) (g : Goal) : Goal :=
  {|
     _id := _id g; user := user g; title := title g;
     description := description g; targetAmount := targetAmount g; currentAmount := v;
     category := category g; priority := priority g; targetDate := targetDate g;
     status := status g; autoSave := autoSave g; milestones := milestones g;
     contributions := contributions g; tags := tags g; isPublic := isPublic g;
     completedAt := completedAt g; createdAt := createdAt g; updatedAt := updatedAt g |}.

Definition set_category (v : Category) (g : Goal) : Goal :=
  {|
     _id := _id g; user := user g; title := title g;
     description := description g; targetAmount := targetAmount g; currentAmount := currentAmount g;
     category := v; priority := priority g; targetDate := targetDate g;
     status := status g; autoSave := autoSave g; milestones := milestones g;
     contributions := contributions g; tags := tags g; isPublic := isPublic g;
     completedAt := completedAt g; createdAt := createdAt g; updatedAt := updatedAt g |}.

Definition set_priority (v : Priority) (g : Goal) : Goal :=
  {|
     _id := _id g; user := user g; title := title g;
     description := description g; targetAmount := targetAmount g; currentAmount := currentAmount g;
     category := category g; priority := v; targetDate := targetDate g;
     status := status g; autoSave := autoSave g; milestones := milestones g;
     contributions := contributions g; tags := tags g; isPublic := isPublic g;
     completedAt := completedAt g; createdAt := createdAt g; updatedAt := updatedAt g |}.

Definition set_targetDate (v : Time) (g : Goal) : Goal :=
  {|
     _id := _id g; user := user g; title := title g;
     description := description g; targetAmount := targetAmount g; currentAmount := currentAmount g;
     category := category g; priority := priority g; targetDate := v;
     status := status g; autoSave := autoSave g; milestones := milestones g;
     contributions := contributions g; tags := tags g; isPublic := isPublic g;
     completedAt := completedAt g; createdAt := createdAt g; updatedAt := updatedAt g |}.

Definition set_status (v : Status) (g : Goal) : Goal :=
  {|
     _id := _id g; user := user g; title := title g;
     description := description g; targetAmount := targetAmount g; currentAmount := currentAmount g;
     category := category g; priority := priority g; targetDate := targetDate g;
     status := v; autoSave := autoSave g; milestones := milestones g;
     contributions := contributions g; tags := tags g; isPublic := isPublic g;
     completedAt := completedAt g; createdAt := createdAt g; updatedAt := updatedAt g |}.

Definition set_autoSave (v : AutoSave.t) (g : Goal) : Goal :=
  {|
     _id := _id g; user := user g; title := title g;
     description := description g; targetAmount := targetAmount g; currentAmount := currentAmount g;
     category := category g; priority := priority g; targetDate := targetDate g;
     status := status g; autoSave := v; milestones := milestones g;
     contributions := contributions g; tags := tags g; isPublic := isPublic g;
     completedAt := completedAt g; createdAt := createdAt g; updatedAt := updatedAt g |}.

Definition set_milestones (v : list Milestone.t) (g : Goal) : Goal :=
  {|
     _id := _id g; user := user g; title := title g;
     description := description g; targetAmount := targetAmount g; currentAmount := currentAmount g;
     category := category g; priority := priority g; targetDate := targetDate g;
     status := status g; autoSave := autoSave g; milestones := v;
     contributions := contributions g; tags := tags g; isPublic := isPublic g;
     completedAt := completedAt g; createdAt := createdAt g; updatedAt := updatedAt g |}.

Definition set_contributions (v : list Contribution.t) (g : Goal) : Goal :=
  {|
     _id := _id g; user := user g; title := title g;
     description := description g; targetAmount := targetAmount g; currentAmount := currentAmount g;
     category := category g; priority := priority g; targetDate := targetDate g;
     status := status g; autoSave := autoSave g; milestones := milestones g;
     contributions := v; tags := tags g; isPublic := isPublic g;
     completedAt := completedAt g; createdAt := createdAt g; updatedAt := updatedAt g |}.

Definition set_tags (v : list string) (g : Goal) : Goal :=
  {|
     _id := _id g; user := user g; title := title g;
     description := description g; targetAmount := targetAmount g; currentAmount := currentAmount g;
     category := category g; priority := priority g; targetDate := targetDate g;
     status := status g; autoSave := autoSave g; milestones := milestones g;
     contributions := contributions g; tags := v; isPublic := isPublic g;
     completedAt := completedAt g; createdAt := createdAt g; updatedAt := updatedAt g |}.

Definition set_completedAt (v : option Time) (g : Goal) : Goal :=
  {|
     _id := _id g; user := user g; title := title g;
     description := description g; targetAmount := targetAmount g; currentAmount := currentAmount g;
     category := category g; priority := priority g; targetDate := targetDate g;
     status := status g; autoSave := autoSave g; milestones := milestones g;
     contributions := contributions g; tags := tags g; isPublic := isPublic g;
     completedAt := v; createdAt := createdAt g; updatedAt := updatedAt g |}.

Definition set_updatedAt (v : Time) (g : Goal) : Goal :=
  {|
     _id := _id g; user := user g; title := title g;
     description := description g; targetAmount := targetAmount g; currentAmount := currentAmount g;
     category := category g; priority := priority g; targetDate := targetDate g;
     status := status g; autoSave := autoSave g; milestones := milestones g;
     contributions := contributions g; tags := tags g; isPublic := isPublic g;
     completedAt := completedAt g; createdAt := createdAt g; updatedAt := v |}.

(** Schema validators ([required], [min], [max]) that [save] runs before
    the hooks; [required] refuses the empty title, and the title is stored
    trimmed. *)
Definition validMilestone (m : Milestone.t) : bool :=
  geQ (Milestone.percentage m) 0 && leQ (Milestone.percentage m) 100
  && geQ (Milestone.amount m) 0.

Definition validContribution (c : Contribution.t) : bool :=
  geQ (Contribution.amount c) 0.

Definition validate (g : Goal) : bool :=
  negb (String.eqb (title g) "")
  && geQ (targetAmount g) 0
  && geQ (currentAmount g) 0
  && geQ (AutoSave.amount (autoSave g)) 0
  && forallb validMilestone (milestones g)
  && forallb validContribution (contributions g).

(** [milestones.forEach] of the pre-save hook, for one milestone. *)
Definition checkMilestone (now : Time) (current : Q) (m : Milestone.t)
  : Milestone.t :=
  if negb (Milestone.isAchieved m) && geQ current (Milestone.amount m)
  then {| Milestone.percentage := Milestone.percentage m;
          Milestone.amount := Milestone.amount m;
          Milestone.achievedDate := Some now;
          Milestone.isAchieved := true |}
  else m.

(** [goalSchema.pre('save')]. *)
Definition preSave (now : Time) (g : Goal) : Goal :=
  let g1 := set_updatedAt now g in
  let g2 :=
    if geQ (currentAmount g1) (targetAmount g1) && status_eqb (status g1) Active
    then set_completedAt (Some now) (set_status Completed g1)
    else g1 in
  set_milestones (map (checkMilestone now (currentAmount g2)) (milestones g2)) g2.

(** [doc.save()]: [None] is a rejected promise (a validator failed). *)
Definition save (now : Time) (g : Goal) : option Goal :=
  if validate g then Some (preSave now g) else None.

(** [goalSchema.methods.addContribution]. *)
Definition pushContribution (amount : Q) (note : string) (source : Source)
  (now : Time) (g : Goal) : Goal :=
  let c := {| Contribution.amount := amount; Contribution.date := now;
              Contribution.note := trim note; Contribution.source := source |} in
  let g1 := set_contributions (contributions g ++ [c]) g in
  set_currentAmount (currentAmount g1 + amount) g1.

Definition addContribution (amount : Q) (note : string) (source : Source)
  (now : Time) (g : Goal) : option Goal :=
  save now (pushContribution amount note source now g).

(** One row of the [$group] stage of [getUserGoalStats]. *)
Record GoalStat := {
  count : nat;
  totalTarget : Q;
  totalCurrent : Q
}.

Definition zeroStat : GoalStat :=
  {| count := 0; totalTarget := 0; totalCurrent := 0 |}.

Definition statStep (acc : GoalStat) (g : Goal) : GoalStat :=
  {| count := count acc + 1;
     totalTarget := totalTarget acc + targetAmount g;
     totalCurrent := totalCurrent acc + currentAmount g |}.

(** [goalSchema.statics.getUserGoalStats]: the aggregation, then the
    zero-filled object overwritten with one property per row. *)
Definition aggregateStats (userId : ObjectId) (goals : list Goal)
  : list (Status * GoalStat) :=
  Mongo.group status status_eqb zeroStat statStep
    (List.filter (fun g => Nat.eqb (user g) userId) goals).

Definition emptyStats : gmap string GoalStat :=
  <["cancelled" := zeroStat]>
    (<["paused" := zeroStat]>
       (<["completed" := zeroStat]> (<["active" := zeroStat]> ∅))).

Definition getUserGoalStats (userId : ObjectId) (goals : list Goal)
  : gmap string GoalStat :=
  fold_left
    (fun result stat => <[status_label (fst stat) := snd stat]> result)
    (aggregateStats userId goals) emptyStats.

(** Sort key [{ priority: 1, targetDate: 1 }]: [priority] is a string
    path, compared as strings; ties fall to the date. *)
Definition byPriorityThenDate (a b : Goal) : bool :=
  match String.compare (priority_label (priority a))
                       (priority_label (priority b)) with
  | Lt => true
  | Gt => false
  | Eq => (targetDate a <=? targetDate b)%Z
  end.

(** [goalSchema.statics.getGoalsByPriority]. *)
Definition getGoalsByPriority (userId : ObjectId) (goals : list Goal)
  : list Goal :=
  Mongo.sort byPriorityThenDate
    (List.filter
       (fun g => Nat.eqb (user g) userId && status_eqb (status g) Active)
       goals).

(** [goalSchema.statics.getOverdueGoals]. *)
Definition getOverdueGoals (today : Time) (userId : ObjectId)
  (goals : list Goal) : list Goal :=
  List.filter
    (fun g => Nat.eqb (user g) userId && status_eqb (status g) Active
              && (targetDate g <? today)%Z)
    goals.

(** [Math.min] on two numbers. *)
Definition minQ (x y : Q) : Q := if leQ x y then x else y.

(** [goalSchema.virtual('progressPercentage')]. *)
Definition progressPercentage (g : Goal) : Q :=
  if Qeq_bool (targetAmount g) 0 then 0
  else minQ (currentAmount g / targetAmount g * 100) 100.

(** [goalSchema.virtual('daysRemaining')], with [today] the clock. *)
Definition daysRemaining (today : Time) (g : Goal) : Z :=
  let timeDiff := (targetDate g - today)%Z in
  Qceiling (inject_Z timeDiff / (1000 * 3600 * 24)).

(** [goalSchema.virtual('requiredDailySavings')]. *)
Definition requiredDailySavings (today : Time) (g : Goal) : Q :=
  let remaining := targetAmount g - currentAmount g in
  let daysLeft := daysRemaining today g in
  if (daysLeft <=? 0)%Z || leQ remaining 0 then 0
  else remaining / inject_Z daysLeft.

End GoalModel.

(** ** routes/goals.js *)

Module GoalRoutes.
Import GoalModel.

(** The fields a client may send in [req.body]; [None] is [undefined]. *)
Module AutoSavePatch.
Record t := {
  enabled : option bool;
  amount : option Q;
  frequency : option Frequency;
  lastAutoSave : option (option Time)
}.
End AutoSavePatch.

Module Body.
Record t := {
  title : option string;
  description : option string;
  targetAmount : option Q;
  category : option Category;
  priority : option Priority;
  targetDate : option Time;
  status : option Status;
  autoSave : option AutoSavePatch.t;
  tags : option (list string)
}.
End Body.

Module ContributeBody.
Record t := {
  amount : option Q;
  note : option string;
  source : option Source
}.
End ContributeBody.

(** [{ ...goal.autoSave, ...autoSave }]. *)
Definition mergeAutoSave (a : AutoSave.t) (p : AutoSavePatch.t) : AutoSave.t :=
  {| AutoSave.enabled := default (AutoSave.enabled a) (AutoSavePatch.enabled p);
     AutoSave.amount := default (AutoSave.amount a) (AutoSavePatch.amount p);
     AutoSave.frequency :=
       default (AutoSave.frequency a) (AutoSavePatch.frequency p);
     AutoSave.lastAutoSave :=
       default (AutoSave.lastAutoSave a) (AutoSavePatch.lastAutoSave p) |}.

(** Truthiness of an optional string and of an optional number. *)
Definition truthyString (o : option string) : option string :=
  match o with
  | Some s => if String.eqb s "" then None else Some s
  | None => None
  end.

Definition truthyNumber (o : option Q) : option Q :=
  match o with
  | Some q => if Qeq_bool q 0 then None else Some q
  | None => None
  end.

Definition fail (k : ErrorKind) (code : nat) (msg : string) : Failure :=
  {| kind := k; http := code; message := msg |}.

(** [Goal.findOne({ _id, user })]. *)
Definition findOne (id userId : ObjectId) (goals : list Goal) : option Goal :=
  List.find (fun g => Nat.eqb (_id g) id && Nat.eqb (user g) userId) goals.

(** The write a successful [save] of a stored document performs. *)
Definition persist (g : Goal) (goals : list Goal) : list Goal :=
  map (fun h => if Nat.eqb (_id h) (_id g) then g else h) goals.

(** The four default milestones, with the schema defaults of the flags. *)
Definition mkMilestone (pct amount : Q) : Milestone.t :=
  {| Milestone.percentage := pct; Milestone.amount := amount;
     Milestone.achievedDate := None; Milestone.isAchieved := false |}.

Definition defaultMilestones (targetAmount : Q) : list Milestone.t :=
  [ mkMilestone 25 (targetAmount * 0.25);
    mkMilestone 50 (targetAmount * 0.5);
    mkMilestone 75 (targetAmount * 0.75);
    mkMilestone 100 targetAmount ].

(** [POST /api/goals]. [newId] is the identifier the store assigns. *)
Definition createGoal (now : Time) (newId userId : ObjectId) (b : Body.t)
  (goals : list Goal) : Result Goal * list Goal :=
  match truthyString (Body.title b), truthyNumber (Body.targetAmount b),
        Body.targetDate b with
  | Some ttl, Some target, Some goalTargetDate =>
      if leQ target 0 then
        (inl (fail ValidationError 400 "Target amount must be greater than 0."),
         goals)
      else if (goalTargetDate <=? now)%Z then
        (inl (fail ValidationError 400 "Target date must be in the future."),
         goals)
      else
        let goal :=
          {| _id := newId; user := userId; title := trim ttl;
             description :=
               option_map trim (truthyString (Body.description b));
             targetAmount := target; currentAmount := 0;
             category := default OtherCategory (Body.category b);
             priority := default Medium (Body.priority b);
             targetDate := goalTargetDate; status := Active;
             autoSave :=
               match Body.autoSave b with
               | Some p => mergeAutoSave AutoSave.default p
               | None => AutoSave.default
               end;
             milestones := defaultMilestones target;
             contributions := [];
             tags := match Body.tags b with
                     | Some l => map trim l
                     | None => []
                     end;
             isPublic := false; completedAt := None;
             createdAt := now; updatedAt := now |} in
        match save now goal with
        | Some g => (inr g, goals ++ [g])
        | None =>
            (inl (fail StoreFailure 500 "Server error while creating goal."),
             goals)
        end
  | _, _, _ =>
      (inl (fail ValidationError 400
              "Title, target amount, and target date are required."),
       goals)
  end.

(** The assignments of [PUT /api/goals/:id] before the target checks. *)
Definition assignFields (b : Body.t) (g : Goal) : Goal :=
  let g := match truthyString (Body.title b) with
           | Some s => set_title (trim s) g | None => g end in
  let g := match truthyString (Body.description b) with
           | Some s => set_description (Some (trim s)) g | None => g end in
  let g := match Body.category b with
           | Some c => set_category c g | None => g end in
  let g := match Body.priority b with
           | Some p => set_priority p g | None => g end in
  let g := match Body.status b with
           | Some s => set_status s g | None => g end in
  let g := match Body.autoSave b with
           | Some p => set_autoSave (mergeAutoSave (autoSave g) p) g
           | None => g end in
  match Body.tags b with
  | Some l => set_tags (map trim l) g
  | None => g
  end.

(** The in-memory document [PUT] hands to [save], or the 400 it sends. *)
Definition editGoal (now : Time) (b : Body.t) (goal : Goal) : Result Goal :=
  let g := assignFields b goal in
  let afterTarget : Result Goal :=
    match Body.targetAmount b with
    | Some target =>
        if leQ target 0 then
          inl (fail ValidationError 400 "Target amount must be greater than 0.")
        else
          inr (set_milestones (defaultMilestones target)
                 (set_targetAmount target g))
    | None => inr g
    end in
  match afterTarget with
  | inl f => inl f
  | inr g =>
      match Body.targetDate b with
      | Some goalTargetDate =>
          if (goalTargetDate <=? now)%Z then
            inl (fail ValidationError 400 "Target date must be in the future.")
          else inr (set_targetDate goalTargetDate g)
      | None => inr g
      end
  end.

(** [PUT /api/goals/:id]. *)
Definition updateGoal (now : Time) (id userId : ObjectId) (b : Body.t)
  (goals : list Goal) : Result Goal * list Goal :=
  match findOne id userId goals with
  | None => (inl (fail NotFoundError 404 "Goal not found."), goals)
  | Some goal =>
      match editGoal now b goal with
      | inl f => (inl f, goals)
      | inr g =>
          match save now g with
          | Some g' => (inr g', persist g' goals)
          | None =>
              (inl (fail StoreFailure 500 "Server error while updating goal."),
               goals)
          end
      end
  end.

(** [DELETE /api/goals/:id]. *)
Definition deleteGoal (id userId : ObjectId) (goals : list Goal)
  : Result unit * list Goal :=
  match findOne id userId goals with
  | None => (inl (fail NotFoundError 404 "Goal not found."), goals)
  | Some goal =>
      (inr tt, List.filter (fun h => negb (Nat.eqb (_id h) (_id goal))) goals)
  end.

(** [POST /api/goals/:id/contribute]. *)
Definition contribute (now : Time) (id userId : ObjectId)
  (b : ContributeBody.t) (goals : list Goal) : Result Goal * list Goal :=
  match truthyNumber (ContributeBody.amount b) with
  | None =>
      (inl (fail ValidationError 400 "Valid contribution amount is required."),
       goals)
  | Some amount =>
      if leQ amount 0 then
        (inl (fail ValidationError 400
                "Valid contribution amount is required."), goals)
      else
        match findOne id userId goals with
        | None => (inl (fail NotFoundError 404 "Goal not found."), goals)
        | Some goal =>
            if negb (status_eqb (status goal) Active) then
              (inl (fail InvalidState 400
                      "Cannot contribute to inactive goal."), goals)
            else
              match addContribution amount
                      (default ""%string (truthyString (ContributeBody.note b)))
                      (default Manual (ContributeBody.source b)) now goal with
              | Some g' => (inr g', persist g' goals)
              | None =>
                  (inl (fail StoreFailure 500
                          "Server error while adding contribution."), goals)
              end
        end
  end.

Definition msPerDay : Q := 1000 * 60 * 60 * 24.

(** The due check of the auto-save route. *)
Definition isDue (now : Time) (a : AutoSave.t) : bool :=
  match AutoSave.lastAutoSave a with
  | None => true
  | Some lastAutoSave =>
      let daysSinceLastSave := inject_Z (now - lastAutoSave) / msPerDay in
      match AutoSave.frequency a with
      | Daily => geQ daysSinceLastSave 1
      | Weekly => geQ daysSinceLastSave 7
      | Monthly => geQ daysSinceLastSave 30
      end
  end.

Definition set_lastAutoSave (t : option Time) (a : AutoSave.t) : AutoSave.t :=
  {| AutoSave.enabled := AutoSave.enabled a;
     AutoSave.amount := AutoSave.amount a;
     AutoSave.frequency := AutoSave.frequency a;
     AutoSave.lastAutoSave := t |}.

(** [POST /api/goals/:id/auto-save]. [now] is the handler's reading of the
    clock; [t1] and [t2] are the readings of the two saves. *)
Definition autoSaveGoal (now t1 t2 : Time) (id userId : ObjectId)
  (goals : list Goal) : Result Goal * list Goal :=
  match findOne id userId goals with
  | None => (inl (fail NotFoundError 404 "Goal not found."), goals)
  | Some goal =>
      if negb (AutoSave.enabled (autoSave goal))
         || leQ (AutoSave.amount (autoSave goal)) 0 then
        (inl (fail InvalidState 400 "Auto-save is not enabled for this goal."),
         goals)
      else if negb (status_eqb (status goal) Active) then
        (inl (fail InvalidState 400 "Cannot auto-save to inactive goal."),
         goals)
      else if negb (isDue now (autoSave goal)) then
        (inl (fail InvalidState 400 "Auto-save is not due yet."), goals)
      else
        match addContribution (AutoSave.amount (autoSave goal))
                "Auto-save contribution" AutoSaveSource t1 goal with
        | None =>
            (inl (fail StoreFailure 500
                    "Server error while processing auto-save."), goals)
        | Some g1 =>
            let g2 :=
              set_autoSave (set_lastAutoSave (Some now) (autoSave g1)) g1 in
            match save t2 g2 with
            | Some g3 => (inr g3, persist g3 goals)
            | None =>
                (inl (fail StoreFailure 500
                        "Server error while processing auto-save."),
                 persist g1 goals)
            end
        end
  end.

End GoalRoutes.

(** ** models/Expense.js *)

Module ExpenseModel.

Inductive Category :=
| Food | Transport | Entertainment | Shopping | Education | Health
| Rent | Utilities | Subscriptions | Party | Emergency | Other.

Inductive PaymentMethod := Cash | Card | Upi | Netbanking | OtherMethod.

Definition category_label (c : Category) : string :=
  match c with
  | Food => "food" | Transport => "transport"
  | Entertainment => "entertainment" | Shopping => "shopping"
  | Education => "education" | Health => "health" | Rent => "rent"
  | Utilities => "utilities" | Subscriptions => "subscriptions"
  | Party => "party" | Emergency => "emergency" | Other => "other"
  end.

Definition category_eq_dec (a b : Category) : {a = b} + {a <> b}.
Proof. decide equality. Defined.

Definition category_eqb (a b : Category) : bool :=
  if category_eq_dec a b then true else false.

Record Expense := {
  user : ObjectId;
  amount : Q;
  description : string;
  category : Category;
  date : Time;
  paymentMethod : PaymentMethod;
  isRecurring : bool
}.

(** Accumulators of the [$group] stage: [$sum] of the amounts and
    [$sum: 1]; [$avg] is their quotient. *)
Record CategoryAcc := {
  accTotal : Q;
  accCount : nat
}.

Definition accInit : CategoryAcc := {| accTotal := 0; accCount := 0 |}.

Definition accStep (acc : CategoryAcc) (e : Expense) : CategoryAcc :=
  {| accTotal := accTotal acc + amount e; accCount := accCount acc + 1 |}.

(** One document of the result. *)
Record CategoryRow := {
  _id : Category;
  totalAmount : Q;
  count : nat;
  avgAmount : Q
}.

Definition mkRow (g : Category * CategoryAcc) : CategoryRow :=
  {| _id := fst g;
     totalAmount := accTotal (snd g);
     count := accCount (snd g);
     avgAmount := accTotal (snd g) / inject_Z (Z.of_nat (accCount (snd g))) |}.

(** [$match]: the owner, and the date inside the closed window. *)
Definition inWindow (userId : ObjectId) (startDate endDate : Time)
  (e : Expense) : bool :=
  Nat.eqb (user e) userId
  && (startDate <=? date e)%Z && (date e <=? endDate)%Z.

(** [{ $sort: { totalAmount: -1 } }]. *)
Definition byTotalDesc (a b : CategoryRow) : bool :=
  geQ (totalAmount a) (totalAmount b).

(** [expenseSchema.statics.getCategoryWiseExpenses]. *)
Definition getCategoryWiseExpenses (userId : ObjectId)
  (startDate endDate : Time) (expenses : list Expense) : list CategoryRow :=
  Mongo.sort byTotalDesc
    (map mkRow
       (Mongo.group category category_eqb accInit accStep
          (List.filter (inWindow userId startDate endDate) expenses))).

(** [String.prototype.toLowerCase], on the ASCII letters. *)
Definition lowerAscii (a : ascii) : ascii :=
  let n := nat_of_ascii a in
  if (65 <=? n)%nat && (n <=? 90)%nat then ascii_of_nat (n + 32) else a.

Fixpoint toLowerCase (s : string) : string :=
  match s with
  | EmptyString => EmptyString
  | String a rest => String (lowerAscii a) (toLowerCase rest)
  end.

(** [hay.includes(needle)]. *)
Fixpoint includes (hay needle : string) : bool :=
  String.prefix needle hay
  || match hay with
     | EmptyString => false
     | String _ rest => includes rest needle
     end.

(** [categoryKeywords], in the order of its properties. *)
Definition categoryKeywords : list (Category * list string) :=
  [ (Food, ["food"; "restaurant"; "cafe"; "lunch"; "dinner"; "breakfast";
            "snack"; "pizza"; "burger"; "maggi"; "canteen"]%string);
    (Transport, ["uber"; "ola"; "bus"; "metro"; "train"; "auto"; "taxi";
                 "fuel"; "petrol"; "diesel"]%string);
    (Entertainment, ["movie"; "cinema"; "game"; "concert"; "show";
                     "netflix"; "spotify"; "youtube"]%string);
    (Shopping, ["amazon"; "flipkart"; "clothes"; "shoes"; "shopping";
                "mall"; "store"]%string);
    (Education, ["book"; "course"; "fee"; "tuition"; "exam";
                 "certification"; "udemy"; "coursera"]%string);
    (Health, ["medicine"; "doctor"; "hospital"; "pharmacy"; "medical";
              "health"]%string);
    (Rent, ["rent"; "hostel"; "accommodation"; "pg"]%string);
    (Utilities, ["electricity"; "water"; "internet"; "wifi"; "mobile";
                 "recharge"]%string);
    (Subscriptions, ["subscription"; "premium"; "pro"; "plus";
                     "monthly"]%string);
    (Party, ["party"; "club"; "bar"; "alcohol"; "beer";
             "celebration"]%string) ].

(** [keywords.some(keyword => description.includes(keyword))]. *)
Definition mentions (description : string) (keywords : list string) : bool :=
  existsb (fun keyword => includes description keyword) keywords.

(** [expenseSchema.methods.suggestCategory]. *)
Definition suggestCategory (e : Expense) : Category :=
  let description := toLowerCase (description e) in
  match List.find (fun entry => mentions description (snd entry))
          categoryKeywords with
  | Some entry => fst entry
  | None => Other
  end.

(** One document of the monthly trend. *)
Record TrendRow := {
  trendYear : Z;
  trendMonth : Z;
  trendTotal : Q;
  trendCount : nat
}.

Definition mkTrendRow (g : Z * Z * CategoryAcc) : TrendRow :=
  {| trendYear := fst (fst g); trendMonth := snd (fst g);
     trendTotal := accTotal (snd g); trendCount := accCount (snd g) |}.

Definition month_eqb (a b : Z * Z) : bool :=
  (fst a =? fst b)%Z && (snd a =? snd b)%Z.

(** [{ $sort: { '_id.year': 1, '_id.month': 1 } }]. *)
Definition byMonthAsc (a b : TrendRow) : bool :=
  (trendYear a <? trendYear b)%Z
  || ((trendYear a =? trendYear b)%Z && (trendMonth a <=? trendMonth b)%Z).

Section Trend.
(** [$year] and [$month] of a date. *)
Variable yearOf : Time -> Z.
Variable monthOf : Time -> Z.

Definition monthKey (e : Expense) : Z * Z :=
  (yearOf (date e), monthOf (date e)).

(** [expenseSchema.statics.getMonthlyTrend], from [startDate] on: the
    first instant of the month that lies [months] months back. *)
Definition getMonthlyTrend (userId : ObjectId) (startDate : Time)
  (expenses : list Expense) : list TrendRow :=
  Mongo.sort byMonthAsc
    (map mkTrendRow
       (Mongo.group monthKey month_eqb accInit accStep
          (List.filter
             (fun e => Nat.eqb (user e) userId && (startDate <=? date e)%Z)
             expenses))).
End Trend.

End ExpenseModel.

(** ** routes/expenses.js *)

Module ExpenseRoutes.
Import ExpenseModel.

Inductive RecurringFrequency := Daily | Weekly | Monthly | Yearly.

(** The fields of [req.body]; [None] is [undefined]. *)
Module ExpenseBody.
Record t := {
  amount : option Q;
  description : option string;
  category : option Category;
  subcategory : option string;
  tags : option (list string);
  date : option Time;
  paymentMethod : option PaymentMethod;
  location : option string;
  isRecurring : option bool;
  recurringFrequency : option RecurringFrequency;
  notes : option string
}.
End ExpenseBody.

(** A stored expense: the fields of [ExpenseModel.Expense] and the rest of
    the schema. *)
Record ExpenseDoc := {
  base : Expense;
  subcategory : option string;
  tags : list string;
  location : option string;
  recurringFrequency : option RecurringFrequency;
  notes : option string;
  aiGenerated : bool;
  aiConfidence : option Q;
  createdAt : Time;
  updatedAt : Time
}.

Definition truthyText (o : option string) : option string :=
  match o with
  | Some s => if String.eqb s "" then None else Some s
  | None => None
  end.

Definition truthyAmount (o : option Q) : option Q :=
  match o with
  | Some q => if Qeq_bool q 0 then None else Some q
  | None => None
  end.

(** The schema validators [save] and [insertMany] run: [min: 0] on the
    amount, [required] on the trimmed description, the bounds of
    [aiConfidence]. *)
Definition validExpense (d : ExpenseDoc) : bool :=
  geQ (amount (base d)) 0
  && negb (String.eqb (description (base d)) "")
  && match aiConfidence d with
     | Some c => geQ c 0 && leQ c 1
     | None => true
     end.

(** The auto-suggest block: a missing category or ['other'] is replaced by
    the suggestion and the document marked as AI-generated. *)
Definition autoSuggest (given : option Category) (d : ExpenseDoc) : ExpenseDoc :=
  match given with
  | Some Other | None =>
      {| base :=
           {| user := user (base d); amount := amount (base d);
              description := description (base d);
              category := suggestCategory (base d);
              date := date (base d);
              paymentMethod := paymentMethod (base d);
              isRecurring := isRecurring (base d) |};
         subcategory := subcategory d; tags := tags d;
         location := location d;
         recurringFrequency := recurringFrequency d; notes := notes d;
         aiGenerated := true; aiConfidence := Some 0.8;
         createdAt := createdAt d; updatedAt := updatedAt d |}
  | Some _ => d
  end.

(** [new Expense(expenseData)] of [POST /api/expenses]; [now] is the clock
    of the request, the texts are the trimmed ones. *)
Definition newExpense (now : Time) (userId : ObjectId) (amount : Q)
  (description : string) (b : ExpenseBody.t) : ExpenseDoc :=
  {| base :=
       {| user := userId; amount := amount;
          description := trim description;
          category := default Other (ExpenseBody.category b);
          date := default now (ExpenseBody.date b);
          paymentMethod := default OtherMethod (ExpenseBody.paymentMethod b);
          isRecurring :=
            match ExpenseBody.isRecurring b with
            | Some true => true
            | _ => false
            end |};
     subcategory := option_map trim (truthyText (ExpenseBody.subcategory b));
     tags := match ExpenseBody.tags b with
             | Some l => map trim l
             | None => []
             end;
     location := option_map trim (truthyText (ExpenseBody.location b));
     recurringFrequency := ExpenseBody.recurringFrequency b;
     notes := option_map trim (truthyText (ExpenseBody.notes b));
     aiGenerated := false; aiConfidence := None;
     createdAt := now; updatedAt := now |}.

(** [POST /api/expenses]. *)
Definition createExpense (now : Time) (userId : ObjectId) (b : ExpenseBody.t)
  (stored : list ExpenseDoc) : Result ExpenseDoc * list ExpenseDoc :=
  match truthyAmount (ExpenseBody.amount b),
        truthyText (ExpenseBody.description b) with
  | Some amount, Some description =>
      if leQ amount 0 then
        (inl {| kind := ValidationError; http := 400;
                message := "Amount must be greater than 0." |}, stored)
      else
        let expense :=
          autoSuggest (ExpenseBody.category b)
            (newExpense now userId amount description b) in
        if validExpense expense then (inr expense, stored ++ [expense])
        else
          (inl {| kind := StoreFailure; http := 500;
                  message := "Server error while adding expense." |}, stored)
  | _, _ =>
      (inl {| kind := ValidationError; http := 400;
              message := "Amount and description are required." |}, stored)
  end.

(** [new Expense({...})] of the bulk route: the optional texts are trimmed
    when present, empty or not. *)
Definition newBulkExpense (now : Time) (userId : ObjectId) (amount : Q)
  (description : string) (b : ExpenseBody.t) : ExpenseDoc :=
  {| base :=
       {| user := userId; amount := amount;
          description := trim description;
          category := default Other (ExpenseBody.category b);
          date := default now (ExpenseBody.date b);
          paymentMethod := default OtherMethod (ExpenseBody.paymentMethod b);
          isRecurring := false |};
     subcategory := option_map trim (ExpenseBody.subcategory b);
     tags := match ExpenseBody.tags b with
             | Some l => map trim l
             | None => []
             end;
     location := option_map trim (ExpenseBody.location b);
     recurringFrequency := None;
     notes := option_map trim (ExpenseBody.notes b);
     aiGenerated := false; aiConfidence := None;
     createdAt := now; updatedAt := now |}.

(** One turn of the loop of the bulk route over entry [i] (from 0): the
    entry joins [validExpenses] or a message joins [errors]. *)
Definition bulkStep (now : Time) (userId : ObjectId)
  (acc : list ExpenseDoc * list string) (ib : nat * ExpenseBody.t)
  : list ExpenseDoc * list string :=
  let i := fst ib in
  let b := snd ib in
  match truthyAmount (ExpenseBody.amount b),
        truthyText (ExpenseBody.description b) with
  | Some amount, Some description =>
      if leQ amount 0 then
        (fst acc,
         snd acc ++ [("Expense " +:+ pretty (i + 1)%nat
                      +:+ ": Amount must be greater than 0.")%string])
      else
        (fst acc
         ++ [autoSuggest (ExpenseBody.category b)
               (newBulkExpense now userId amount description b)],
         snd acc)
  | _, _ =>
      (fst acc,
       snd acc ++ [("Expense " +:+ pretty (i + 1)%nat
                    +:+ ": Amount and description are required.")%string])
  end.

(** What the bulk route rejects with: the failure and its [errors]. *)
Record BulkFailure := {
  failure : Failure;
  errors : list string
}.

(** [POST /api/expenses/bulk]; [None] is a body without an array. *)
Definition createExpenses (now : Time) (userId : ObjectId)
  (expenses : option (list ExpenseBody.t)) (stored : list ExpenseDoc)
  : (BulkFailure + list ExpenseDoc) * list ExpenseDoc :=
  match expenses with
  | None | Some [] =>
      (inl {| failure :=
                {| kind := ValidationError; http := 400;
                   message := "Please provide an array of expenses." |};
              errors := [] |}, stored)
  | Some entries =>
      let result :=
        fold_left (bulkStep now userId)
          (combine (seq 0 (length entries)) entries) ([], []) in
      match snd result with
      | _ :: _ =>
          (inl {| failure :=
                    {| kind := ValidationError; http := 400;
                       message := "Validation errors found." |};
                  errors := snd result |}, stored)
      | [] =>
          if forallb validExpense (fst result)
          then (inr (fst result), stored ++ fst result)
          else
            (inl {| failure :=
                      {| kind := StoreFailure; http := 500;
                         message := "Server error while adding expenses." |};
                    errors := [] |}, stored)
      end
  end.

Record Pagination := {
  currentPage : positive;
  totalPages : Z;
  totalExpenses : nat;
  hasNextPage : bool;
  hasPrevPage : bool;
  limit : positive
}.

(** The pagination of [GET /api/expenses], for a page and a limit of at
    least 1, from the documents the filter matches in the order of the
    sort: the page itself and the [pagination] object. *)
Definition expensesPage (page limit : positive) (matching : list ExpenseDoc)
  : list ExpenseDoc * Pagination :=
  let skip := ((Z.pos page - 1) * Z.pos limit)%Z in
  let expenses :=
    firstn (Pos.to_nat limit) (skipn (Z.to_nat skip) matching) in
  let total := length matching in
  let totalPages :=
    Qceiling (inject_Z (Z.of_nat total) / inject_Z (Z.pos limit)) in
  (expenses,
   {| currentPage := page;
      totalPages := totalPages;
      totalExpenses := total;
      hasNextPage := (Z.pos page <? totalPages)%Z;
      hasPrevPage := (Z.pos page >? 1)%Z;
      limit := limit |}).

End ExpenseRoutes.

(** ** models/User.js *)

Module UserModel.

Record User := {
  _id : ObjectId;
  monthlyBudget : Q;
  currency : string
}.

(** [userSchema.methods.getCurrentMonthExpenses]; the bounds of the
    current month are the caller's. *)
Definition getCurrentMonthExpenses (startOfMonth endOfMonth : Time)
  (expenses : list ExpenseModel.Expense) (u : User) : Q :=
  fold_left (fun total expense => total + ExpenseModel.amount expense)
    (List.filter (ExpenseModel.inWindow (_id u) startOfMonth endOfMonth)
       expenses) 0.

(** [userSchema.methods.getBudgetUtilization]. *)
Definition getBudgetUtilization (startOfMonth endOfMonth : Time)
  (expenses : list ExpenseModel.Expense) (u : User) : Q :=
  let currentExpenses :=
    getCurrentMonthExpenses startOfMonth endOfMonth expenses u in
  if Qeq_bool (monthlyBudget u) 0 then 0
  else currentExpenses / monthlyBudget u * 100.

End UserModel.

(** ** routes/analytics.js *)

Module Analytics.

(** [Math.round(x * 100) / 100]. *)
Definition round2 (x : Q) : Q :=
  inject_Z (Qfloor (x * 100 + 0.5)) / 100.

(** [rows[0]?.total || 0] on the rows of a [$group] with [_id: null]. *)
Definition firstTotal (rows : list Q) : Q :=
  match rows with
  | total :: _ => total
  | [] => 0
  end.

Inductive BudgetStatus := OnTrack | Warning | ProjectedOverspend | OverBudget.

Definition budgetStatus_label (s : BudgetStatus) : string :=
  match s with
  | OnTrack => "on-track"
  | Warning => "warning"
  | ProjectedOverspend => "projected-overspend"
  | OverBudget => "over-budget"
  end.

(** The metrics the status depends on; each division and each product is
    rounded as the handler's numbers round it. *)
Definition budgetUtilizationOf (currentTotal monthlyBudget : Q) : Q :=
  if gtQ monthlyBudget 0
  then double (double (currentTotal / monthlyBudget) * 100)
  else 0.

Definition dailyAverageOf (currentTotal : Q) (currentDay : Z) : Q :=
  if (currentDay >? 0)%Z then double (currentTotal / inject_Z currentDay)
  else 0.

Definition projectedMonthlyTotalOf (currentTotal : Q)
  (currentDay daysInMonth : Z) : Q :=
  double (dailyAverageOf currentTotal currentDay * inject_Z daysInMonth).

(** The [if / else if] chain that sets [budgetStatus]. *)
Definition classifyBudget (budgetUtilization projectedMonthlyTotal
                           monthlyBudget : Q) : BudgetStatus :=
  if gtQ budgetUtilization 100 then OverBudget
  else if gtQ budgetUtilization 80 then Warning
  else if gtQ projectedMonthlyTotal monthlyBudget then ProjectedOverspend
  else OnTrack.

(** The five suggested category budgets, in the order of the object. *)
Definition suggestedCategoryBudgets (monthlyBudget : Q) : list (string * Q) :=
  [ ("food"%string, monthlyBudget * 0.35);
    ("transport"%string, monthlyBudget * 0.15);
    ("entertainment"%string, monthlyBudget * 0.20);
    ("education"%string, monthlyBudget * 0.15);
    ("other"%string, monthlyBudget * 0.15) ].

Record BudgetAnalysis := {
  monthlyBudget : Q;
  currentSpending : Q;
  budgetUtilization : Q;
  remainingBudget : Q;
  budgetStatus : BudgetStatus;
  dailyAverage : Q;
  recommendedDailySpending : Q;
  daysRemaining : Z;
  projectedMonthlyTotal : Q;
  projectedOverspend : Q;
  categoryBudgets : list (string * Q)
}.

(** [GET /api/analytics/budget-analysis], from the query results on:
    [currentMonthExpenses] holds the rows of the month's [$group] (one row,
    or none when nothing was spent), [currentDay] is [new Date().getDate()]
    and [daysInMonth] is [endOfMonth.getDate()]. *)
Definition budgetAnalysis (currentMonthExpenses : list Q)
  (user : UserModel.User) (currentDay daysInMonth : Z) : BudgetAnalysis :=
  let currentTotal := firstTotal currentMonthExpenses in
  let monthlyBudget := UserModel.monthlyBudget user in
  let budgetUtilization := budgetUtilizationOf currentTotal monthlyBudget in
  let remainingBudget := double (monthlyBudget - currentTotal) in
  let daysRemaining := (daysInMonth - currentDay)%Z in
  let dailyAverage := dailyAverageOf currentTotal currentDay in
  let projectedMonthlyTotal :=
    double (dailyAverage * inject_Z daysInMonth) in
  let projectedOverspend := double (projectedMonthlyTotal - monthlyBudget) in
  let recommendedDailySpending :=
    if (daysRemaining >? 0)%Z
    then double (remainingBudget / inject_Z daysRemaining)
    else 0 in
  {| monthlyBudget := monthlyBudget;
     currentSpending := currentTotal;
     budgetUtilization := round2 budgetUtilization;
     remainingBudget := remainingBudget;
     budgetStatus :=
       classifyBudget budgetUtilization projectedMonthlyTotal monthlyBudget;
     dailyAverage := round2 dailyAverage;
     recommendedDailySpending := round2 recommendedDailySpending;
     daysRemaining := daysRemaining;
     projectedMonthlyTotal := round2 projectedMonthlyTotal;
     projectedOverspend := round2 projectedOverspend;
     categoryBudgets := suggestedCategoryBudgets monthlyBudget |}.

(** The local calendar date of a [Date]: [getFullYear], [getMonth] (from 0)
    and [getDate] (from 1). *)
Record CalendarDate := {
  fullYear : Z;
  monthIndex : Z;
  dayOfMonth : Z
}.

Definition isLeapYear (y : Z) : bool :=
  ((y mod 4 =? 0)%Z && negb (y mod 100 =? 0)%Z) || (y mod 400 =? 0)%Z.

Definition daysOfMonth (y m : Z) : Z :=
  match m with
  | 1%Z => if isLeapYear y then 29%Z else 28%Z
  | 3%Z | 5%Z | 8%Z | 10%Z => 30%Z
  | _ => 31%Z
  end.

Definition followingMonth (y m : Z) : Z * Z :=
  if (m =? 11)%Z then ((y + 1)%Z, 0%Z) else (y, (m + 1)%Z).

Definition previousMonth (y m : Z) : Z * Z :=
  if (m =? 0)%Z then ((y - 1)%Z, 11%Z) else (y, (m - 1)%Z).

(** [d.setMonth(d.getMonth() + 1)]: the same day of the month after; a day
    that month does not have runs over into the month after it. *)
Definition setMonthToNext (d : CalendarDate) : CalendarDate :=
  let next := followingMonth (fullYear d) (monthIndex d) in
  if (dayOfMonth d <=? daysOfMonth (fst next) (snd next))%Z
  then {| fullYear := fst next; monthIndex := snd next;
          dayOfMonth := dayOfMonth d |}
  else
    let after := followingMonth (fst next) (snd next) in
    {| fullYear := fst after; monthIndex := snd after;
       dayOfMonth := (dayOfMonth d - daysOfMonth (fst next) (snd next))%Z |}.

(** [d.setDate(0)]: the last day of the month before. *)
Definition setDateToZero (d : CalendarDate) : CalendarDate :=
  let before := previousMonth (fullYear d) (monthIndex d) in
  {| fullYear := fst before; monthIndex := snd before;
     dayOfMonth := daysOfMonth (fst before) (snd before) |}.

(** [endOfMonth], from [new Date()] by [setMonth(getMonth() + 1)] and
    [setDate(0)]. *)
Definition endOfMonthOn (today : CalendarDate) : CalendarDate :=
  setDateToZero (setMonthToNext today).

(** The handler on a day of the calendar. *)
Definition budgetAnalysisOn (today : CalendarDate)
  (currentMonthExpenses : list Q) (user : UserModel.User) : BudgetAnalysis :=
  budgetAnalysis currentMonthExpenses user (dayOfMonth today)
    (dayOfMonth (endOfMonthOn today)).

(** *** Financial health *)

(** The value of a JavaScript division whose divisor may be zero. *)
Inductive JsNum :=
| Fin (q : Q)
| PosInf
| NegInf
| NaN.

Definition jsDiv (a b : Q) : JsNum :=
  if Qeq_bool b 0 then
    if gtQ a 0 then PosInf else if ltQ a 0 then NegInf else NaN
  else Fin (a / b).

(** [x * 100] and [x >= k]; every comparison with [NaN] is false. *)
Definition jsTimes100 (x : JsNum) : JsNum :=
  match x with
  | Fin q => Fin (q * 100)
  | other => other
  end.

Definition jsGe (x : JsNum) (k : Q) : bool :=
  match x with
  | Fin q => geQ q k
  | PosInf => true
  | NegInf | NaN => false
  end.

Definition savingsRateOf (expenses income : Q) : Q :=
  let netSavings := income - expenses in
  if gtQ income 0 then netSavings / income * 100 else 0.

Record ScoreFactor := {
  factor : string;
  points : Z;
  status : string
}.

(** The running [healthScore] and the [scoreFactors] pushed so far. *)
Definition ScoreState : Type := (Z * list ScoreFactor)%type.

Definition award (pts : Z) (label st : string) (s : ScoreState) : ScoreState :=
  ((fst s + pts)%Z, snd s ++ [{| factor := label; points := pts; status := st |}]).

Definition mention (label st : string) (s : ScoreState) : ScoreState :=
  (fst s, snd s ++ [{| factor := label; points := 0; status := st |}]).

(** Factor 1: savings rate. *)
Definition scoreSavings (savingsRate : Q) (s : ScoreState) : ScoreState :=
  if geQ savingsRate 20 then award 30 "Excellent savings rate" "excellent" s
  else if geQ savingsRate 10 then award 20 "Good savings rate" "good" s
  else if geQ savingsRate 0 then award 10 "Positive savings" "fair" s
  else mention "Negative savings" "poor" s.

(** Factor 2: budget adherence. *)
Definition scoreBudget (budgetUtilization : Q) (s : ScoreState) : ScoreState :=
  if leQ budgetUtilization 80
  then award 25 "Excellent budget control" "excellent" s
  else if leQ budgetUtilization 100
  then award 15 "Good budget control" "good" s
  else if leQ budgetUtilization 120
  then award 5 "Slight budget overspend" "fair" s
  else mention "Significant budget overspend" "poor" s.

Definition totalGoalProgressOf (active : GoalModel.GoalStat) : JsNum :=
  if (0 <? GoalModel.count active)%nat
  then jsTimes100 (jsDiv (GoalModel.totalCurrent active)
                         (GoalModel.totalTarget active))
  else Fin 0.

(** Factor 3: goal progress. *)
Definition scoreGoals (activeGoals completedGoals : nat)
  (totalGoalProgress : JsNum) (s : ScoreState) : ScoreState :=
  if (0 <? completedGoals)%nat && jsGe totalGoalProgress 50
  then award 20 "Excellent goal achievement" "excellent" s
  else if jsGe totalGoalProgress 25
  then award 15 "Good goal progress" "good" s
  else if (0 <? activeGoals)%nat
  then award 10 "Goals set but limited progress" "fair" s
  else mention "No active financial goals" "poor" s.

Section Consistency.
(** [Math.sqrt]. *)
Variable sqrt : Q -> Q.

Definition coefficientOfVariationOf (monthlyExpenses : list Q) : Q :=
  let n := inject_Z (Z.of_nat (length monthlyExpenses)) in
  let avgExpense := fold_left (fun a b => a + b) monthlyExpenses 0 / n in
  let variance :=
    fold_left (fun sum expense => sum + (expense - avgExpense) ^ 2)
      monthlyExpenses 0 / n in
  let stdDev := sqrt variance in
  if gtQ avgExpense 0 then stdDev / avgExpense * 100 else 0.

(** Factor 4: expense consistency, skipped under two months of data. *)
Definition scoreConsistency (monthlyExpenses : list Q) (s : ScoreState)
  : ScoreState :=
  if (2 <=? length monthlyExpenses)%nat then
    let coefficientOfVariation := coefficientOfVariationOf monthlyExpenses in
    if leQ coefficientOfVariation 20
    then award 15 "Consistent spending patterns" "excellent" s
    else if leQ coefficientOfVariation 40
    then award 10 "Moderately consistent spending" "good" s
    else award 5 "Inconsistent spending patterns" "fair" s
  else s.
End Consistency.

(** Factor 5: emergency fund. *)
Definition isEmergencyFund (g : GoalModel.Goal) : bool :=
  GoalModel.category_eqb (GoalModel.category g) GoalModel.EmergencyFund.

Definition scoreEmergency (savingsGoals : list GoalModel.Goal)
  (s : ScoreState) : ScoreState :=
  match List.find isEmergencyFund savingsGoals with
  | Some emergencyFundGoal =>
      if geQ (GoalModel.currentAmount emergencyFundGoal)
             (GoalModel.targetAmount emergencyFundGoal * 0.5)
      then award 10 "Emergency fund in progress" "good" s
      else award 5 "Emergency fund started" "fair" s
  | None => mention "No emergency fund" "poor" s
  end.

(** The points a factor adds to the score, and the points a list of
    factor entries reports. *)
Definition pointsAwarded (f : ScoreState -> ScoreState) : Z :=
  fst (f (0%Z, [])).

Definition sumPoints (fs : list ScoreFactor) : Z :=
  fold_left Z.add (map points fs) 0%Z.

(** A factor that adds the same number of points, between 0 and [cap],
    to the score and to the entries it pushes. *)
Definition addsUpTo (cap : Z) (f : ScoreState -> ScoreState) : Prop :=
  (0 <= pointsAwarded f <= cap)%Z
  /\ forall s : ScoreState,
       fst (f s) = (fst s + pointsAwarded f)%Z
       /\ sumPoints (snd (f s)) = (sumPoints (snd s) + pointsAwarded f)%Z.

Definition healthStatusOf (healthScore : Z) : string :=
  if (80 <=? healthScore)%Z then "excellent"
  else if (60 <=? healthScore)%Z then "good"
  else if (40 <=? healthScore)%Z then "fair"
  else "poor".

Definition recommendationsOf (savingsRate budgetUtilization : Q)
  (activeGoals : nat) (hasEmergencyFund : bool) : list string :=
  (if ltQ savingsRate 10
   then ["Try to save at least 10% of your income each month"%string]
   else [])
  ++ (if gtQ budgetUtilization 100
      then ["Review and reduce expenses to stay within budget"%string]
      else [])
  ++ (if Nat.eqb activeGoals 0
      then ["Set specific financial goals to improve motivation"%string]
      else [])
  ++ (if hasEmergencyFund then []
      else ["Start building an emergency fund for unexpected expenses"%string]).

Record HealthReport := {
  healthScore : Z;
  healthStatus : string;
  scoreFactors : list ScoreFactor;
  metricSavingsRate : Q;
  metricBudgetUtilization : Q;
  metricActiveGoals : nat;
  metricCompletedGoals : nat;
  metricTotalGoalProgress : JsNum;
  recommendations : list string
}.

Definition jsRound2 (x : JsNum) : JsNum :=
  match x with
  | Fin q => Fin (round2 q)
  | other => other
  end.

Section Health.
Variable sqrt : Q -> Q.

(** The handler of [GET /api/analytics/financial-health] from the query
    results on. Reading [.count] of a missing status entry throws, and
    the handler answers 500. *)
Definition financialHealth (totalExpenses totalIncome : list Q)
  (goalStats : gmap string GoalModel.GoalStat)
  (savingsGoals : list GoalModel.Goal) (expenseVariability : list Q)
  (budgetUtilization : Q) : Result HealthReport :=
  let expenses := firstTotal totalExpenses in
  let income := firstTotal totalIncome in
  let savingsRate := savingsRateOf expenses income in
  match goalStats !! "active"%string, goalStats !! "completed"%string with
  | Some active, Some completed =>
      let activeGoals := GoalModel.count active in
      let completedGoals := GoalModel.count completed in
      let totalGoalProgress := totalGoalProgressOf active in
      let s0 : ScoreState := (0%Z, []) in
      let s1 := scoreSavings savingsRate s0 in
      let s2 := scoreBudget budgetUtilization s1 in
      let s3 := scoreGoals activeGoals completedGoals totalGoalProgress s2 in
      let s4 := scoreConsistency sqrt expenseVariability s3 in
      let s5 := scoreEmergency savingsGoals s4 in
      inr {| healthScore := fst s5;
             healthStatus := healthStatusOf (fst s5);
             scoreFactors := snd s5;
             metricSavingsRate := round2 savingsRate;
             metricBudgetUtilization := round2 budgetUtilization;
             metricActiveGoals := activeGoals;
             metricCompletedGoals := completedGoals;
             metricTotalGoalProgress := jsRound2 totalGoalProgress;
             recommendations :=
               recommendationsOf savingsRate budgetUtilization activeGoals
                 (match List.find isEmergencyFund savingsGoals with
                  | Some _ => true
                  | None => false
                  end) |}
  | _, _ =>
      inl {| kind := StoreFailure; http := 500;
             message := "Server error while calculating financial health." |}
  end.

(** The same handler with its goal queries and the user's budget
    utilization run on the collections. *)
Definition financialHealthOf (u : UserModel.User)
  (goals : list GoalModel.Goal) (startOfMonth endOfMonth : Time)
  (expenses : list ExpenseModel.Expense)
  (totalExpenses totalIncome expenseVariability : list Q)
  : Result HealthReport :=
  financialHealth totalExpenses totalIncome
    (GoalModel.getUserGoalStats (UserModel._id u) goals)
    (List.filter
       (fun g => Nat.eqb (GoalModel.user g) (UserModel._id u)
                 && GoalModel.status_eqb (GoalModel.status g) GoalModel.Active)
       goals)
    expenseVariability
    (UserModel.getBudgetUtilization startOfMonth endOfMonth expenses u).
End Health.

End Analytics.

(** ** routes/goals.js: the summary *)

Module GoalSummary.
Import GoalModel.

(** [Object.values(stats)]: the entries in the order of the properties of
    the object, which [getUserGoalStats] creates as active, completed,
    paused, cancelled. *)
Definition statValues (stats : gmap string GoalStat) : list GoalStat :=
  omap (fun k => stats !! k)
    ["active"%string; "completed"%string; "paused"%string;
     "cancelled"%string].

Record Summary := {
  stats : gmap string GoalStat;
  totalSaved : Q;
  totalTarget : Q;
  overallProgress : Q;
  overdueCount : nat;
  activeCount : nat;
  completedCount : nat;
  highPriorityCount : nat
}.

Definition isHighPriority (g : Goal) : bool :=
  match priority g with
  | High | Urgent => true
  | _ => false
  end.

(** [GET /api/goals/analytics/summary]. *)
Definition goalsSummary (now : Time) (userId : ObjectId) (goals : list Goal)
  : Result Summary :=
  let stats := getUserGoalStats userId goals in
  let overdueGoals := getOverdueGoals now userId goals in
  let priorityGoals := getGoalsByPriority userId goals in
  let totalSaved :=
    fold_left (fun sum stat => sum + GoalModel.totalCurrent stat)
      (statValues stats) 0 in
  let totalTarget :=
    fold_left (fun sum stat => sum + GoalModel.totalTarget stat)
      (statValues stats) 0 in
  let overallProgress :=
    if gtQ totalTarget 0 then totalSaved / totalTarget * 100 else 0 in
  match stats !! "active"%string, stats !! "completed"%string with
  | Some active, Some completed =>
      inr {| stats := stats;
             totalSaved := totalSaved;
             totalTarget := totalTarget;
             overallProgress := Analytics.round2 overallProgress;
             overdueCount := length overdueGoals;
             activeCount := count active;
             completedCount := count completed;
             highPriorityCount :=
               length (List.filter isHighPriority priorityGoals) |}
  | _, _ =>
      inl {| kind := StoreFailure; http := 500;
             message := "Server error while fetching goals summary." |}
  end.

End GoalSummary.

(** ** routes/ai.js *)

Module Ai.

Record Suggestion := {
  category : string;
  suggestedAmount : Q;
  description : string
}.

(** [studentBudgetAllocation], in the order of its keys. *)
Definition studentBudgetAllocation : list (string * Q) :=
  [ ("food"%string, 0.35); ("transport"%string, 0.15);
    ("entertainment"%string, 0.20); ("education"%string, 0.15);
    ("other"%string, 0.15) ].

Section Suggestions.
(** [Number.prototype.toLocaleString] and the conversion of a number
    inside a template literal. *)
Variable toLocaleString : Q -> string.
Variable toString : Q -> string.

Definition allocationEntry (monthlyBudget : Q) (kv : string * Q)
  : Suggestion :=
  let suggestedAmount := monthlyBudget * snd kv in
  {| category := fst kv;
     suggestedAmount := suggestedAmount;
     description :=
       ("Allocate ₹" ++ toLocaleString suggestedAmount ++ " for "
        ++ fst kv ++ " (" ++ toString (snd kv * 100) ++ "% of budget)")%string |}.

Definition setBudgetAdvisory : Suggestion :=
  {| category := "general";
     description :=
       "Set a monthly budget to get personalized category-wise suggestions";
     suggestedAmount := 0 |}.

Definition generalTips : Suggestion :=
  {| category := "tips";
     description :=
       "Use the 50/30/20 rule: 50% needs, 30% wants, 20% savings";
     suggestedAmount := 0 |}.

(** [generateBudgetSuggestions]. *)
Definition generateBudgetSuggestions (monthlyBudget : Q) : list Suggestion :=
  let suggestions :=
    if gtQ monthlyBudget 0
    then map (allocationEntry monthlyBudget) studentBudgetAllocation
    else [setBudgetAdvisory] in
  suggestions ++ [generalTips].
End Suggestions.

(** The category and amount of every suggestion. *)
Definition summary (l : list Suggestion) : list (string * Q) :=
  map (fun s => (category s, suggestedAmount s)) l.

End Ai.

(** * Requests, sequences of calls and sample data *)

Section Scenarios.
Import GoalModel GoalRoutes.

(** The sum of the amounts of the recorded contributions. *)
Definition contributionTotal (g : Goal) : Q :=
  sumQ (map Contribution.amount (contributions g)).

Definition balanced (g : Goal) : Prop :=
  contributionTotal g == currentAmount g.

(** One call of [addContribution]: its arguments and the clock. *)
Record Call := {
  callAmount : Q;
  callNote : string;
  callSource : Source;
  callTime : Time
}.

(** A sequence of calls, each on the document the previous one resolved
    with; [None] as soon as one call is rejected. *)
Fixpoint contributeAll (calls : list Call) (g : Goal) : option Goal :=
  match calls with
  | [] => Some g
  | c :: rest =>
      match addContribution (callAmount c) (callNote c) (callSource c)
              (callTime c) g with
      | Some g' => contributeAll rest g'
      | None => None
      end
  end.

(** A request on one goal, as the router dispatches it. *)
Inductive Request :=
| ReqContribute (b : ContributeBody.t)
| ReqAutoSave (t1 t2 : Time)
| ReqUpdate (b : Body.t).

Definition handle (now : Time) (id userId : ObjectId) (r : Request)
  (goals : list Goal) : Result Goal * list Goal :=
  match r with
  | ReqContribute b => contribute now id userId b goals
  | ReqAutoSave t1 t2 => autoSaveGoal now t1 t2 id userId goals
  | ReqUpdate b => updateGoal now id userId b goals
  end.

(** Whether the request carries a [targetAmount]. *)
Definition changesTarget (r : Request) : bool :=
  match r with
  | ReqUpdate b =>
      match Body.targetAmount b with Some _ => true | None => false end
  | _ => false
  end.

(** Every milestone achieved in [g] is, at the same position, achieved in [g']. *)
Definition keepsAchieved (g g' : Goal) : Prop :=
  forall (i : nat) (m : Milestone.t),
    milestones g !! i = Some m ->
    Milestone.isAchieved m = true ->
    exists m', milestones g' !! i = Some m' /\ Milestone.isAchieved m' = true.

(** Sample documents and requests. *)

Definition sampleAutoSave : AutoSave.t :=
  {| AutoSave.enabled := true; AutoSave.amount := 10;
     AutoSave.frequency := Weekly; AutoSave.lastAutoSave := None |}.

(** A goal as [POST /api/goals] leaves it: target 100, nothing saved yet. *)
Definition freshGoal : Goal :=
  {| _id := 1%nat; user := 7%nat; title := "Laptop"; description := None;
     targetAmount := 100; currentAmount := 0;
     category := Gadget; priority := High; targetDate := 5000%Z;
     status := Active; autoSave := sampleAutoSave;
     milestones := defaultMilestones 100; contributions := [];
     tags := []; isPublic := false; completedAt := None;
     createdAt := 0%Z; updatedAt := 0%Z |}.

Definition sampleCalls : list Call :=
  [ {| callAmount := 30; callNote := "first"; callSource := Manual;
       callTime := 10%Z |};
    {| callAmount := 12.5; callNote := ""; callSource := Bonus;
       callTime := 20%Z |} ].

(** The same goal after one contribution of 30: the 25% milestone is
    achieved. *)
Definition goalAt30 : Goal :=
  match addContribution 30 "first" Manual 10%Z freshGoal with
  | Some g => g
  | None => freshGoal
  end.

(** An edit that raises the target to 1000 and one that only pauses. *)
Definition emptyBody : Body.t :=
  {| Body.title := None; Body.description := None;
     Body.targetAmount := None; Body.category := None;
     Body.priority := None; Body.targetDate := None; Body.status := None;
     Body.autoSave := None; Body.tags := None |}.

Definition raiseTarget : Body.t :=
  {| Body.title := None; Body.description := None;
     Body.targetAmount := Some 1000; Body.category := None;
     Body.priority := None; Body.targetDate := None; Body.status := None;
     Body.autoSave := None; Body.tags := None |}.

Definition pauseGoal : Body.t :=
  {| Body.title := None; Body.description := None;
     Body.targetAmount := None; Body.category := None;
     Body.priority := None; Body.targetDate := None;
     Body.status := Some Paused;
     Body.autoSave := None; Body.tags := None |}.

(** The document a request answers with, when it answers with one. *)
Definition answered (r : Result Goal * list Goal) (fallback : Goal) : Goal :=
  match fst r with
  | inr g => g
  | inl _ => fallback
  end.

(** The period of an auto-save frequency, in days, and a day in
    milliseconds. *)
Definition periodDays (f : Frequency) : Z :=
  match f with
  | Daily => 1
  | Weekly => 7
  | Monthly => 30
  end.

Definition dayMs : Z := 86400000.

(** What the contribute route answers on a goal that is not active. *)
Definition inactiveGoalFailure : Failure :=
  {| kind := InvalidState; http := 400;
     message := "Cannot contribute to inactive goal." |}.

(** What the auto-save route answers when the period has not elapsed. *)
Definition notDueFailure : Failure :=
  {| kind := InvalidState; http := 400;
     message := "Auto-save is not due yet." |}.

(** A weekly auto-save last run at [last], and a goal carrying it. *)
Definition weeklyFrom (last : Time) : AutoSave.t :=
  {| AutoSave.enabled := true; AutoSave.amount := 10;
     AutoSave.frequency := Weekly; AutoSave.lastAutoSave := Some last |}.

Definition pausedGoal : Goal := set_status Paused goalAt30.

Definition contribute5 : ContributeBody.t :=
  {| ContributeBody.amount := Some 5; ContributeBody.note := None;
     ContributeBody.source := None |}.

(** Two food expenses and one transport expense of one owner, all dated
    inside the window from 0 to 1000. *)
Definition sampleExpense (a : Q) (c : ExpenseModel.Category) (d : Time)
  : ExpenseModel.Expense :=
  {| ExpenseModel.user := 7%nat; ExpenseModel.amount := a;
     ExpenseModel.description := "item"; ExpenseModel.category := c;
     ExpenseModel.date := d; ExpenseModel.paymentMethod := ExpenseModel.Cash;
     ExpenseModel.isRecurring := false |}.

Definition sampleExpenses : list ExpenseModel.Expense :=
  [ sampleExpense 100 ExpenseModel.Food 10%Z;
    sampleExpense 30 ExpenseModel.Transport 20%Z;
    sampleExpense 50 ExpenseModel.Food 30%Z ].

(** A row of the breakdown with its numbers in lowest terms. *)
Definition rowFigures (r : ExpenseModel.CategoryRow)
  : ExpenseModel.Category * Q * nat * Q :=
  (ExpenseModel._id r, Qred (ExpenseModel.totalAmount r),
   ExpenseModel.count r, Qred (ExpenseModel.avgAmount r)).

(** Four active goals of one owner, one of each priority, due on the
    same day. *)
Definition goalWithPriority (id : ObjectId) (p : Priority) : Goal :=
  set_priority p
    {| _id := id; user := 7%nat; title := "Goal"; description := None;
       targetAmount := 100; currentAmount := 0;
       category := Travel; priority := Medium; targetDate := 5000%Z;
       status := Active; autoSave := AutoSave.default;
       milestones := defaultMilestones 100; contributions := [];
       tags := []; isPublic := false; completedAt := None;
       createdAt := 0%Z; updatedAt := 0%Z |}.

Definition fourPriorities : list Goal :=
  [ goalWithPriority 1%nat Urgent; goalWithPriority 2%nat High;
    goalWithPriority 3%nat Medium; goalWithPriority 4%nat Low ].

(** The goals of an owner that are in a given status. *)
Definition goalsInStatus (userId : ObjectId) (s : Status) (goals : list Goal)
  : list Goal :=
  List.filter
    (fun g => Nat.eqb (user g) userId && status_eqb (status g) s) goals.

(** A user with a budget of 1000 who spent 700 this month. *)
Definition sampleUser : UserModel.User :=
  {| UserModel._id := 7%nat; UserModel.monthlyBudget := 1000;
     UserModel.currency := "INR" |}.

Definition monthExpenses : list ExpenseModel.Expense :=
  [ sampleExpense 450 ExpenseModel.Rent 10%Z;
    sampleExpense 250 ExpenseModel.Food 20%Z ].

(** Every stored goal passes the schema validators. *)
Definition validStore (goals : list Goal) : Prop :=
  Forall (fun g => validate g = true) goals.

(** A goal as a save leaves it: not active once the target is reached,
    and every milestone whose threshold is reached flagged. *)
Definition settled (g : Goal) : Prop :=
  (status g = Active -> currentAmount g < targetAmount g)
  /\ Forall (fun m => Milestone.amount m <= currentAmount g ->
                      Milestone.isAchieved m = true) (milestones g).



(** A goal of another owner. *)
Definition othersGoal : Goal :=
  {| _id := 9%nat; user := 8%nat; title := "Bike"; description := None;
     targetAmount := 300; currentAmount := 0;
     category := Gadget; priority := Low; targetDate := 7000%Z;
     status := Active; autoSave := AutoSave.default;
     milestones := defaultMilestones 300; contributions := [];
     tags := []; isPublic := false; completedAt := None;
     createdAt := 0%Z; updatedAt := 0%Z |}.

(** A contribution of 80, which takes [goalAt30] past its target. *)
Definition contribute80 : ContributeBody.t :=
  {| ContributeBody.amount := Some 80; ContributeBody.note := None;
     ContributeBody.source := None |}.

(** The budget statuses from best to worst. *)
Definition statusRank (s : Analytics.BudgetStatus) : nat :=
  match s with
  | Analytics.OnTrack => 0
  | Analytics.ProjectedOverspend => 1
  | Analytics.Warning => 2
  | Analytics.OverBudget => 3
  end.

(** The entries the health report lists when there is no active goal and
    no emergency fund. *)
Definition noActiveGoalsEntry : Analytics.ScoreFactor :=
  {| Analytics.factor := "No active financial goals";
     Analytics.points := 0; Analytics.status := "poor" |}.

Definition noEmergencyFundEntry : Analytics.ScoreFactor :=
  {| Analytics.factor := "No emergency fund";
     Analytics.points := 0; Analytics.status := "poor" |}.

(** Request bodies of the expense routes. *)
Definition emptyExpenseBody : ExpenseRoutes.ExpenseBody.t :=
  {| ExpenseRoutes.ExpenseBody.amount := None;
     ExpenseRoutes.ExpenseBody.description := None;
     ExpenseRoutes.ExpenseBody.category := None;
     ExpenseRoutes.ExpenseBody.subcategory := None;
     ExpenseRoutes.ExpenseBody.tags := None;
     ExpenseRoutes.ExpenseBody.date := None;
     ExpenseRoutes.ExpenseBody.paymentMethod := None;
     ExpenseRoutes.ExpenseBody.location := None;
     ExpenseRoutes.ExpenseBody.isRecurring := None;
     ExpenseRoutes.ExpenseBody.recurringFrequency := None;
     ExpenseRoutes.ExpenseBody.notes := None |}.

Definition expenseBody (a : Q) (text : string) : ExpenseRoutes.ExpenseBody.t :=
  {| ExpenseRoutes.ExpenseBody.amount := Some a;
     ExpenseRoutes.ExpenseBody.description := Some text;
     ExpenseRoutes.ExpenseBody.category := None;
     ExpenseRoutes.ExpenseBody.subcategory := None;
     ExpenseRoutes.ExpenseBody.tags := None;
     ExpenseRoutes.ExpenseBody.date := None;
     ExpenseRoutes.ExpenseBody.paymentMethod := None;
     ExpenseRoutes.ExpenseBody.location := None;
     ExpenseRoutes.ExpenseBody.isRecurring := None;
     ExpenseRoutes.ExpenseBody.recurringFrequency := None;
     ExpenseRoutes.ExpenseBody.notes := None |}.


(** The messages of the bulk route for its entry number [i + 1]. *)
Definition requiredMessage (i : nat) : string :=
  "Expense " +:+ pretty (i + 1)%nat
  +:+ ": Amount and description are required.".

Definition positiveMessage (i : nat) : string :=
  "Expense " +:+ pretty (i + 1)%nat
  +:+ ": Amount must be greater than 0.".

(** The pages a reader gets who asks for page 1 and then for every page
    up to [totalPages]. *)
Definition allPages (limit : positive)
  (matching : list ExpenseRoutes.ExpenseDoc)
  : list (list ExpenseRoutes.ExpenseDoc) :=
  map (fun k =>
         fst (ExpenseRoutes.expensesPage (Pos.of_nat (S k)) limit matching))
    (seq 0 (Z.to_nat (ExpenseRoutes.totalPages
                        (snd (ExpenseRoutes.expensesPage 1 limit matching))))).

(** The order of the months of the calendar. *)
Definition monthBefore (a b : ExpenseModel.TrendRow) : Prop :=
  (ExpenseModel.trendYear a < ExpenseModel.trendYear b)%Z
  \/ (ExpenseModel.trendYear a = ExpenseModel.trendYear b
      /\ (ExpenseModel.trendMonth a <= ExpenseModel.trendMonth b)%Z).

(** What the loop of the bulk route makes of an entry it accepts. *)
Definition accepted (now : Time) (userId : ObjectId)
  (b : ExpenseRoutes.ExpenseBody.t) (d : ExpenseRoutes.ExpenseDoc) : Prop :=
  exists a text,
    ExpenseRoutes.truthyAmount (ExpenseRoutes.ExpenseBody.amount b) = Some a
    /\ ExpenseRoutes.truthyText (ExpenseRoutes.ExpenseBody.description b)
       = Some text
    /\ 0 < a
    /\ d = ExpenseRoutes.autoSuggest (ExpenseRoutes.ExpenseBody.category b)
             (ExpenseRoutes.newBulkExpense now userId a text b).

(** A date of the calendar: a month from 0 to 11 and a day the month
    has. *)
Definition validDate (d : Analytics.CalendarDate) : Prop :=
  (0 <= Analytics.monthIndex d <= 11)%Z
  /\ (1 <= Analytics.dayOfMonth d
      <= Analytics.daysOfMonth (Analytics.fullYear d)
           (Analytics.monthIndex d))%Z.

Definition january31 : Analytics.CalendarDate :=
  {| Analytics.fullYear := 2025; Analytics.monthIndex := 0;
     Analytics.dayOfMonth := 31 |}.

Definition april30 : Analytics.CalendarDate :=
  {| Analytics.fullYear := 2025; Analytics.monthIndex := 3;
     Analytics.dayOfMonth := 30 |}.

End Scenarios.

(** * Properties *)

(** ** Comparisons *)

Lemma geQ_true (x y : Q) : geQ x y = true <-> y <= x.
Proof. unfold geQ. apply Qle_bool_iff. Qed.

Lemma leQ_true (x y : Q) : leQ x y = true <-> x <= y.
Proof. unfold leQ. apply Qle_bool_iff. Qed.

Lemma gtQ_true (x y : Q) : gtQ x y = true <-> y < x.
Proof.
  unfold gtQ. rewrite negb_true_iff, <- not_true_iff_false, Qle_bool_iff.
  split; [apply Qnot_le_lt | apply Qlt_not_le].
Qed.

Lemma ltQ_true (x y : Q) : ltQ x y = true <-> x < y.
Proof. unfold ltQ. apply (gtQ_true y x). Qed.

Lemma geQ_false (x y : Q) : geQ x y = false <-> x < y.
Proof.
  unfold geQ. rewrite <- not_true_iff_false, Qle_bool_iff.
  split; [apply Qnot_le_lt | apply Qlt_not_le].
Qed.

Lemma leQ_false (x y : Q) : leQ x y = false <-> y < x.
Proof. unfold leQ. apply (geQ_false y x). Qed.

Lemma gtQ_false (x y : Q) : gtQ x y = false <-> x <= y.
Proof. unfold gtQ. rewrite negb_false_iff. apply Qle_bool_iff. Qed.

Lemma sumQ_snoc (l : list Q) (a : Q) : sumQ (l ++ [a]) = sumQ l + a.
Proof. unfold sumQ. now rewrite fold_left_app. Qed.

(** ** The contribution ledger *)

Section Ledger.
Import GoalModel.

Lemma preSave_currentAmount now g :
  currentAmount (preSave now g) = currentAmount g.
Proof. unfold preSave. simpl. now destruct (_ && _). Qed.

Lemma preSave_contributions now g :
  contributions (preSave now g) = contributions g.
Proof. unfold preSave. simpl. now destruct (_ && _). Qed.

Lemma preSave_balanced now g : balanced g -> balanced (preSave now g).
Proof.
  unfold balanced, contributionTotal.
  now rewrite preSave_currentAmount, preSave_contributions.
Qed.

Lemma pushContribution_balanced amount note source now g :
  balanced g -> balanced (pushContribution amount note source now g).
Proof.
  unfold balanced, contributionTotal, pushContribution.
  cbn [contributions currentAmount set_contributions set_currentAmount].
  intros H. rewrite map_app. cbn [map Contribution.amount].
  rewrite sumQ_snoc. now rewrite H.
Qed.

Lemma addContribution_some amount note source now g g' :
  addContribution amount note source now g = Some g' ->
  g' = preSave now (pushContribution amount note source now g).
Proof.
  unfold addContribution, save. destruct (validate _); congruence.
Qed.

Lemma addContribution_balanced amount note source now g g' :
  balanced g ->
  addContribution amount note source now g = Some g' ->
  balanced g'.
Proof.
  intros Hb Hs. apply addContribution_some in Hs. subst g'.
  now apply preSave_balanced, pushContribution_balanced.
Qed.

Lemma contributeAll_balanced calls : forall g g',
  balanced g -> contributeAll calls g = Some g' -> balanced g'.
Proof.
  induction calls as [|c rest IH]; simpl; intros g g' Hb Hr.
  - now inversion Hr; subst.
  - destruct (addContribution _ _ _ _ g) as [g1|] eqn:E; [|discriminate].
    eapply IH; [|exact Hr]. eapply addContribution_balanced; eauto.
Qed.

(** C1. From a goal with current amount 0 and no contributions, after any
    sequence of successful [addContribution] calls the amounts of the
    contribution records sum to the goal's current amount. *)
Theorem contributions_sum_to_currentAmount (g0 : Goal) (calls : list Call)
  (g : Goal) :
  currentAmount g0 == 0 ->
  contributions g0 = [] ->
  contributeAll calls g0 = Some g ->
  sumQ (map Contribution.amount (contributions g)) == currentAmount g.
Proof.
  intros H0 Hc Hr.
  apply (contributeAll_balanced calls g0 g); [|exact Hr].
  unfold balanced, contributionTotal. rewrite Hc, H0. reflexivity.
Qed.

End Ledger.

(** ** Milestones *)

Section Milestones.
Import GoalModel GoalRoutes.

Lemma keepsAchieved_same g g' :
  milestones g' = milestones g -> keepsAchieved g g'.
Proof. intros E i m Hm Ha. rewrite E. eauto. Qed.

Lemma keepsAchieved_trans g1 g2 g3 :
  keepsAchieved g1 g2 -> keepsAchieved g2 g3 -> keepsAchieved g1 g3.
Proof.
  intros H12 H23 i m Hm Ha.
  destruct (H12 i m Hm Ha) as (m2 & Hm2 & Ha2). eauto.
Qed.

Lemma checkMilestone_achieved now cur m :
  Milestone.isAchieved m = true -> checkMilestone now cur m = m.
Proof. unfold checkMilestone. now intros ->. Qed.

Lemma checkMilestone_flag now cur m :
  Milestone.isAchieved (checkMilestone now cur m)
  = Milestone.isAchieved m || geQ cur (Milestone.amount m).
Proof.
  unfold checkMilestone.
  destruct (Milestone.isAchieved m) eqn:Ha; simpl; [now rewrite Ha|].
  destruct (geQ cur (Milestone.amount m)); simpl; [reflexivity | exact Ha].
Qed.

Lemma checkMilestone_amount now cur m :
  Milestone.amount (checkMilestone now cur m) = Milestone.amount m.
Proof. unfold checkMilestone. now destruct (_ && _). Qed.

Lemma preSave_milestones now g :
  milestones (preSave now g)
  = map (checkMilestone now (currentAmount g)) (milestones g).
Proof. unfold preSave. simpl. now destruct (_ && _). Qed.

Lemma preSave_keepsAchieved now g : keepsAchieved g (preSave now g).
Proof.
  intros i m Hm Ha. rewrite preSave_milestones.
  exists m. split; [|exact Ha].
  rewrite list_lookup_fmap, Hm. simpl.
  now rewrite checkMilestone_achieved.
Qed.

Lemma save_some now g g' : save now g = Some g' -> g' = preSave now g.
Proof. unfold save. destruct (validate g); congruence. Qed.

Lemma addContribution_keepsAchieved amount note source now g g' :
  addContribution amount note source now g = Some g' -> keepsAchieved g g'.
Proof.
  intros H. apply addContribution_some in H. subst g'.
  eapply keepsAchieved_trans; [|apply preSave_keepsAchieved].
  now apply keepsAchieved_same.
Qed.

Lemma assignFields_milestones b g :
  milestones (assignFields b g) = milestones g.
Proof.
  unfold assignFields.
  destruct (truthyString (Body.title b)), (truthyString (Body.description b)),
    (Body.category b), (Body.priority b), (Body.status b), (Body.autoSave b),
    (Body.tags b); reflexivity.
Qed.

Lemma assignFields_currentAmount b g :
  currentAmount (assignFields b g) = currentAmount g.
Proof.
  unfold assignFields.
  destruct (truthyString (Body.title b)), (truthyString (Body.description b)),
    (Body.category b), (Body.priority b), (Body.status b), (Body.autoSave b),
    (Body.tags b); reflexivity.
Qed.

Lemma editGoal_same_target now b g g1 :
  Body.targetAmount b = None ->
  editGoal now b g = inr g1 ->
  milestones g1 = milestones g.
Proof.
  unfold editGoal. intros ->.
  destruct (Body.targetDate b) as [d|].
  - destruct (d <=? now)%Z; [discriminate|].
    intros [= <-]. simpl. apply assignFields_milestones.
  - intros [= <-]. apply assignFields_milestones.
Qed.

Lemma editGoal_new_target now b g g1 target :
  Body.targetAmount b = Some target ->
  editGoal now b g = inr g1 ->
  milestones g1 = defaultMilestones target
  /\ currentAmount g1 = currentAmount g
  /\ leQ target 0 = false.
Proof.
  unfold editGoal. intros ->.
  destruct (leQ target 0) eqn:Ht; [discriminate|].
  destruct (Body.targetDate b) as [d|].
  - destruct (d <=? now)%Z; [discriminate|].
    intros [= <-]. simpl. now rewrite assignFields_currentAmount.
  - intros [= <-]. simpl. now rewrite assignFields_currentAmount.
Qed.

(** What each successful request does to the document it finds. *)
Lemma handle_keepsAchieved now id userId r goals g g' goals' :
  findOne id userId goals = Some g ->
  changesTarget r = false ->
  handle now id userId r goals = (inr g', goals') ->
  keepsAchieved g g'.
Proof.
  intros Hf Hc. destruct r as [b|t1 t2|b]; simpl.
  - unfold contribute.
    destruct (truthyNumber _) as [a|]; [|discriminate].
    destruct (leQ a 0); [discriminate|]. rewrite Hf.
    destruct (negb _); [discriminate|].
    destruct (addContribution _ _ _ _ _) as [g1|] eqn:E; [|discriminate].
    intros [= <- _]. eapply addContribution_keepsAchieved; eauto.
  - unfold autoSaveGoal. rewrite Hf.
    destruct (_ || _); [discriminate|].
    destruct (negb (status_eqb _ _)); [discriminate|].
    destruct (negb (isDue _ _)); [discriminate|].
    destruct (addContribution _ _ _ _ _) as [g1|] eqn:E; [|discriminate].
    destruct (save t2 _) as [g3|] eqn:E3; [|discriminate].
    intros [= <- _]. apply save_some in E3. subst g3.
    eapply keepsAchieved_trans;
      [eapply addContribution_keepsAchieved; eauto|].
    eapply keepsAchieved_trans; [|apply preSave_keepsAchieved].
    now apply keepsAchieved_same.
  - unfold updateGoal. rewrite Hf.
    simpl in Hc. destruct (Body.targetAmount b) eqn:Et; [discriminate|].
    destruct (editGoal now b g) as [f|g1] eqn:Ee; [discriminate|].
    destruct (save now g1) as [g2|] eqn:Es; [|discriminate].
    intros [= <- _]. apply save_some in Es. subst g2.
    eapply keepsAchieved_trans; [|apply preSave_keepsAchieved].
    apply keepsAchieved_same. eapply editGoal_same_target; eauto.
Qed.

End Milestones.

Section GoalClaims.
Import GoalModel GoalRoutes.

Lemma contributions_sum_to_currentAmount_witness :
  match contributeAll sampleCalls freshGoal with
  | Some g => sumQ (map Contribution.amount (contributions g)) == currentAmount g
  | None => False
  end.
Proof.
  destruct (contributeAll sampleCalls freshGoal) as [g|] eqn:E.
  - apply (contributions_sum_to_currentAmount freshGoal sampleCalls g);
      [reflexivity | reflexivity | exact E].
  - vm_compute in E. discriminate E.
Defined.

(** C2, as amended. A request that succeeds on a goal and carries no target
    amount (a contribution, an auto-save, an edit of the status or of any
    other field) leaves every achieved milestone achieved. An edit that
    carries a target amount replaces the four milestones: their thresholds
    are the defaults of the new target and each flag is true exactly when
    the current amount reaches the new threshold. *)
Theorem achieved_kept_unless_target_edited
  (now : Time) (id userId : ObjectId) (r : Request) (goals : list Goal)
  (g g' : Goal) (goals' : list Goal) :
  findOne id userId goals = Some g ->
  handle now id userId r goals = (inr g', goals') ->
  (changesTarget r = false -> keepsAchieved g g')
  /\ (forall b target,
        r = ReqUpdate b -> Body.targetAmount b = Some target ->
        map Milestone.amount (milestones g')
        = map Milestone.amount (defaultMilestones target)
        /\ map Milestone.isAchieved (milestones g')
           = map (fun d => geQ (currentAmount g) (Milestone.amount d))
               (defaultMilestones target)).
Proof.
  intros Hf Hh. split.
  - intros Hc. eapply handle_keepsAchieved; eauto.
  - intros b target -> Ht. simpl in Hh. unfold updateGoal in Hh.
    rewrite Hf in Hh.
    destruct (editGoal now b g) as [f|g1] eqn:Ee; [discriminate|].
    destruct (save now g1) as [g2|] eqn:Es; [|discriminate].
    injection Hh as <- _. apply save_some in Es. subst g2.
    destruct (editGoal_new_target _ _ _ _ _ Ht Ee) as (Hm & Hc & _).
    rewrite preSave_milestones, Hm, Hc. unfold defaultMilestones.
    cbn [map]. split.
    + now rewrite !checkMilestone_amount.
    + now rewrite !checkMilestone_flag.
Qed.

Lemma achieved_kept_unless_target_edited_witness :
  keepsAchieved goalAt30
    (answered (handle 50%Z 1%nat 7%nat (ReqUpdate pauseGoal) [goalAt30]) goalAt30)
  /\ map Milestone.isAchieved
       (milestones
          (answered (handle 50%Z 1%nat 7%nat (ReqUpdate raiseTarget) [goalAt30])
             goalAt30))
     = [false; false; false; false].
Proof.
  split.
  - refine (proj1 (achieved_kept_unless_target_edited 50%Z 1%nat 7%nat
                     (ReqUpdate pauseGoal) [goalAt30] goalAt30 _
                     (snd (handle 50%Z 1%nat 7%nat (ReqUpdate pauseGoal)
                             [goalAt30])) _ _) _);
      [vm_compute; reflexivity | vm_compute; reflexivity | reflexivity].
  - etransitivity.
    + refine (proj2 (proj2 (achieved_kept_unless_target_edited 50%Z 1%nat 7%nat
                       (ReqUpdate raiseTarget) [goalAt30] goalAt30 _
                       (snd (handle 50%Z 1%nat 7%nat (ReqUpdate raiseTarget)
                               [goalAt30])) _ _) raiseTarget 1000 _ _));
        [vm_compute; reflexivity | vm_compute; reflexivity
         | reflexivity | reflexivity].
    + vm_compute. reflexivity.
Defined.

(** C2 as stated fails: raising the target of a goal whose 25% milestone is
    achieved leaves that milestone not achieved. *)
Lemma target_edit_resets_achieved :
  ~ (forall (now : Time) (id userId : ObjectId) (r : Request)
       (goals : list Goal) (g g' : Goal) (goals' : list Goal),
        findOne id userId goals = Some g ->
        handle now id userId r goals = (inr g', goals') ->
        keepsAchieved g g').
Proof.
  intros H.
  assert (K : keepsAchieved goalAt30
                (answered (handle 50%Z 1%nat 7%nat (ReqUpdate raiseTarget)
                             [goalAt30]) goalAt30)).
  { apply (H 50%Z 1%nat 7%nat (ReqUpdate raiseTarget) [goalAt30] goalAt30 _
             (snd (handle 50%Z 1%nat 7%nat (ReqUpdate raiseTarget) [goalAt30])));
      vm_compute; reflexivity. }
  destruct (K 0%nat (checkMilestone 10%Z 30 (mkMilestone 25 (100 * 0.25))))
    as (m' & Hm & Ha).
  - vm_compute. reflexivity.
  - vm_compute. reflexivity.
  - vm_compute in Hm. injection Hm as <-. discriminate Ha.
Qed.

Lemma positive_truthy (a : Q) : 0 < a -> truthyNumber (Some a) = Some a.
Proof.
  intros Ha. unfold truthyNumber.
  destruct (Qeq_bool a 0) eqn:E; [|reflexivity].
  apply Qeq_bool_iff in E. lra.
Qed.

Lemma inactive_not_active (g : Goal) :
  status g = Paused \/ status g = Completed \/ status g = Cancelled ->
  negb (status_eqb (status g) Active) = true.
Proof. intros [-> | [-> | ->]]; reflexivity. Qed.

(** C3. On a goal that is paused, completed or cancelled every contribution
    request is rejected and the collection is left as it was, so the goal's
    current amount, contributions and milestone flags are unchanged; a
    request with a valid amount is rejected as [InvalidState], and so is
    every auto-save request. *)
Theorem contribute_to_inactive_rejected
  (now : Time) (id userId : ObjectId) (goals : list Goal) (g : Goal) :
  findOne id userId goals = Some g ->
  status g = Paused \/ status g = Completed \/ status g = Cancelled ->
  (forall b, exists f, contribute now id userId b goals = (inl f, goals))
  /\ (forall b amount,
        ContributeBody.amount b = Some amount -> 0 < amount ->
        contribute now id userId b goals = (inl inactiveGoalFailure, goals))
  /\ (forall t1 t2, exists f,
        autoSaveGoal now t1 t2 id userId goals = (inl f, goals)
        /\ kind f = InvalidState).
Proof.
  intros Hf Hs. apply inactive_not_active in Hs. split; [|split].
  - intros b. unfold contribute.
    destruct (truthyNumber _) as [a|]; [|eauto].
    destruct (leQ a 0); [eauto|]. rewrite Hf, Hs. eauto.
  - intros b amount Hb Ha. unfold contribute.
    rewrite Hb, (positive_truthy _ Ha).
    assert (leQ amount 0 = false) as -> by (apply leQ_false; exact Ha).
    now rewrite Hf, Hs.
  - intros t1 t2. unfold autoSaveGoal. rewrite Hf, Hs.
    destruct (_ || _); eauto.
Qed.

Lemma contribute_to_inactive_rejected_witness :
  contribute 60%Z 1%nat 7%nat contribute5 [pausedGoal]
  = (inl inactiveGoalFailure, [pausedGoal]).
Proof.
  refine (proj1 (proj2 (contribute_to_inactive_rejected 60%Z 1%nat 7%nat
                          [pausedGoal] pausedGoal _ _)) contribute5 5 _ _).
  - vm_compute. reflexivity.
  - left. reflexivity.
  - reflexivity.
  - reflexivity.
Defined.

(** ** Auto-save *)

Lemma days_elapsed (d k : Z) :
  geQ (inject_Z d / msPerDay) (inject_Z k) = true <-> (k * dayMs <= d)%Z.
Proof.
  rewrite geQ_true. unfold msPerDay, dayMs.
  rewrite Zle_Qle, inject_Z_mult.
  change (inject_Z 86400000) with (86400000 : Q).
  assert (E : inject_Z d / (1000 * 60 * 60 * 24)
              == inject_Z d * (1 # 86400000)) by (now field).
  rewrite E. generalize (inject_Z d), (inject_Z k). intros x y.
  split; intros H; lra.
Qed.

Lemma isDue_iff (now : Time) (a : AutoSave.t) :
  isDue now a = true <->
  AutoSave.lastAutoSave a = None
  \/ exists last, AutoSave.lastAutoSave a = Some last
       /\ (periodDays (AutoSave.frequency a) * dayMs <= now - last)%Z.
Proof.
  unfold isDue. destruct (AutoSave.lastAutoSave a) as [last|].
  - assert (K : geQ (inject_Z (now - last) / msPerDay)
                  (inject_Z (periodDays (AutoSave.frequency a))) = true
                <-> (periodDays (AutoSave.frequency a) * dayMs <= now - last)%Z)
      by apply days_elapsed.
    split.
    + intros H. right. exists last. split; [reflexivity|].
      apply K. destruct (AutoSave.frequency a); exact H.
    + intros [H | (l & [= <-] & H)]; [discriminate|].
      apply K in H. destruct (AutoSave.frequency a); exact H.
  - split; [now left | reflexivity].
Qed.

Lemma checkMilestone_valid now cur m :
  validMilestone (checkMilestone now cur m) = validMilestone m.
Proof. unfold checkMilestone. now destruct (_ && _). Qed.

Lemma validate_preSave now g : validate (preSave now g) = validate g.
Proof.
  unfold validate. rewrite preSave_milestones, preSave_currentAmount,
    preSave_contributions.
  assert (forallb validMilestone
            (map (checkMilestone now (currentAmount g)) (milestones g))
          = forallb validMilestone (milestones g)) as ->.
  { induction (milestones g) as [|m l IH]; simpl; [reflexivity|].
    now rewrite checkMilestone_valid, IH. }
  unfold preSave. simpl.
  now destruct (geQ (currentAmount g) (targetAmount g)
                && status_eqb (status g) Active).
Qed.

Lemma validate_pushContribution amount note source now g :
  0 <= amount -> validate g = true ->
  validate (pushContribution amount note source now g) = true.
Proof.
  unfold validate, pushContribution. simpl. intros Ha H.
  rewrite !andb_true_iff in H. destruct H as (((((Hn & Ht) & Hc) & Hs) & Hm) & Hk).
  rewrite !andb_true_iff. repeat split; try assumption.
  - apply geQ_true. apply geQ_true in Hc. lra.
  - rewrite forallb_app, Hk. simpl. unfold validContribution. simpl.
    rewrite andb_true_r. now apply geQ_true.
Qed.

Lemma preSave_autoSave now g : autoSave (preSave now g) = autoSave g.
Proof. unfold preSave. simpl. now destruct (_ && _). Qed.

(** C4. For an active goal with auto-save enabled and a positive amount:
    auto-save is due exactly when it never ran or at least 1, 7 or 30 days
    (daily, weekly, monthly) have passed since the last run; a weekly
    auto-save last run 6 days ago is not due and one last run 7 days ago is
    due. When due, the route appends one contribution of the configured
    amount with source auto-save, adds that amount to the current amount and
    sets the last run to the time of the call; when not due it rejects and
    leaves the collection as it was. *)
Theorem autoSave_due_and_effect
  (now t1 t2 : Time) (id userId : ObjectId) (goals : list Goal) (g : Goal) :
  findOne id userId goals = Some g ->
  validate g = true ->
  AutoSave.enabled (autoSave g) = true ->
  0 < AutoSave.amount (autoSave g) ->
  status g = Active ->
  (isDue now (autoSave g) = true <->
     AutoSave.lastAutoSave (autoSave g) = None
     \/ exists last, AutoSave.lastAutoSave (autoSave g) = Some last
          /\ (periodDays (AutoSave.frequency (autoSave g)) * dayMs
              <= now - last)%Z)
  /\ isDue now (weeklyFrom (now - 6 * dayMs)%Z) = false
  /\ isDue now (weeklyFrom (now - 7 * dayMs)%Z) = true
  /\ (isDue now (autoSave g) = true ->
      exists g',
        autoSaveGoal now t1 t2 id userId goals = (inr g', persist g' goals)
        /\ contributions g'
           = contributions g
             ++ [{| Contribution.amount := AutoSave.amount (autoSave g);
                    Contribution.date := t1;
                    Contribution.note := "Auto-save contribution";
                    Contribution.source := AutoSaveSource |}]
        /\ currentAmount g' = currentAmount g + AutoSave.amount (autoSave g)
        /\ AutoSave.lastAutoSave (autoSave g') = Some now)
  /\ (isDue now (autoSave g) = false ->
      autoSaveGoal now t1 t2 id userId goals = (inl notDueFailure, goals)).
Proof.
  intros Hf Hv He Ha Hs.
  split; [apply isDue_iff|].
  split.
  { apply not_true_iff_false. rewrite isDue_iff. simpl.
    intros [H | (l & [= <-] & H)]; [discriminate|]. unfold dayMs in H. lia. }
  split.
  { apply isDue_iff. right. exists (now - 7 * dayMs)%Z.
    split; [reflexivity|]. simpl. lia. }
  assert (Hg : negb (AutoSave.enabled (autoSave g))
               || leQ (AutoSave.amount (autoSave g)) 0 = false).
  { rewrite He. simpl. now apply leQ_false. }
  split.
  - intros Hd. unfold autoSaveGoal. rewrite Hf, Hg, Hs, Hd. simpl.
    unfold addContribution, save.
    rewrite validate_pushContribution by (lra || assumption).
    set (g1 := preSave t1 (pushContribution _ _ _ _ g)).
    assert (Hv1 : validate g1 = true).
    { unfold g1. rewrite validate_preSave.
      apply validate_pushContribution; [lra | assumption]. }
    set (g2 := set_autoSave _ g1).
    assert (validate g2 = true) as -> by exact Hv1.
    exists (preSave t2 g2). split; [reflexivity|].
    rewrite preSave_contributions, preSave_currentAmount, preSave_autoSave.
    unfold g2. cbn [contributions currentAmount autoSave set_autoSave
                    set_lastAutoSave AutoSave.lastAutoSave].
    unfold g1. rewrite preSave_contributions, preSave_currentAmount.
    split; [|split]; reflexivity.
  - intros Hd. unfold autoSaveGoal. now rewrite Hf, Hg, Hs, Hd.
Qed.

Lemma autoSave_due_and_effect_witness :
  exists g',
    autoSaveGoal 100%Z 101%Z 102%Z 1%nat 7%nat [freshGoal]
    = (inr g', persist g' [freshGoal])
    /\ contributions g'
       = contributions freshGoal
         ++ [{| Contribution.amount := AutoSave.amount (autoSave freshGoal);
                Contribution.date := 101%Z;
                Contribution.note := "Auto-save contribution";
                Contribution.source := AutoSaveSource |}]
    /\ currentAmount g'
       = currentAmount freshGoal + AutoSave.amount (autoSave freshGoal)
    /\ AutoSave.lastAutoSave (autoSave g') = Some 100%Z.
Proof.
  destruct (autoSave_due_and_effect 100%Z 101%Z 102%Z 1%nat 7%nat [freshGoal]
              freshGoal)
    as (_ & _ & _ & Hdue & _).
  - reflexivity.
  - vm_compute. reflexivity.
  - reflexivity.
  - reflexivity.
  - reflexivity.
  - apply Hdue. reflexivity.
Defined.

End GoalClaims.

(** ** Grouping and sorting *)

Section GroupFacts.
Context {Doc Key Acc : Type}.
Variable key : Doc -> Key.
Variable key_eqb : Key -> Key -> bool.
Variable init : Acc.
Variable step : Acc -> Doc -> Acc.
Hypothesis key_eqb_eq : forall a b, key_eqb a b = true <-> a = b.

#[local] Abbreviation upsert := (Mongo.upsert key key_eqb init step).
#[local] Abbreviation group := (Mongo.group key key_eqb init step).
#[local] Abbreviation rowOf := (Mongo.rowOf key_eqb).
#[local] Abbreviation members := (Mongo.members key key_eqb).

Lemma key_eqb_refl k : key_eqb k k = true.
Proof. now apply key_eqb_eq. Qed.

Lemma key_eqb_neq a b : a <> b -> key_eqb a b = false.
Proof.
  intros H. apply not_true_iff_false. intros E. now apply key_eqb_eq in E.
Qed.

Lemma rowOf_upsert_same d groups :
  rowOf (key d) (upsert d groups)
  = Some (step (default init (rowOf (key d) groups)) d).
Proof.
  induction groups as [|[k a] rest IH]; simpl.
  - now rewrite key_eqb_refl.
  - destruct (key_eqb (key d) k) eqn:E; simpl; rewrite E; [reflexivity|].
    exact IH.
Qed.

Lemma rowOf_upsert_other k d groups :
  k <> key d -> rowOf k (upsert d groups) = rowOf k groups.
Proof.
  intros Hk. induction groups as [|[k' a] rest IH]; simpl.
  - now rewrite key_eqb_neq.
  - destruct (key_eqb (key d) k') eqn:E; simpl.
    + apply key_eqb_eq in E. subst k'. now rewrite key_eqb_neq.
    + now rewrite IH.
Qed.

Lemma keys_upsert k d groups :
  In k (map fst (upsert d groups)) <-> k = key d \/ In k (map fst groups).
Proof.
  induction groups as [|[k' a] rest IH]; simpl.
  - intuition congruence.
  - destruct (key_eqb (key d) k') eqn:E; simpl.
    + apply key_eqb_eq in E. subst k'. intuition congruence.
    + rewrite IH. tauto.
Qed.

Lemma NoDup_upsert d groups :
  List.NoDup (map fst groups) -> List.NoDup (map fst (upsert d groups)).
Proof.
  induction groups as [|[k a] rest IH]; simpl; intros H.
  - constructor; [intros []|constructor].
  - inversion H as [|? ? Hn Hr]; subst.
    destruct (key_eqb (key d) k) eqn:E; simpl.
    + now constructor.
    + constructor; [|now apply IH].
      rewrite keys_upsert. intros [-> | Hin]; [|contradiction].
      now rewrite key_eqb_refl in E.
Qed.

Lemma rowOf_fold docs : forall groups k,
  rowOf k (fold_left (fun gs d => upsert d gs) docs groups)
  = match rowOf k groups, members k docs with
    | None, [] => None
    | o, ms => Some (fold_left step ms (default init o))
    end.
Proof.
  induction docs as [|d docs IH]; intros groups k; simpl.
  - now destruct (rowOf k groups).
  - rewrite IH. unfold Mongo.members. simpl.
    destruct (key_eqb (key d) k) eqn:E.
    + apply key_eqb_eq in E. subst k. rewrite rowOf_upsert_same. simpl.
      now destruct (rowOf (key d) groups).
    + rewrite rowOf_upsert_other; [reflexivity|].
      intros ->. now rewrite key_eqb_refl in E.
Qed.

Lemma rowOf_group docs k :
  rowOf k (group docs)
  = match members k docs with
    | [] => None
    | ms => Some (fold_left step ms init)
    end.
Proof. unfold Mongo.group. rewrite rowOf_fold. reflexivity. Qed.

Lemma NoDup_group docs : List.NoDup (map fst (group docs)).
Proof.
  unfold Mongo.group.
  assert (G : forall groups, List.NoDup (map fst groups) ->
              List.NoDup (map fst (fold_left (fun gs d => upsert d gs) docs groups))).
  { induction docs as [|d docs IH]; simpl; intros groups H; [exact H|].
    now apply IH, NoDup_upsert. }
  apply G. constructor.
Qed.

Lemma rowOf_In (k : Key) (a : Acc) (groups : list (Key * Acc)) :
  List.NoDup (map fst groups) -> In (k, a) groups -> rowOf k groups = Some a.
Proof.
  induction groups as [|[k' a'] rest IH]; simpl; intros Hn Hin; [contradiction|].
  inversion Hn as [|? ? Hx Hr]; subst.
  destruct Hin as [[= -> ->] | Hin].
  - now rewrite key_eqb_refl.
  - destruct (key_eqb k k') eqn:E; [|now apply IH].
    apply key_eqb_eq in E. subst k'. exfalso. apply Hx.
    change k with (fst (k, a)). now apply in_map.
Qed.

Lemma rowOf_Some (k : Key) (a : Acc) (groups : list (Key * Acc)) :
  rowOf k groups = Some a -> In (k, a) groups.
Proof.
  induction groups as [|[k' a'] rest IH]; simpl; [discriminate|].
  destruct (key_eqb k k') eqn:E.
  - apply key_eqb_eq in E. subst k'. intros [= ->]. now left.
  - intros H. right. now apply IH.
Qed.

End GroupFacts.

Section SortFacts.
Context {A : Type}.
Variable before : A -> A -> bool.

#[local] Abbreviation place := (Mongo.place before).
#[local] Abbreviation sort := (Mongo.sort before).

Lemma place_perm (x : A) (l : list A) : Permutation (place x l) (x :: l).
Proof.
  induction l as [|y l IH]; simpl; [reflexivity|].
  destruct (before x y); [reflexivity|].
  rewrite IH. apply perm_swap.
Qed.

Lemma sort_perm (l : list A) : Permutation (sort l) l.
Proof.
  induction l as [|x l IH]; simpl; [reflexivity|].
  rewrite place_perm. now constructor.
Qed.

Lemma sort_In (x : A) (l : list A) : In x (sort l) <-> In x l.
Proof.
  split; apply Permutation_in; [|symmetry]; apply sort_perm.
Qed.

Hypothesis before_total : forall a b, before a b = false -> before b a = true.

#[local] Abbreviation inOrder := (Mongo.inOrder before).

Lemma place_sorted (x : A) (l : list A) :
  Sorted inOrder l -> Sorted inOrder (place x l).
Proof.
  induction l as [|y l IH]; simpl; intros H.
  - repeat constructor.
  - destruct (before x y) eqn:E.
    + constructor; [exact H | now constructor].
    + inversion H as [|? ? Hs Hh]; subst.
      constructor; [now apply IH|].
      destruct l as [|z l]; simpl.
      * constructor. now apply before_total.
      * destruct (before x z); constructor.
        -- now apply before_total.
        -- now inversion Hh.
Qed.

Lemma sort_sorted (l : list A) : Sorted inOrder (sort l).
Proof.
  induction l as [|x l IH]; simpl; [constructor | now apply place_sorted].
Qed.

End SortFacts.

(** ** Category breakdown *)

Section Breakdown.
Import ExpenseModel.

Lemma category_eqb_eq (a b : Category) : category_eqb a b = true <-> a = b.
Proof.
  unfold category_eqb. destruct (category_eq_dec a b); split;
    congruence || discriminate.
Qed.

Lemma fold_accStep (l : list Expense) : forall a,
  fold_left accStep l a
  = {| accTotal := fold_left Qplus (map amount l) (accTotal a);
       accCount := accCount a + length l |}.
Proof.
  induction l as [|e l IH]; intros [t n]; simpl.
  - f_equal. lia.
  - rewrite IH. simpl. f_equal. lia.
Qed.

Lemma byTotalDesc_total (a b : CategoryRow) :
  byTotalDesc a b = false -> byTotalDesc b a = true.
Proof.
  unfold byTotalDesc. rewrite geQ_false, geQ_true. apply Qlt_le_weak.
Qed.

(** C8. The category breakdown of the expenses of an owner inside a window
    has one row for each category that occurs among them and none for the
    others; a row carries the sum of the amounts of its category, their
    number and their mean; rows come in descending order of the total. Two
    food expenses of 100 and 50 and a transport expense of 30 give
    [(food, 150, 2, 75); (transport, 30, 1, 30)]. *)
Theorem category_breakdown_exact
  (userId : ObjectId) (startDate endDate : Time) (expenses : list Expense) :
  let matching := List.filter (inWindow userId startDate endDate) expenses in
  let rows := getCategoryWiseExpenses userId startDate endDate expenses in
  let inCategory c :=
    List.filter (fun e => category_eqb (category e) c) matching in
  (forall c, (exists row, In row rows /\ _id row = c) <-> inCategory c <> [])
  /\ List.NoDup (map _id rows)
  /\ (forall row, In row rows ->
        totalAmount row = sumQ (map amount (inCategory (_id row)))
        /\ count row = length (inCategory (_id row))
        /\ avgAmount row
           == sumQ (map amount (inCategory (_id row)))
              / inject_Z (Z.of_nat (length (inCategory (_id row)))))
  /\ StronglySorted (fun a b => totalAmount b <= totalAmount a) rows
  /\ map rowFigures (getCategoryWiseExpenses 7%nat 0%Z 1000%Z sampleExpenses)
     = [ (Food, 150, 2%nat, 75); (Transport, 30, 1%nat, 30) ].
Proof.
  intros matching rows inCategory.
  set (groups := Mongo.group category category_eqb accInit accStep matching).
  assert (Hrows : forall row, In row rows <-> In row (map mkRow groups)).
  { intros row. apply sort_In. }
  assert (Hnd : List.NoDup (map fst groups)).
  { apply NoDup_group. apply category_eqb_eq. }
  assert (Hrow : forall c, Mongo.rowOf category_eqb c groups
                 = match inCategory c with
                   | [] => None
                   | ms => Some (fold_left accStep ms accInit)
                   end).
  { intros c. apply rowOf_group. apply category_eqb_eq. }
  assert (Hin : forall row, In row rows ->
                  inCategory (_id row) <> []
                  /\ row = mkRow (_id row,
                                  fold_left accStep (inCategory (_id row)) accInit)).
  { intros row Hr. apply Hrows, in_map_iff in Hr.
    destruct Hr as ([k a] & <- & Hka). simpl.
    apply (rowOf_In category_eqb category_eqb_eq) in Hka; [|exact Hnd].
    rewrite Hrow in Hka. destruct (inCategory k) eqn:E; [discriminate|].
    injection Hka as <-. split; [discriminate | reflexivity]. }
  split; [|split; [|split; [|split]]].
  - intros c. split.
    + intros (row & Hr & <-). now apply Hin.
    + intros Hne. specialize (Hrow c).
      destruct (inCategory c) as [|e ms] eqn:E; [contradiction|].
      apply (rowOf_Some category_eqb category_eqb_eq) in Hrow.
      exists (mkRow (c, fold_left accStep (e :: ms) accInit)).
      split; [|reflexivity]. apply Hrows. now apply in_map.
  - apply (Permutation_NoDup (l := map _id (map mkRow groups))).
    + apply Permutation_map. symmetry. apply sort_perm.
    + rewrite map_map. exact Hnd.
  - intros row Hr. destruct (Hin row Hr) as (_ & E).
    rewrite fold_accStep in E. rewrite E. simpl. repeat split; reflexivity.
  - apply Sorted_StronglySorted.
    + intros a b c Hab Hbc. eapply Qle_trans; eauto.
    + eapply Sorted_ind with (P := Sorted _);
        [ constructor | | apply (sort_sorted byTotalDesc byTotalDesc_total) ].
      intros a l _ IH Hh. constructor; [exact IH|].
      destruct Hh; constructor. now apply geQ_true.
  - vm_compute. reflexivity.
Qed.

End Breakdown.

(** ** Goal queries *)

Section GoalQueries.
Import GoalModel.

Lemma status_eqb_eq (a b : Status) : status_eqb a b = true <-> a = b.
Proof. destruct a, b; simpl; split; congruence || discriminate. Qed.

Lemma status_label_inj (a b : Status) :
  status_label a = status_label b -> a = b.
Proof. destruct a, b; simpl; intros H; reflexivity || discriminate H. Qed.

Lemma fold_statStep (l : list Goal) : forall a,
  fold_left statStep l a
  = {| count := count a + length l;
       totalTarget := fold_left Qplus (map targetAmount l) (totalTarget a);
       totalCurrent := fold_left Qplus (map currentAmount l) (totalCurrent a) |}.
Proof.
  induction l as [|g l IH]; intros [n t c]; simpl.
  - f_equal. lia.
  - rewrite IH. simpl. f_equal. lia.
Qed.

Lemma filter_filter {A : Type} (f h : A -> bool) (l : list A) :
  List.filter h (List.filter f l) = List.filter (fun x => f x && h x) l.
Proof.
  induction l as [|x l IH]; simpl; [reflexivity|].
  destruct (f x); simpl; [destruct (h x)|]; now rewrite IH.
Qed.

(** Filling the result object: a status with a row gets the row, any other
    property keeps what it held. *)
Lemma lookup_filled (stats : list (Status * GoalStat)) :
  forall (m : gmap string GoalStat) (s : Status),
    List.NoDup (map fst stats) ->
    fold_left
      (fun result stat => <[status_label (fst stat) := snd stat]> result)
      stats m !! status_label s
    = match Mongo.rowOf status_eqb s stats with
      | Some row => Some row
      | None => m !! status_label s
      end.
Proof.
  induction stats as [|[k row] rest IH]; intros m s Hn; simpl; [reflexivity|].
  inversion Hn as [|? ? Hk Hr]; subst. rewrite (IH _ _ Hr).
  destruct (status_eqb s k) eqn:E.
  - apply status_eqb_eq in E. subst k.
    destruct (Mongo.rowOf status_eqb s rest) as [row'|] eqn:R.
    + exfalso. apply Hk.
      apply (rowOf_Some status_eqb status_eqb_eq) in R.
      change s with (fst (s, row')). now apply in_map.
    + simpl. apply lookup_insert_eq.
  - destruct (Mongo.rowOf status_eqb s rest); [reflexivity|]. simpl.
    apply lookup_insert_ne. intros H. apply status_label_inj in H. subst k.
    now rewrite (proj2 (status_eqb_eq s s)) in E.
Qed.

Lemma dom_filled (stats : list (Status * GoalStat)) :
  forall (m : gmap string GoalStat),
    dom m = dom emptyStats ->
    dom (fold_left
           (fun result stat => <[status_label (fst stat) := snd stat]> result)
           stats m) = dom emptyStats.
Proof.
  induction stats as [|[k row] rest IH]; intros m Hm; simpl; [exact Hm|].
  apply IH. rewrite dom_insert_L, Hm. unfold emptyStats.
  rewrite !dom_insert_L. destruct k; simpl; set_solver.
Qed.

(** The entry of a status is the fold of the [$group] accumulators over the
    owner's goals in that status. *)
Lemma getUserGoalStats_lookup
  (userId : ObjectId) (goals : list Goal) (s : Status) :
  getUserGoalStats userId goals !! status_label s
  = Some {| count := length (goalsInStatus userId s goals);
            totalTarget :=
              sumQ (map targetAmount (goalsInStatus userId s goals));
            totalCurrent :=
              sumQ (map currentAmount (goalsInStatus userId s goals)) |}.
Proof.
  unfold getUserGoalStats, aggregateStats.
  rewrite lookup_filled by (apply NoDup_group, status_eqb_eq).
  rewrite (rowOf_group status status_eqb zeroStat statStep status_eqb_eq).
  unfold Mongo.members. rewrite filter_filter.
  assert (E : List.filter
                (fun x => Nat.eqb (user x) userId
                          && status_eqb (status x) s) goals
              = goalsInStatus userId s goals) by reflexivity.
  rewrite E. destruct (goalsInStatus userId s goals) as [|g l] eqn:G.
  - destruct s; reflexivity.
  - rewrite fold_statStep. reflexivity.
Qed.

(** C10. For every owner and every status, the statistics object has an
    entry under that status: the number of the owner's goals in the status
    and the sums of their target and current amounts, which is
    [{count: 0, totalTarget: 0, totalCurrent: 0}] when there is none; the
    object has exactly the four status properties. *)
Theorem goal_stats_has_every_status
  (userId : ObjectId) (goals : list Goal) (s : Status) :
  getUserGoalStats userId goals !! status_label s
  = Some {| count := length (goalsInStatus userId s goals);
            totalTarget :=
              sumQ (map targetAmount (goalsInStatus userId s goals));
            totalCurrent :=
              sumQ (map currentAmount (goalsInStatus userId s goals)) |}
  /\ (goalsInStatus userId s goals = [] ->
      getUserGoalStats userId goals !! status_label s = Some zeroStat)
  /\ dom (getUserGoalStats userId goals)
     = {[ "active"%string; "completed"%string; "paused"%string;
          "cancelled"%string ]}.
Proof.
  split; [|split].
  - apply getUserGoalStats_lookup.
  - intros E. rewrite getUserGoalStats_lookup, E. reflexivity.
  - unfold getUserGoalStats. rewrite dom_filled by reflexivity.
    unfold emptyStats. rewrite !dom_insert_L. set_solver.
Qed.

(** C9 on four active goals of one owner due on the same day: the query
    returns them with priorities in the order high, low, medium, urgent,
    the ascending order of the stored strings. *)
Example goals_by_priority_sorts_labels :
  map priority (getGoalsByPriority 7%nat fourPriorities)
  = [High; Low; Medium; Urgent].
Proof. vm_compute. reflexivity. Qed.

End GoalQueries.

(** ** Rounding to the nearest binary64 value *)

Section DoubleFacts.

Lemma pow2_pos (k : Z) : 0 < 2 ^ k.
Proof. apply Qpower_0_lt. reflexivity. Qed.

Lemma pow2_add (a b : Z) : 2 ^ (a + b) == 2 ^ a * 2 ^ b.
Proof. apply Qpower_plus. discriminate. Qed.

Lemma pow2_le (a b : Z) : (a <= b)%Z -> 2 ^ a <= 2 ^ b.
Proof. intros H. apply Qpower_le_compat_l; [exact H | discriminate]. Qed.

Lemma pow2_lt_inv (a b : Z) : 2 ^ a < 2 ^ b -> (a < b)%Z.
Proof.
  intros H. destruct (Z.lt_ge_cases a b) as [L|G]; [exact L|].
  apply pow2_le in G. lra.
Qed.

Lemma pow2_succ (a : Z) : 2 ^ (a + 1) == 2 * 2 ^ a.
Proof. rewrite pow2_add. change (2 ^ 1) with 2. ring. Qed.

Lemma pow2_Z (a : Z) : (0 <= a)%Z -> inject_Z (2 ^ a) == 2 ^ a.
Proof. intros H. now rewrite Zpower_Qpower. Qed.

Lemma ilog2_spec (x : Q) :
  0 < x -> 2 ^ ilog2 x <= x /\ x < 2 ^ (ilog2 x + 1).
Proof.
  intros Hx. unfold ilog2.
  destruct x as [n d]. cbn [Qnum Qden].
  assert (Hn : (0 < n)%Z).
  { unfold Qlt in Hx. cbn in Hx. lia. }
  set (a := Z.log2 n). set (b := Z.log2 (Z.pos d)).
  destruct (Z.log2_spec n Hn) as [A1 A2]. fold a in A1, A2.
  destruct (Z.log2_spec (Z.pos d) eq_refl) as [B1 B2]. fold b in B1, B2.
  assert (Ha : (0 <= a)%Z) by apply Z.log2_nonneg.
  assert (Hb : (0 <= b)%Z) by apply Z.log2_nonneg.
  assert (X : n # d == inject_Z n / inject_Z (Z.pos d)) by apply Qmake_Qdiv.
  assert (Dp : 0 < inject_Z (Z.pos d)) by reflexivity.
  assert (QA1 : 2 ^ a <= inject_Z n).
  { rewrite <- pow2_Z by exact Ha. now rewrite <- Zle_Qle. }
  assert (QA2 : inject_Z n < 2 ^ (a + 1)).
  { rewrite <- pow2_Z by lia. now rewrite <- Zlt_Qlt. }
  assert (QB1 : 2 ^ b <= inject_Z (Z.pos d)).
  { rewrite <- pow2_Z by exact Hb. now rewrite <- Zle_Qle. }
  assert (QB2 : inject_Z (Z.pos d) < 2 ^ (b + 1)).
  { rewrite <- pow2_Z by lia. now rewrite <- Zlt_Qlt. }
  assert (M : n # d == (n # d) * 1) by ring.
  assert (E : (n # d) * inject_Z (Z.pos d) == inject_Z n).
  { rewrite X. field. lra. }
  assert (U : (n # d) < 2 ^ (a - b + 1)).
  { apply (Qmult_lt_r _ _ (2 ^ b) (pow2_pos b)).
    rewrite <- pow2_add. replace (a - b + 1 + b)%Z with (a + 1)%Z by lia.
    apply Qle_lt_trans with ((n # d) * inject_Z (Z.pos d)); [|now rewrite E].
    apply Qmult_le_l; [lra | exact QB1]. }
  assert (L : 2 ^ (a - b - 1) < (n # d)).
  { apply (Qmult_lt_r _ _ (2 ^ (b + 1)) (pow2_pos (b + 1))).
    rewrite <- pow2_add. replace (a - b - 1 + (b + 1))%Z with a by lia.
    apply Qle_lt_trans with (inject_Z n); [exact QA1|]. rewrite <- E.
    apply Qmult_lt_l; [exact Hx | exact QB2]. }
  destruct (Qle_bool (2 ^ (a - b)) (n # d)) eqn:C.
  - apply Qle_bool_iff in C. split; assumption.
  - assert (C' : (n # d) < 2 ^ (a - b)).
    { apply Qnot_le_lt. intros H. apply Qle_bool_iff in H. congruence. }
    replace (a - b - 1 + 1)%Z with (a - b)%Z by lia.
    split; [apply Qlt_le_weak; exact L | exact C'].
Qed.

Lemma roundTiesToEven_cases (m : Q) :
  roundTiesToEven m = Qfloor m \/ roundTiesToEven m = (Qfloor m + 1)%Z.
Proof.
  unfold roundTiesToEven.
  destruct (Qcompare _ _); [destruct (Z.even _)| |]; auto.
Qed.

Lemma roundTiesToEven_ge (m : Q) (k : Z) :
  inject_Z k <= m -> (k <= roundTiesToEven m)%Z.
Proof.
  intros H. apply Qfloor_resp_le in H. rewrite Qfloor_Z in H.
  destruct (roundTiesToEven_cases m) as [-> | ->]; lia.
Qed.

Lemma roundTiesToEven_le (m : Q) (k : Z) :
  m <= inject_Z k -> (roundTiesToEven m <= k)%Z.
Proof.
  intros H. pose proof (Qfloor_resp_le _ _ H) as F. rewrite Qfloor_Z in F.
  destruct (Z.eq_dec (Qfloor m) k) as [E|N].
  - unfold roundTiesToEven. cbv zeta.
    pose proof (Qfloor_le m) as Fl. rewrite E in *.
    destruct (Qcompare (m - inject_Z k) (1 # 2)) eqn:C; [| lia |];
      exfalso; [apply Qeq_alt in C | apply Qgt_alt in C]; lra.
  - destruct (roundTiesToEven_cases m) as [-> | ->]; lia.
Qed.

Lemma roundTiesToEven_mono (m1 m2 : Q) :
  m1 <= m2 -> (roundTiesToEven m1 <= roundTiesToEven m2)%Z.
Proof.
  intros H. pose proof (Qfloor_resp_le _ _ H) as F.
  destruct (Z.eq_dec (Qfloor m1) (Qfloor m2)) as [E|N].
  - unfold roundTiesToEven. cbv zeta. rewrite E.
    assert (R : m1 - inject_Z (Qfloor m2) <= m2 - inject_Z (Qfloor m2)) by lra.
    destruct (Qcompare (m1 - inject_Z (Qfloor m2)) (1 # 2)) eqn:C1;
      destruct (Qcompare (m2 - inject_Z (Qfloor m2)) (1 # 2)) eqn:C2;
      try (destruct (Z.even (Qfloor m2))); try lia; exfalso;
      repeat match goal with
             | C : Qcompare _ _ = Eq |- _ => apply Qeq_alt in C
             | C : Qcompare _ _ = Lt |- _ => apply Qlt_alt in C
             | C : Qcompare _ _ = Gt |- _ => apply Qgt_alt in C
             end;
      lra.
  - destruct (roundTiesToEven_cases m1) as [-> | ->];
      destruct (roundTiesToEven_cases m2) as [-> | ->]; lia.
Qed.

Lemma doublePos_bounds (x : Q) :
  0 < x -> 2 ^ ilog2 x <= doublePos x /\ doublePos x <= 2 ^ (ilog2 x + 1).
Proof.
  intros Hx. destruct (ilog2_spec x Hx) as [L U].
  unfold doublePos. set (e := ilog2 x) in *.
  set (m := x * 2 ^ (52 - e)).
  assert (P : 0 < 2 ^ (52 - e)) by apply pow2_pos.
  assert (M1 : inject_Z (2 ^ 52) <= m).
  { rewrite pow2_Z by lia. unfold m.
    replace 52%Z with (e + (52 - e))%Z at 1 by lia. rewrite pow2_add.
    apply Qmult_le_compat_r; [exact L | lra]. }
  assert (M2 : m <= inject_Z (2 ^ 53)).
  { rewrite pow2_Z by lia. unfold m.
    replace 53%Z with (e + 1 + (52 - e))%Z by lia. rewrite pow2_add.
    apply Qmult_le_compat_r; lra. }
  apply roundTiesToEven_ge in M1. apply roundTiesToEven_le in M2.
  rewrite Zle_Qle in M1, M2. rewrite pow2_Z in M1, M2 by lia.
  assert (P' : 0 < 2 ^ (e - 52)) by apply pow2_pos.
  split.
  - replace e with (52 + (e - 52))%Z at 1 by lia. rewrite pow2_add.
    apply Qmult_le_compat_r; lra.
  - replace (e + 1)%Z with (53 + (e - 52))%Z by lia. rewrite pow2_add.
    apply Qmult_le_compat_r; lra.
Qed.

Lemma doublePos_mono (x y : Q) :
  0 < x -> x <= y -> doublePos x <= doublePos y.
Proof.
  intros Hx H. assert (Hy : 0 < y) by lra.
  destruct (ilog2_spec x Hx) as [Lx Ux].
  destruct (ilog2_spec y Hy) as [Ly Uy].
  assert (E : (ilog2 x < ilog2 y + 1)%Z) by (apply pow2_lt_inv; lra).
  destruct (Z.eq_dec (ilog2 x) (ilog2 y)) as [Q|N].
  - unfold doublePos. rewrite Q.
    apply Qmult_le_compat_r; [|apply Qlt_le_weak, pow2_pos].
    rewrite <- Zle_Qle. apply roundTiesToEven_mono.
    apply Qmult_le_compat_r; [exact H | apply Qlt_le_weak, pow2_pos].
  - destruct (doublePos_bounds x Hx) as [_ Bx].
    destruct (doublePos_bounds y Hy) as [By _].
    assert (P : 2 ^ (ilog2 x + 1) <= 2 ^ ilog2 y) by (apply pow2_le; lia).
    lra.
Qed.

Lemma doublePos_pos (x : Q) : 0 < x -> 0 < doublePos x.
Proof.
  intros Hx. destruct (doublePos_bounds x Hx) as [B _].
  pose proof (pow2_pos (ilog2 x)). lra.
Qed.

Lemma double_cases (x : Q) :
  (x == 0 /\ double x == 0)
  \/ (0 < x /\ double x == doublePos x)
  \/ (x < 0 /\ double x == - doublePos (- x)).
Proof.
  unfold double. rewrite Qred_correct. destruct x as [[|p|p] d]; cbn [Qnum].
  - left. split; reflexivity.
  - right. left. split; reflexivity.
  - right. right. split; reflexivity.
Qed.

Lemma double_mono (x y : Q) : x <= y -> double x <= double y.
Proof.
  intros H.
  destruct (double_cases x) as [[Hx ->] | [[Hx ->] | [Hx ->]]];
    destruct (double_cases y) as [[Hy ->] | [[Hy ->] | [Hy ->]]];
    try (exfalso; lra).
  - lra.
  - apply Qlt_le_weak. now apply doublePos_pos.
  - now apply doublePos_mono.
  - assert (0 < doublePos (- x)) by (apply doublePos_pos; lra). lra.
  - assert (0 < doublePos (- x)) by (apply doublePos_pos; lra).
    assert (0 < doublePos y) by (now apply doublePos_pos). lra.
  - assert (doublePos (- y) <= doublePos (- x))
      by (apply doublePos_mono; lra). lra.
Qed.

Lemma double_pos (x : Q) : 0 < x -> 0 < double x.
Proof.
  intros H. destruct (double_cases x) as [[Hx _] | [[_ ->] | [Hx _]]];
    try (exfalso; lra). now apply doublePos_pos.
Qed.

Lemma double_zero (x : Q) : x == 0 -> double x == 0.
Proof.
  intros H. destruct (double_cases x) as [[_ E] | [[Hx _] | [Hx _]]];
    [exact E | exfalso; lra | exfalso; lra].
Qed.

Lemma double_eq (x y : Q) : x == y -> double x == double y.
Proof.
  intros H. apply Qle_antisym; apply double_mono; lra.
Qed.

End DoubleFacts.

(** ** Budget status *)

Section BudgetClaims.
Import Analytics.

Lemma budgetStatus_classify (currentMonthExpenses : list Q)
  (user : UserModel.User) (currentDay daysInMonth : Z) :
  budgetStatus
    (budgetAnalysis currentMonthExpenses user currentDay daysInMonth)
  = classifyBudget
      (budgetUtilizationOf (firstTotal currentMonthExpenses)
         (UserModel.monthlyBudget user))
      (projectedMonthlyTotalOf (firstTotal currentMonthExpenses) currentDay
         daysInMonth)
      (UserModel.monthlyBudget user).
Proof. reflexivity. Qed.

Lemma classifyBudget_first_match (u p b : Q) :
  (100 < u -> classifyBudget u p b = OverBudget)
  /\ (u <= 100 -> 80 < u -> classifyBudget u p b = Warning)
  /\ (u <= 80 -> b < p -> classifyBudget u p b = ProjectedOverspend)
  /\ (u <= 80 -> p <= b -> classifyBudget u p b = OnTrack).
Proof.
  unfold classifyBudget.
  destruct (gtQ u 100) eqn:E1;
    [apply gtQ_true in E1 | apply gtQ_false in E1];
  (destruct (gtQ u 80) eqn:E2;
    [apply gtQ_true in E2 | apply gtQ_false in E2]);
  (destruct (gtQ p b) eqn:E3;
    [apply gtQ_true in E3 | apply gtQ_false in E3]);
  repeat split; intros; reflexivity || (exfalso; lra).
Qed.

(** C5. The budget status is one of the four labels, fixed by the first
    rule that applies: over-budget above 100% utilization, else warning
    above 80%, else projected-overspend when the projected monthly total
    exceeds the budget, else on-track. At 85% utilization it is warning, at
    105% over-budget, and at 60% with the projection above the budget
    projected-overspend. At 50% it is on-track when the projection is
    within the budget and projected-overspend when it is not: 500 of 1000
    spent is on-track on day 20 of 30 and projected-overspend on day 10 of
    30, and also on day 15 of 30, where the handler's [(500 / 15) * 30]
    rounds to a number above 1000. *)
Theorem budget_status_first_match
  (currentMonthExpenses : list Q) (user : UserModel.User)
  (currentDay daysInMonth : Z) :
  let currentTotal := firstTotal currentMonthExpenses in
  let monthlyBudget := UserModel.monthlyBudget user in
  let status :=
    budgetStatus
      (budgetAnalysis currentMonthExpenses user currentDay daysInMonth) in
  let utilization := budgetUtilizationOf currentTotal monthlyBudget in
  let projected :=
    projectedMonthlyTotalOf currentTotal currentDay daysInMonth in
  In (budgetStatus_label status)
     ["on-track"%string; "warning"%string; "projected-overspend"%string;
      "over-budget"%string]
  /\ (100 < utilization -> status = OverBudget)
  /\ (utilization <= 100 -> 80 < utilization -> status = Warning)
  /\ (utilization <= 80 -> monthlyBudget < projected ->
      status = ProjectedOverspend)
  /\ (utilization <= 80 -> projected <= monthlyBudget -> status = OnTrack)
  /\ (utilization == 50 -> projected <= monthlyBudget -> status = OnTrack)
  /\ (utilization == 50 -> monthlyBudget < projected ->
      status = ProjectedOverspend)
  /\ (utilization == 85 -> status = Warning)
  /\ (utilization == 105 -> status = OverBudget)
  /\ (utilization == 60 -> monthlyBudget < projected ->
      status = ProjectedOverspend)
  /\ budgetUtilizationOf 500 (UserModel.monthlyBudget sampleUser) == 50
  /\ budgetStatus (budgetAnalysis [500] sampleUser 20 30) = OnTrack
  /\ budgetStatus (budgetAnalysis [500] sampleUser 10 30) = ProjectedOverspend
  /\ 1000 < projectedMonthlyTotalOf 500 15 30
  /\ budgetStatus (budgetAnalysis [500] sampleUser 15 30) = ProjectedOverspend
  /\ budgetStatus (budgetAnalysis [850] sampleUser 15 30) = Warning
  /\ budgetStatus (budgetAnalysis [1050] sampleUser 15 30) = OverBudget
  /\ budgetStatus (budgetAnalysis [600] sampleUser 10 30) = ProjectedOverspend.
Proof.
  intros currentTotal monthlyBudget status utilization projected.
  destruct (classifyBudget_first_match utilization projected monthlyBudget)
    as (H1 & H2 & H3 & H4).
  assert (E : status = classifyBudget utilization projected monthlyBudget)
    by apply budgetStatus_classify.
  rewrite E.
  split.
  { destruct (classifyBudget _ _ _); simpl; tauto. }
  do 4 (split; [assumption|]).
  split; [intros Hu Hp; apply H4; [lra | assumption]|].
  split; [intros Hu Hp; apply H3; [lra | assumption]|].
  split; [intros Hu; apply H2; lra|].
  split; [intros Hu; apply H1; lra|].
  split; [intros Hu Hp; apply H3; [lra | assumption]|].
  clear. repeat split; vm_compute; reflexivity.
Qed.

(** C5 as stated fails: a utilization of 50 does not by itself give
    on-track. With 500 of 1000 spent on day 10 of 30 the projection is 1500
    and the status projected-overspend. *)
Lemma half_spent_not_always_on_track :
  ~ (forall (currentMonthExpenses : list Q) (user : UserModel.User)
       (currentDay daysInMonth : Z),
        budgetUtilizationOf (firstTotal currentMonthExpenses)
          (UserModel.monthlyBudget user) == 50 ->
        budgetStatus
          (budgetAnalysis currentMonthExpenses user currentDay daysInMonth)
        = OnTrack).
Proof.
  intros H. specialize (H [500] sampleUser 10%Z 30%Z).
  assert (U : budgetUtilizationOf (firstTotal [500])
                (UserModel.monthlyBudget sampleUser) == 50)
    by (vm_compute; reflexivity).
  specialize (H U). vm_compute in H. discriminate H.
Qed.

End BudgetClaims.

(** ** Financial health *)

Section HealthClaims.
Import Analytics.

Lemma sumPoints_snoc (fs : list ScoreFactor) (f : ScoreFactor) :
  sumPoints (fs ++ [f]) = (sumPoints fs + points f)%Z.
Proof. unfold sumPoints. now rewrite map_app, fold_left_app. Qed.

Lemma award_addsUpTo (cap pts : Z) (label st : string) :
  (0 <= pts <= cap)%Z -> addsUpTo cap (award pts label st).
Proof.
  intros Hp. unfold addsUpTo, pointsAwarded, award. simpl. split; [lia|].
  intros s. now rewrite sumPoints_snoc.
Qed.

Lemma mention_addsUpTo (cap : Z) (label st : string) :
  (0 <= cap)%Z -> addsUpTo cap (mention label st).
Proof.
  intros Hp. unfold addsUpTo, pointsAwarded, mention. simpl. split; [lia|].
  intros s. rewrite sumPoints_snoc. simpl. lia.
Qed.

Lemma skip_addsUpTo (cap : Z) :
  (0 <= cap)%Z -> addsUpTo cap (fun s => s).
Proof.
  intros Hp. unfold addsUpTo, pointsAwarded. simpl. split; [lia|].
  intros s. lia.
Qed.

Lemma addsUpTo_ext (cap : Z) (f h : ScoreState -> ScoreState) :
  (forall s, f s = h s) -> addsUpTo cap h -> addsUpTo cap f.
Proof.
  unfold addsUpTo, pointsAwarded. intros E (Hb & Hs).
  rewrite E. split; [exact Hb|]. intros s. rewrite E. apply Hs.
Qed.

Ltac factor_cases :=
  repeat match goal with
         | |- addsUpTo _ (fun s => if ?c then _ else _) =>
             destruct c
         | |- addsUpTo _ (fun s => match ?c with _ => _ end) =>
             destruct c
         end;
  first [ apply award_addsUpTo; lia
        | apply mention_addsUpTo; lia
        | apply skip_addsUpTo; lia ].

Lemma scoreSavings_addsUpTo (savingsRate : Q) :
  addsUpTo 30 (scoreSavings savingsRate).
Proof.
  apply (addsUpTo_ext _ _ (fun s => scoreSavings savingsRate s));
    [reflexivity|].
  unfold scoreSavings. factor_cases.
Qed.

Lemma scoreBudget_addsUpTo (budgetUtilization : Q) :
  addsUpTo 25 (scoreBudget budgetUtilization).
Proof.
  apply (addsUpTo_ext _ _ (fun s => scoreBudget budgetUtilization s));
    [reflexivity|].
  unfold scoreBudget. factor_cases.
Qed.

Lemma scoreGoals_addsUpTo (activeGoals completedGoals : nat) (progress : JsNum) :
  addsUpTo 20 (scoreGoals activeGoals completedGoals progress).
Proof.
  apply (addsUpTo_ext _ _
           (fun s => scoreGoals activeGoals completedGoals progress s));
    [reflexivity|].
  unfold scoreGoals. factor_cases.
Qed.

Lemma scoreConsistency_addsUpTo (sqrt : Q -> Q) (monthlyExpenses : list Q) :
  addsUpTo 15 (scoreConsistency sqrt monthlyExpenses).
Proof.
  apply (addsUpTo_ext _ _ (fun s => scoreConsistency sqrt monthlyExpenses s));
    [reflexivity|].
  unfold scoreConsistency. factor_cases.
Qed.

Lemma scoreEmergency_addsUpTo (savingsGoals : list GoalModel.Goal) :
  addsUpTo 10 (scoreEmergency savingsGoals).
Proof.
  apply (addsUpTo_ext _ _ (fun s => scoreEmergency savingsGoals s));
    [reflexivity|].
  unfold scoreEmergency. factor_cases.
Qed.

Lemma goal_category_eqb_false (c : GoalModel.Category) :
  c <> GoalModel.EmergencyFund ->
  GoalModel.category_eqb c GoalModel.EmergencyFund = false.
Proof. destruct c; simpl; intros H; reflexivity || (now exfalso; apply H). Qed.

(** C6. The handler always answers with a report whose score is the sum of
    the points of the five factors, each between 0 and its cap (30, 25, 20,
    15, 10), hence an integer between 0 and 100, and equal to the points of
    the factor entries it lists. With income 1000, expenses 700, utilization
    70%, one active goal at 30% of its target, fewer than two months of
    expense data and no emergency-fund goal the score is 70 and the status
    good. *)
Theorem health_score_is_capped_sum
  (sqrt : Q -> Q) (u : UserModel.User) (goals : list GoalModel.Goal)
  (startOfMonth endOfMonth : Time) (expenses : list ExpenseModel.Expense)
  (totalExpenses totalIncome expenseVariability : list Q) :
  exists report active completed,
    financialHealthOf sqrt u goals startOfMonth endOfMonth expenses
      totalExpenses totalIncome expenseVariability = inr report
    /\ GoalModel.getUserGoalStats (UserModel._id u) goals !! "active"%string
       = Some active
    /\ GoalModel.getUserGoalStats (UserModel._id u) goals !! "completed"%string
       = Some completed
    /\ (let p1 := pointsAwarded
                    (scoreSavings
                       (savingsRateOf (firstTotal totalExpenses)
                          (firstTotal totalIncome))) in
        let p2 := pointsAwarded
                    (scoreBudget
                       (UserModel.getBudgetUtilization startOfMonth
                          endOfMonth expenses u)) in
        let p3 := pointsAwarded
                    (scoreGoals (GoalModel.count active)
                       (GoalModel.count completed)
                       (totalGoalProgressOf active)) in
        let p4 := pointsAwarded (scoreConsistency sqrt expenseVariability) in
        let p5 := pointsAwarded
                    (scoreEmergency
                       (goalsInStatus (UserModel._id u) GoalModel.Active
                          goals)) in
        healthScore report = (p1 + p2 + p3 + p4 + p5)%Z
        /\ (0 <= p1 <= 30)%Z /\ (0 <= p2 <= 25)%Z /\ (0 <= p3 <= 20)%Z
        /\ (0 <= p4 <= 15)%Z /\ (0 <= p5 <= 10)%Z)
    /\ (0 <= healthScore report <= 100)%Z
    /\ healthScore report = sumPoints (scoreFactors report)
    /\ healthStatus report = healthStatusOf (healthScore report)
    /\ (firstTotal totalIncome == 1000 ->
        firstTotal totalExpenses == 700 ->
        UserModel.getBudgetUtilization startOfMonth endOfMonth expenses u
        == 70 ->
        (exists g,
           goalsInStatus (UserModel._id u) GoalModel.Active goals = [g]
           /\ 0 < GoalModel.targetAmount g
           /\ GoalModel.currentAmount g / GoalModel.targetAmount g * 100 == 30
           /\ GoalModel.category g <> GoalModel.EmergencyFund) ->
        (length expenseVariability < 2)%nat ->
        healthScore report = 70%Z /\ healthStatus report = "good"%string)
    /\ match financialHealthOf sqrt sampleUser [goalAt30] 0%Z 1000%Z
               monthExpenses [700] [1000] [450] with
       | inr r => healthScore r = 70%Z /\ healthStatus r = "good"%string
       | inl _ => False
       end.
Proof.
  pose proof (getUserGoalStats_lookup (UserModel._id u) goals
                GoalModel.Active) as Ha.
  pose proof (getUserGoalStats_lookup (UserModel._id u) goals
                GoalModel.Completed) as Hc.
  simpl GoalModel.status_label in Ha, Hc.
  unfold financialHealthOf, financialHealth. rewrite Ha, Hc.
  eexists _, _, _.
  split; [reflexivity|]. split; [reflexivity|]. split; [reflexivity|].
  cbn [healthScore scoreFactors healthStatus].
  set (rate := savingsRateOf _ _).
  set (util := UserModel.getBudgetUtilization _ _ _ _).
  set (actives := goalsInStatus (UserModel._id u) GoalModel.Active goals).
  set (active := GoalModel.Build_GoalStat (length actives) _ _).
  set (completed := GoalModel.Build_GoalStat _ _ _).
  change (List.filter _ goals) with actives.
  destruct (scoreSavings_addsUpTo rate) as (B1 & S1).
  destruct (scoreBudget_addsUpTo util) as (B2 & S2).
  destruct (scoreGoals_addsUpTo (GoalModel.count active)
              (GoalModel.count completed) (totalGoalProgressOf active))
    as (B3 & S3).
  destruct (scoreConsistency_addsUpTo sqrt expenseVariability) as (B4 & S4).
  destruct (scoreEmergency_addsUpTo actives) as (B5 & S5).
  set (s1 := scoreSavings rate (0%Z, [])).
  set (s2 := scoreBudget util s1).
  set (s3 := scoreGoals _ _ _ s2).
  set (s4 := scoreConsistency sqrt expenseVariability s3).
  set (s5 := scoreEmergency actives s4).
  assert (E1 : fst s1 = pointsAwarded (scoreSavings rate)) by reflexivity.
  assert (F1 : sumPoints (snd s1) = pointsAwarded (scoreSavings rate)).
  { unfold s1. rewrite (proj2 (S1 _)). reflexivity. }
  destruct (S2 s1) as (E2 & F2). destruct (S3 s2) as (E3 & F3).
  destruct (S4 s3) as (E4 & F4). destruct (S5 s4) as (E5 & F5).
  fold s2 in E2, F2. fold s3 in E3, F3. fold s4 in E4, F4. fold s5 in E5, F5.
  assert (Hsum : fst s5
                 = (pointsAwarded (scoreSavings rate)
                    + pointsAwarded (scoreBudget util)
                    + pointsAwarded
                        (scoreGoals (GoalModel.count active)
                           (GoalModel.count completed)
                           (totalGoalProgressOf active))
                    + pointsAwarded (scoreConsistency sqrt expenseVariability)
                    + pointsAwarded (scoreEmergency actives))%Z) by lia.
  split; [repeat split; try lia; exact Hsum|].
  split; [lia|]. split; [lia|]. split; [reflexivity|].
  split.
  - intros Hi He Hu (g & Hg & Ht & Hp & Hcat) Hn.
    assert (P1 : pointsAwarded (scoreSavings rate) = 30%Z).
    { unfold pointsAwarded, scoreSavings.
      assert (geQ rate 20 = true) as ->; [|reflexivity].
      apply geQ_true. unfold rate, savingsRateOf.
      assert (gtQ (firstTotal totalIncome) 0 = true) as ->
        by (apply gtQ_true; lra).
      rewrite Hi, He. unfold Qle. simpl. lia. }
    assert (P2 : pointsAwarded (scoreBudget util) = 25%Z).
    { unfold pointsAwarded, scoreBudget.
      assert (leQ util 80 = true) as -> by (apply leQ_true; lra).
      reflexivity. }
    assert (P3 : pointsAwarded
                   (scoreGoals (GoalModel.count active)
                      (GoalModel.count completed)
                      (totalGoalProgressOf active)) = 15%Z).
    { unfold active, totalGoalProgressOf. fold actives in Hg.
      rewrite Hg. cbn [GoalModel.count GoalModel.totalTarget
                       GoalModel.totalCurrent length map sumQ fold_left
                       Nat.ltb Nat.leb].
      unfold jsDiv.
      assert (Qeq_bool (0 + GoalModel.targetAmount g) 0 = false) as ->.
      { apply not_true_iff_false. intros E. apply Qeq_bool_iff in E. lra. }
      assert (Q30 : (0 + GoalModel.currentAmount g)
                    / (0 + GoalModel.targetAmount g) * 100 == 30).
      { rewrite <- Hp. field. lra. }
      unfold pointsAwarded, scoreGoals, jsTimes100, jsGe.
      assert (geQ ((0 + GoalModel.currentAmount g)
                   / (0 + GoalModel.targetAmount g) * 100) 50 = false) as ->
        by (apply geQ_false; lra).
      assert (geQ ((0 + GoalModel.currentAmount g)
                   / (0 + GoalModel.targetAmount g) * 100) 25 = true) as ->
        by (apply geQ_true; lra).
      rewrite andb_false_r. reflexivity. }
    assert (P4 : pointsAwarded (scoreConsistency sqrt expenseVariability)
                 = 0%Z).
    { unfold pointsAwarded, scoreConsistency.
      assert ((2 <=? length expenseVariability)%nat = false) as ->
        by (apply Nat.leb_gt; exact Hn).
      reflexivity. }
    assert (P5 : pointsAwarded (scoreEmergency actives) = 0%Z).
    { unfold pointsAwarded, scoreEmergency. fold actives in Hg. rewrite Hg.
      simpl. unfold isEmergencyFund.
      now rewrite (goal_category_eqb_false _ Hcat). }
    assert (H70 : fst s5 = 70%Z) by lia.
    rewrite H70. split; reflexivity.
  - vm_compute. split; reflexivity.
Qed.

End HealthClaims.

(** ** Budget suggestions *)

Section SuggestionClaims.
Import Ai.

(** C7, as amended. [generateBudgetSuggestions] lists the five category
    allocations (food 35%, transport 15%, entertainment 20%, education 15%,
    other 15% of the budget) exactly when the budget is positive, and the
    single set-a-budget advisory otherwise, in both cases followed by the
    general tip; the budget analysis computes the same five shares whatever
    the budget, all zero for a budget of 0. *)
Theorem budget_suggestions_by_site
  (toLocaleString toString : Q -> string) (monthlyBudget : Q) :
  (0 < monthlyBudget ->
   summary (generateBudgetSuggestions toLocaleString toString monthlyBudget)
   = [ ("food"%string, monthlyBudget * 0.35);
       ("transport"%string, monthlyBudget * 0.15);
       ("entertainment"%string, monthlyBudget * 0.20);
       ("education"%string, monthlyBudget * 0.15);
       ("other"%string, monthlyBudget * 0.15);
       ("tips"%string, 0) ])
  /\ (~ 0 < monthlyBudget ->
      generateBudgetSuggestions toLocaleString toString monthlyBudget
      = [setBudgetAdvisory; generalTips])
  /\ ((exists s,
         In s (generateBudgetSuggestions toLocaleString toString monthlyBudget)
         /\ category s = "food"%string)
      <-> 0 < monthlyBudget)
  /\ Analytics.suggestedCategoryBudgets monthlyBudget
     = [ ("food"%string, monthlyBudget * 0.35);
         ("transport"%string, monthlyBudget * 0.15);
         ("entertainment"%string, monthlyBudget * 0.20);
         ("education"%string, monthlyBudget * 0.15);
         ("other"%string, monthlyBudget * 0.15) ]
  /\ map (fun kv => (fst kv, Qred (snd kv)))
       (Analytics.suggestedCategoryBudgets 0)
     = [ ("food"%string, 0); ("transport"%string, 0);
         ("entertainment"%string, 0); ("education"%string, 0);
         ("other"%string, 0) ]
  /\ map (fun kv => (fst kv, Qred (snd kv)))
       (summary (generateBudgetSuggestions toLocaleString toString 1000))
     = [ ("food"%string, 350); ("transport"%string, 150);
         ("entertainment"%string, 200); ("education"%string, 150);
         ("other"%string, 150); ("tips"%string, 0) ]
  /\ summary (generateBudgetSuggestions toLocaleString toString 0)
     = [ ("general"%string, 0); ("tips"%string, 0) ].
Proof.
  assert (Closed :
    map (fun kv => (fst kv, Qred (snd kv)))
      (summary (generateBudgetSuggestions toLocaleString toString 1000))
    = [ ("food"%string, 350); ("transport"%string, 150);
        ("entertainment"%string, 200); ("education"%string, 150);
        ("other"%string, 150); ("tips"%string, 0) ]
    /\ summary (generateBudgetSuggestions toLocaleString toString 0)
       = [ ("general"%string, 0); ("tips"%string, 0) ]).
  { split; reflexivity. }
  unfold generateBudgetSuggestions.
  destruct (gtQ monthlyBudget 0) eqn:E;
    [apply gtQ_true in E | apply gtQ_false in E].
  - split; [reflexivity|]. split; [intros H; now exfalso|].
    split; [|split; [reflexivity | split; [reflexivity | exact Closed]]].
    split; [intros _; exact E|]. intros _.
    eexists. split; [left; reflexivity | reflexivity].
  - split; [intros H; exfalso; lra|]. split; [reflexivity|].
    split; [|split; [reflexivity | split; [reflexivity | exact Closed]]].
    split; [|intros H; exfalso; lra].
    intros (s & [<- | [<- | []]] & Hs); discriminate Hs.
Qed.

(** C7 as stated fails for the budget analysis: with no budget it still
    returns the five category allocations. *)
Lemma allocation_returned_without_budget :
  ~ (forall monthlyBudget : Q,
       map fst (Analytics.suggestedCategoryBudgets monthlyBudget)
       = ["food"%string; "transport"%string; "entertainment"%string;
          "education"%string; "other"%string]
       <-> 0 < monthlyBudget).
Proof.
  intros H. destruct (H 0) as (H0 & _).
  specialize (H0 eq_refl). revert H0. apply Qlt_irrefl.
Qed.

End SuggestionClaims.

(** ** What is stored stays valid *)

Section StoredDocuments.
Import GoalModel GoalRoutes.

Lemma save_valid now g g' : save now g = Some g' -> validate g' = true.
Proof.
  unfold save. destruct (validate g) eqn:E; [|discriminate].
  intros [= <-]. now rewrite validate_preSave.
Qed.

Lemma persist_valid g goals :
  validate g = true -> validStore goals -> validStore (persist g goals).
Proof.
  intros Hg. unfold validStore, persist. rewrite !List.Forall_forall.
  intros H x Hx. apply in_map_iff in Hx. destruct Hx as (h & <- & Hh).
  destruct (Nat.eqb (_id h) (_id g)); [exact Hg | now apply H].
Qed.

(** Every request leaves a collection of valid documents valid: the
    validity the auto-save result assumes of the goal it finds is an
    invariant of the routes. *)
Lemma handle_valid now id userId r goals :
  validStore goals -> validStore (snd (handle now id userId r goals)).
Proof.
  intros Hv. destruct r as [b|t1 t2|b]; simpl.
  - unfold contribute.
    destruct (truthyNumber _) as [a|]; [|exact Hv].
    destruct (leQ a 0); [exact Hv|].
    destruct (findOne _ _ _) as [g|]; [|exact Hv].
    destruct (negb _); [exact Hv|].
    destruct (addContribution _ _ _ _ _) as [g'|] eqn:E; [|exact Hv].
    simpl. apply persist_valid; [|exact Hv]. eapply save_valid. exact E.
  - unfold autoSaveGoal.
    destruct (findOne _ _ _) as [g|]; [|exact Hv].
    destruct (_ || _); [exact Hv|].
    destruct (negb (status_eqb _ _)); [exact Hv|].
    destruct (negb (isDue _ _)); [exact Hv|].
    destruct (addContribution _ _ _ _ _) as [g1|] eqn:E; [|exact Hv].
    assert (V1 : validate g1 = true) by (eapply save_valid; exact E).
    destruct (save t2 _) as [g3|] eqn:E3; simpl.
    + apply persist_valid; [|exact Hv]. eapply save_valid. exact E3.
    + now apply persist_valid.
  - unfold updateGoal.
    destruct (findOne _ _ _) as [g|]; [|exact Hv].
    destruct (editGoal _ _ _) as [f|g1]; [exact Hv|].
    destruct (save now g1) as [g2|] eqn:E; [|exact Hv].
    simpl. apply persist_valid; [|exact Hv]. eapply save_valid. exact E.
Qed.

Lemma createGoal_valid now newId userId b goals :
  validStore goals -> validStore (snd (createGoal now newId userId b goals)).
Proof.
  intros Hv. unfold createGoal.
  destruct (truthyString _) as [ttl|]; [|exact Hv].
  destruct (truthyNumber _) as [target|]; [|exact Hv].
  destruct (Body.targetDate b) as [d|]; [|exact Hv].
  destruct (leQ target 0); [exact Hv|].
  destruct (d <=? now)%Z; [exact Hv|].
  destruct (save now _) as [g|] eqn:E; [|exact Hv].
  simpl. unfold validStore. apply List.Forall_app. split; [exact Hv|].
  constructor; [|constructor]. eapply save_valid. exact E.
Qed.

(** A goal that [POST /api/goals] creates has nothing saved and no
    contribution. *)
Lemma createGoal_fresh now newId userId b goals g goals' :
  createGoal now newId userId b goals = (inr g, goals') ->
  currentAmount g = 0 /\ contributions g = [].
Proof.
  unfold createGoal.
  destruct (truthyString _) as [ttl|]; [|discriminate].
  destruct (truthyNumber _) as [target|]; [|discriminate].
  destruct (Body.targetDate b) as [d|]; [|discriminate].
  destruct (leQ target 0); [discriminate|].
  destruct (d <=? now)%Z; [discriminate|].
  destruct (save now _) as [g1|] eqn:E; [|discriminate].
  intros [= <- _]. apply save_some in E. subst g1.
  now rewrite preSave_currentAmount, preSave_contributions.
Qed.

(** What [getGoalsByPriority] does return: the owner's active goals, in
    the order of the sort key. *)
Lemma byPriorityThenDate_total (a b : Goal) :
  byPriorityThenDate a b = false -> byPriorityThenDate b a = true.
Proof.
  unfold byPriorityThenDate.
  rewrite (String.compare_antisym (priority_label (priority a))).
  destruct (String.compare _ _); simpl; try discriminate; [|reflexivity].
  intros H. apply Z.leb_gt in H. apply Z.leb_le. lia.
Qed.

Lemma goals_by_priority_query (userId : ObjectId) (goals : list Goal) :
  Permutation (getGoalsByPriority userId goals)
    (goalsInStatus userId Active goals)
  /\ Sorted (fun a b => byPriorityThenDate a b = true)
       (getGoalsByPriority userId goals).
Proof.
  split.
  - apply sort_perm.
  - apply (sort_sorted byPriorityThenDate byPriorityThenDate_total).
Qed.

End StoredDocuments.

(** * Further properties of the goal engine *)

Section GoalEngine.
Import GoalModel GoalRoutes.

(** ** Fields the operations keep *)

Lemma preSave_id now g : _id (preSave now g) = _id g.
Proof. unfold preSave. simpl. now destruct (_ && _). Qed.

Lemma preSave_user now g : user (preSave now g) = user g.
Proof. unfold preSave. simpl. now destruct (_ && _). Qed.

Lemma preSave_targetAmount now g : targetAmount (preSave now g) = targetAmount g.
Proof. unfold preSave. simpl. now destruct (_ && _). Qed.

Lemma preSave_status now g :
  status (preSave now g)
  = if geQ (currentAmount g) (targetAmount g) && status_eqb (status g) Active
    then Completed else status g.
Proof. unfold preSave. simpl. now destruct (_ && _). Qed.

Lemma preSave_completedAt now g :
  completedAt (preSave now g)
  = if geQ (currentAmount g) (targetAmount g) && status_eqb (status g) Active
    then Some now else completedAt g.
Proof. unfold preSave. simpl. now destruct (_ && _). Qed.

Lemma assignFields_id b g : _id (assignFields b g) = _id g.
Proof.
  unfold assignFields.
  destruct (truthyString (Body.title b)), (truthyString (Body.description b)),
    (Body.category b), (Body.priority b), (Body.status b), (Body.autoSave b),
    (Body.tags b); reflexivity.
Qed.


Lemma assignFields_user b g : user (assignFields b g) = user g.
Proof.
  unfold assignFields.
  destruct (truthyString (Body.title b)), (truthyString (Body.description b)),
    (Body.category b), (Body.priority b), (Body.status b), (Body.autoSave b),
    (Body.tags b); reflexivity.
Qed.

Lemma editGoal_keeps now b g g1 :
  editGoal now b g = inr g1 ->
  _id g1 = _id g /\ user g1 = user g /\ currentAmount g1 = currentAmount g.
Proof.
  unfold editGoal.
  destruct (Body.targetAmount b) as [t|];
    [destruct (leQ t 0); [discriminate|]|];
    (destruct (Body.targetDate b) as [d|];
      [destruct (d <=? now)%Z; [discriminate|]|]);
    intros [= <-]; simpl;
    now rewrite assignFields_id, assignFields_user, assignFields_currentAmount.
Qed.

Lemma findOne_some id userId goals g :
  findOne id userId goals = Some g ->
  In g goals /\ _id g = id /\ user g = userId.
Proof.
  unfold findOne. intros H. apply find_some in H. destruct H as (Hin & Hb).
  apply andb_prop in Hb. destruct Hb as (H1 & H2).
  apply Nat.eqb_eq in H1, H2. auto.
Qed.

(** What a successful request answers with, in terms of the goal found. *)
Lemma handle_success now id userId r goals g' goals' :
  handle now id userId r goals = (inr g', goals') ->
  exists g g0 t,
    findOne id userId goals = Some g
    /\ g' = preSave t g0
    /\ goals' = persist g' goals
    /\ _id g0 = _id g /\ user g0 = user g
    /\ currentAmount g <= currentAmount g0.
Proof.
  destruct r as [b|t1 t2|b]; simpl.
  - unfold contribute.
    destruct (truthyNumber _) as [a|] eqn:Ea; [|discriminate].
    destruct (leQ a 0) eqn:El; [discriminate|].
    destruct (findOne _ _ _) as [g|]; [|discriminate].
    destruct (negb _); [discriminate|].
    destruct (addContribution _ _ _ _ _) as [g1|] eqn:E; [|discriminate].
    intros [= <- <-]. apply addContribution_some in E.
    eexists g, (pushContribution a _ _ now g), now.
    repeat split; try exact E.
    unfold pushContribution.
    cbn [currentAmount set_currentAmount set_contributions].
    apply leQ_false in El. lra.
  - unfold autoSaveGoal.
    destruct (findOne _ _ _) as [g|]; [|discriminate].
    destruct (_ || _) eqn:Eg; [discriminate|].
    destruct (negb (status_eqb _ _)); [discriminate|].
    destruct (negb (isDue _ _)); [discriminate|].
    destruct (addContribution _ _ _ _ _) as [g1|] eqn:E; [|discriminate].
    destruct (save t2 _) as [g3|] eqn:E3; [|discriminate].
    intros [= <- <-]. apply save_some in E3.
    apply addContribution_some in E. subst g1.
    eexists g, (set_autoSave _ (preSave t1 (pushContribution _ _ _ t1 g))), t2.
    repeat split; try exact E3;
      cbn [_id user currentAmount set_autoSave];
      rewrite ?preSave_id, ?preSave_user, ?preSave_currentAmount;
      try reflexivity.
    unfold pushContribution.
    cbn [currentAmount set_currentAmount set_contributions].
    apply orb_false_elim in Eg. destruct Eg as (_ & Eg).
    apply leQ_false in Eg. lra.
  - unfold updateGoal.
    destruct (findOne _ _ _) as [g|]; [|discriminate].
    destruct (editGoal now b g) as [f|g1] eqn:Ee; [discriminate|].
    destruct (save now g1) as [g2|] eqn:Es; [|discriminate].
    intros [= <- <-]. apply save_some in Es.
    destruct (editGoal_keeps _ _ _ _ Ee) as (H1 & H2 & H3).
    eexists g, g1, now. repeat split; try assumption. rewrite H3. lra.
Qed.

Lemma findOne_persist id userId goals g x :
  findOne id userId goals = Some g ->
  _id x = id -> user x = userId ->
  findOne id userId (persist x goals) = Some x.
Proof.
  unfold findOne, persist. intros Hf Hi Hu.
  assert (Px : Nat.eqb (_id x) id && Nat.eqb (user x) userId = true).
  { subst. now rewrite !Nat.eqb_refl. }
  induction goals as [|h rest IH]; simpl in *; [discriminate|].
  destruct (Nat.eqb (_id h) (_id x)) eqn:Ex.
  - now rewrite Px.
  - destruct (Nat.eqb (_id h) id && Nat.eqb (user h) userId) eqn:Ph.
    + apply andb_prop in Ph. destruct Ph as (Ph & _).
      apply Nat.eqb_eq in Ph. rewrite Ph, <- Hi, Nat.eqb_refl in Ex.
      discriminate.
    + now apply IH.
Qed.

(** The collection a request leaves: the one it found, or that one with
    the documents of the requested id replaced by a saved document. *)
Lemma handle_store now id userId r goals :
  snd (handle now id userId r goals) = goals
  \/ exists t g0,
       snd (handle now id userId r goals) = persist (preSave t g0) goals
       /\ _id g0 = id.
Proof.
  destruct r as [b|t1 t2|b]; simpl.
  - unfold contribute.
    destruct (truthyNumber _) as [a|]; [|now left].
    destruct (leQ a 0); [now left|].
    destruct (findOne _ _ _) as [g|] eqn:Ef; [|now left].
    destruct (negb _); [now left|].
    destruct (addContribution _ _ _ _ _) as [g1|] eqn:E; [|now left].
    apply addContribution_some in E. subst g1. right.
    eexists now, _. split; [reflexivity|].
    apply findOne_some in Ef. now destruct Ef as (_ & <- & _).
  - unfold autoSaveGoal.
    destruct (findOne _ _ _) as [g|] eqn:Ef; [|now left].
    destruct (_ || _); [now left|].
    destruct (negb (status_eqb _ _)); [now left|].
    destruct (negb (isDue _ _)); [now left|].
    apply findOne_some in Ef. destruct Ef as (_ & Ei & _).
    destruct (addContribution _ _ _ _ _) as [g1|] eqn:E; [|now left].
    apply addContribution_some in E.
    destruct (save t2 _) as [g3|] eqn:E3; simpl; right.
    + apply save_some in E3. subst g3.
      eexists t2, _. split; [reflexivity|]. subst g1.
      cbn [_id set_autoSave]. rewrite preSave_id. exact Ei.
    + subst g1. eexists t1, _. split; [reflexivity|]. exact Ei.
  - unfold updateGoal.
    destruct (findOne _ _ _) as [g|] eqn:Ef; [|now left].
    destruct (editGoal now b g) as [f|g1] eqn:Ee; [now left|].
    destruct (save now g1) as [g2|] eqn:Es; [|now left].
    apply save_some in Es. subst g2. right.
    eexists now, g1. split; [reflexivity|].
    apply editGoal_keeps in Ee. destruct Ee as (-> & _).
    apply findOne_some in Ef. now destruct Ef as (_ & <- & _).
Qed.

(** ** What a save settles *)

Lemma preSave_settled now g : settled (preSave now g).
Proof.
  split.
  - rewrite preSave_status, preSave_currentAmount, preSave_targetAmount.
    destruct (geQ (currentAmount g) (targetAmount g)) eqn:E; simpl.
    + destruct (status g); simpl; discriminate.
    + intros _. now apply geQ_false.
  - rewrite preSave_milestones, preSave_currentAmount.
    apply List.Forall_forall. intros m' Hm Hle.
    apply in_map_iff in Hm. destruct Hm as (m & <- & _).
    rewrite checkMilestone_flag. rewrite checkMilestone_amount in Hle.
    apply geQ_true in Hle. rewrite Hle. apply orb_true_r.
Qed.

Lemma persist_settled g goals :
  settled g -> Forall settled goals -> Forall settled (persist g goals).
Proof.
  intros Hg. unfold persist. rewrite !List.Forall_forall.
  intros H x Hx. apply in_map_iff in Hx. destruct Hx as (h & <- & Hh).
  destruct (Nat.eqb (_id h) (_id g)); [exact Hg | now apply H].
Qed.

(** X1. Whatever a contribute, auto-save or update request does, every
    stored goal stays settled (not active once its target is reached, and
    every milestone whose threshold is reached flagged), and so is the goal
    a successful request answers with. *)
Theorem requests_keep_goals_settled
  (now : Time) (id userId : ObjectId) (r : Request) (goals : list Goal) :
  Forall settled goals ->
  Forall settled (snd (handle now id userId r goals))
  /\ (forall g' goals',
        handle now id userId r goals = (inr g', goals') -> settled g').
Proof.
  intros Hs. split.
  - destruct (handle_store now id userId r goals) as [-> | (t & g0 & -> & _)];
      [exact Hs|].
    apply persist_settled; [apply preSave_settled | exact Hs].
  - intros g' goals' H. apply handle_success in H.
    destruct H as (g & g0 & t & _ & -> & _). apply preSave_settled.
Qed.

Lemma requests_keep_goals_settled_witness :
  Forall settled (snd (handle 60%Z 1%nat 7%nat (ReqContribute contribute80)
                         [goalAt30])).
Proof.
  refine (proj1 (requests_keep_goals_settled 60%Z 1%nat 7%nat
                   (ReqContribute contribute80) [goalAt30] _)).
  constructor; [|constructor].
  unfold goalAt30, addContribution, save. simpl validate. cbv iota.
  apply preSave_settled.
Defined.

Lemma checkMilestone_again t1 t2 cur m :
  checkMilestone t2 cur (checkMilestone t1 cur m) = checkMilestone t1 cur m.
Proof.
  unfold checkMilestone.
  destruct (Milestone.isAchieved m) eqn:Ha; simpl.
  - now rewrite Ha.
  - destruct (geQ cur (Milestone.amount m)) eqn:E; simpl; [reflexivity|].
    now rewrite Ha, E.
Qed.

(** X2. Saving a document again, with nothing changed in between, changes
    only [updatedAt]: the completion time and the dates of the milestones
    are stamped by the first save and kept by the second. *)
Theorem resave_changes_only_updatedAt (t1 t2 : Time) (g : Goal) :
  preSave t2 (preSave t1 g) = set_updatedAt t2 (preSave t1 g).
Proof.
  unfold preSave at 1.
  cbn [currentAmount targetAmount status set_updatedAt milestones].
  rewrite preSave_currentAmount, preSave_targetAmount, preSave_status.
  assert (E : geQ (currentAmount g) (targetAmount g)
              && status_eqb
                   (if geQ (currentAmount g) (targetAmount g)
                       && status_eqb (status g) Active
                    then Completed else status g) Active = false).
  { destruct (geQ (currentAmount g) (targetAmount g)); [|reflexivity].
    destruct (status g); reflexivity. }
  rewrite E. cbn [currentAmount set_updatedAt milestones].
  rewrite preSave_currentAmount, preSave_milestones, map_map.
  assert (M : map (fun m => checkMilestone t2 (currentAmount g)
                              (checkMilestone t1 (currentAmount g) m))
                (milestones g)
              = map (checkMilestone t1 (currentAmount g)) (milestones g)).
  { apply map_ext. intros m. apply checkMilestone_again. }
  rewrite M, <- preSave_milestones.
  destruct (preSave t1 g). reflexivity.
Qed.



(** X4. No contribute, auto-save or update request lowers the saved amount
    of the goal it acts on. *)
Theorem saved_amount_never_decreases
  (now : Time) (id userId : ObjectId) (r : Request) (goals : list Goal)
  (g g' : Goal) (goals' : list Goal) :
  findOne id userId goals = Some g ->
  handle now id userId r goals = (inr g', goals') ->
  currentAmount g <= currentAmount g'.
Proof.
  intros Hf H. apply handle_success in H.
  destruct H as (g1 & g0 & t & Hf1 & -> & _ & _ & _ & Hle).
  rewrite Hf in Hf1. injection Hf1 as <-.
  now rewrite preSave_currentAmount.
Qed.

Lemma saved_amount_never_decreases_witness :
  currentAmount goalAt30
  <= currentAmount
       (answered (handle 60%Z 1%nat 7%nat (ReqContribute contribute80)
                    [goalAt30]) goalAt30).
Proof.
  apply (saved_amount_never_decreases 60%Z 1%nat 7%nat
           (ReqContribute contribute80) [goalAt30] goalAt30 _
           (snd (handle 60%Z 1%nat 7%nat (ReqContribute contribute80)
                   [goalAt30])));
    vm_compute; reflexivity.
Defined.

(** X5. A request on the goal [id] leaves every stored goal with another
    identifier as it was, at its place, and keeps the number of stored
    goals, whether it succeeds or fails. *)
Theorem requests_touch_one_goal
  (now : Time) (id userId : ObjectId) (r : Request) (goals : list Goal) :
  length (snd (handle now id userId r goals)) = length goals
  /\ forall (i : nat) (h : Goal),
       goals !! i = Some h -> _id h <> id ->
       snd (handle now id userId r goals) !! i = Some h.
Proof.
  destruct (handle_store now id userId r goals) as [-> | (t & g0 & -> & Hi)].
  - split; [reflexivity | intros i h H _; exact H].
  - unfold persist. split; [apply length_map|].
    intros i h H Hne. rewrite list_lookup_fmap, H.
    cbn [fmap option_fmap option_map]. rewrite preSave_id, Hi.
    destruct (Nat.eqb (_id h) id) eqn:E; [|reflexivity].
    apply Nat.eqb_eq in E. contradiction.
Qed.

(** X6. When no stored goal has both the requested identifier and the
    caller as owner, every request fails and leaves the collection as it
    was: update, auto-save and delete answer not-found, and so does
    contribute unless the amount is rejected first. *)
Theorem foreign_goal_is_not_found
  (now : Time) (id userId : ObjectId) (goals : list Goal) :
  (forall h, In h goals -> _id h = id -> user h <> userId) ->
  (forall r, exists f,
      handle now id userId r goals = (inl f, goals)
      /\ (kind f = NotFoundError
          \/ (exists b, r = ReqContribute b) /\ kind f = ValidationError))
  /\ deleteGoal id userId goals
     = (inl (fail NotFoundError 404 "Goal not found."), goals).
Proof.
  intros Hown.
  assert (Hf : findOne id userId goals = None).
  { destruct (findOne id userId goals) as [g|] eqn:E; [|reflexivity].
    apply findOne_some in E. destruct E as (Hin & Hi & Hu).
    now destruct (Hown g Hin Hi). }
  split.
  - intros [b|t1 t2|b]; simpl.
    + unfold contribute.
      destruct (truthyNumber _) as [a|]; [|eexists; split; [reflexivity|]].
      * destruct (leQ a 0); rewrite ?Hf; eexists; (split; [reflexivity|]).
        -- right. split; [eauto | reflexivity].
        -- now left.
      * right. split; [eauto | reflexivity].
    + unfold autoSaveGoal. rewrite Hf. eexists. split; [reflexivity | now left].
    + unfold updateGoal. rewrite Hf. eexists. split; [reflexivity | now left].
  - unfold deleteGoal. now rewrite Hf.
Qed.

Lemma foreign_goal_is_not_found_witness :
  deleteGoal 1%nat 8%nat [goalAt30]
  = (inl (fail NotFoundError 404 "Goal not found."), [goalAt30]).
Proof.
  refine (proj2 (foreign_goal_is_not_found 0%Z 1%nat 8%nat [goalAt30] _)).
  intros h [<- | []] _. vm_compute. discriminate.
Defined.

Lemma findOne_after_handle
  (now : Time) (id userId : ObjectId) (r : Request) (goals : list Goal)
  (g' : Goal) (goals' : list Goal) :
  handle now id userId r goals = (inr g', goals') ->
  findOne id userId goals' = Some g'.
Proof.
  intros H. apply handle_success in H.
  destruct H as (g & g0 & t & Hf & -> & -> & Hi & Hu & _).
  destruct (findOne_some _ _ _ _ Hf) as (_ & Hgi & Hgu).
  apply (findOne_persist _ _ _ g); [exact Hf | |].
  - rewrite preSave_id. congruence.
  - rewrite preSave_user. congruence.
Qed.

(** X7. After a successful request, looking the goal up again finds the
    document the request answered with. *)
Theorem answered_goal_is_stored
  (now : Time) (id userId : ObjectId) (r : Request) (goals : list Goal)
  (g' : Goal) (goals' : list Goal) :
  handle now id userId r goals = (inr g', goals') ->
  findOne id userId goals' = Some g'.
Proof. apply findOne_after_handle. Qed.

Lemma answered_goal_is_stored_witness :
  findOne 1%nat 7%nat
    (snd (handle 60%Z 1%nat 7%nat (ReqContribute contribute80) [goalAt30]))
  = Some (answered (handle 60%Z 1%nat 7%nat (ReqContribute contribute80)
                      [goalAt30]) goalAt30).
Proof.
  apply (answered_goal_is_stored 60%Z 1%nat 7%nat (ReqContribute contribute80)
           [goalAt30]).
  vm_compute. reflexivity.
Defined.

(** X8. A contribution that takes the saved amount to the target or past
    it completes the goal and stamps the completion time; every later
    contribution to that goal is rejected as [InvalidState] and changes
    nothing. *)
Theorem reaching_the_target_closes_the_goal
  (now : Time) (id userId : ObjectId) (b : ContributeBody.t)
  (goals : list Goal) (g g' : Goal) (goals' : list Goal) (amount : Q) :
  findOne id userId goals = Some g ->
  ContributeBody.amount b = Some amount ->
  targetAmount g <= currentAmount g + amount ->
  contribute now id userId b goals = (inr g', goals') ->
  status g' = Completed
  /\ completedAt g' = Some now
  /\ forall later b2 amount2,
       ContributeBody.amount b2 = Some amount2 -> 0 < amount2 ->
       contribute later id userId b2 goals'
       = (inl inactiveGoalFailure, goals').
Proof.
  intros Hf Hb Hr Hc.
  assert (Hs : findOne id userId goals' = Some g').
  { apply (findOne_after_handle now id userId (ReqContribute b) goals).
    exact Hc. }
  revert Hc. unfold contribute. rewrite Hb.
  destruct (truthyNumber (Some amount)) as [a|] eqn:Ea; [|discriminate].
  assert (a = amount) as ->.
  { unfold truthyNumber in Ea. destruct (Qeq_bool amount 0); congruence. }
  destruct (leQ amount 0); [discriminate|]. rewrite Hf.
  destruct (status_eqb (status g) Active) eqn:Es; [|discriminate]. simpl.
  destruct (addContribution _ _ _ _ _) as [g1|] eqn:E; [|discriminate].
  intros [= <- <-]. apply addContribution_some in E. subst g1.
  assert (St : status (preSave now
                 (pushContribution amount
                    (default ""%string (truthyString (ContributeBody.note b)))
                    (default Manual (ContributeBody.source b)) now g))
               = Completed).
  { rewrite preSave_status. unfold pushContribution.
    cbn [currentAmount targetAmount status set_currentAmount set_contributions].
    rewrite Es. now rewrite (proj2 (geQ_true _ _) Hr). }
  split; [exact St|]. split.
  - rewrite preSave_completedAt. unfold pushContribution.
    cbn [currentAmount targetAmount status set_currentAmount set_contributions].
    rewrite Es. now rewrite (proj2 (geQ_true _ _) Hr).
  - intros later b2 amount2 Hb2 Ha2. unfold contribute.
    rewrite Hb2, (positive_truthy _ Ha2).
    assert (leQ amount2 0 = false) as -> by (now apply leQ_false).
    rewrite Hs, St. reflexivity.
Qed.

Lemma reaching_the_target_closes_the_goal_witness :
  status (answered (contribute 60%Z 1%nat 7%nat contribute80 [goalAt30])
            goalAt30) = Completed.
Proof.
  refine (proj1 (reaching_the_target_closes_the_goal 60%Z 1%nat 7%nat
                   contribute80 [goalAt30] goalAt30 _
                   (snd (contribute 60%Z 1%nat 7%nat contribute80 [goalAt30]))
                   80 _ _ _ _)).
  - vm_compute. reflexivity.
  - reflexivity.
  - vm_compute. discriminate.
  - vm_compute. reflexivity.
Defined.

(** What a successful auto-save leaves in the auto-save settings. *)
Lemma autoSaveGoal_success now t1 t2 id userId goals g' goals' :
  autoSaveGoal now t1 t2 id userId goals = (inr g', goals') ->
  exists g,
    findOne id userId goals = Some g
    /\ AutoSave.lastAutoSave (autoSave g') = Some now
    /\ AutoSave.frequency (autoSave g') = AutoSave.frequency (autoSave g)
    /\ AutoSave.amount (autoSave g') = AutoSave.amount (autoSave g)
    /\ AutoSave.enabled (autoSave g') = AutoSave.enabled (autoSave g).
Proof.
  unfold autoSaveGoal.
  destruct (findOne _ _ _) as [g|]; [|discriminate].
  destruct (_ || _); [discriminate|].
  destruct (negb (status_eqb _ _)); [discriminate|].
  destruct (negb (isDue _ _)); [discriminate|].
  destruct (addContribution _ _ _ _ _) as [g1|] eqn:E; [|discriminate].
  destruct (save t2 _) as [g3|] eqn:E3; [|discriminate].
  intros [= <- <-]. apply save_some in E3. subst g3.
  apply addContribution_some in E. subst g1.
  exists g. split; [reflexivity|].
  rewrite preSave_autoSave. cbn [autoSave set_autoSave].
  rewrite preSave_autoSave. now repeat split.
Qed.

(** X9. After a successful auto-save at [now], an auto-save requested
    before the period of the goal's frequency has passed since [now] is
    rejected as [InvalidState] and changes nothing. *)
Theorem autoSave_not_before_next_period
  (now t1 t2 : Time) (id userId : ObjectId) (goals : list Goal)
  (g' : Goal) (goals' : list Goal) (later u1 u2 : Time) :
  autoSaveGoal now t1 t2 id userId goals = (inr g', goals') ->
  (later - now < periodDays (AutoSave.frequency (autoSave g')) * dayMs)%Z ->
  exists f,
    autoSaveGoal later u1 u2 id userId goals' = (inl f, goals')
    /\ kind f = InvalidState.
Proof.
  intros H Hlt.
  assert (Hs : findOne id userId goals' = Some g')
    by (apply (findOne_after_handle now id userId (ReqAutoSave t1 t2) goals);
        exact H).
  apply autoSaveGoal_success in H. destruct H as (g & _ & Hl & _).
  unfold autoSaveGoal. rewrite Hs.
  destruct (_ || _); [eexists; split; reflexivity|].
  destruct (negb (status_eqb _ _)); [eexists; split; reflexivity|].
  assert (isDue later (autoSave g') = false) as ->.
  { apply not_true_iff_false. rewrite isDue_iff, Hl.
    intros [E | (last & [= <-] & Hge)]; [discriminate | lia]. }
  eexists. split; reflexivity.
Qed.

Lemma autoSave_not_before_next_period_witness :
  exists f,
    autoSaveGoal (100 + 6 * dayMs)%Z 0%Z 0%Z 1%nat 7%nat
      (snd (autoSaveGoal 100%Z 101%Z 102%Z 1%nat 7%nat [freshGoal]))
    = (inl f, snd (autoSaveGoal 100%Z 101%Z 102%Z 1%nat 7%nat [freshGoal]))
    /\ kind f = InvalidState.
Proof.
  apply (autoSave_not_before_next_period 100%Z 101%Z 102%Z 1%nat 7%nat
           [freshGoal]
           (answered (autoSaveGoal 100%Z 101%Z 102%Z 1%nat 7%nat [freshGoal])
              freshGoal)).
  - vm_compute. reflexivity.
  - vm_compute. reflexivity.
Defined.




(** X11. A create request either fails with a validation error or a store
    failure and leaves the collection as it was, or appends exactly the
    goal it answers with, which carries the given identifier and owner. *)
Theorem createGoal_appends_or_keeps
  (now : Time) (newId userId : ObjectId) (b : Body.t) (goals : list Goal) :
  (exists f,
     createGoal now newId userId b goals = (inl f, goals)
     /\ (kind f = ValidationError \/ kind f = StoreFailure))
  \/ (exists g,
        createGoal now newId userId b goals = (inr g, goals ++ [g])
        /\ _id g = newId /\ user g = userId /\ validate g = true).
Proof.
  unfold createGoal.
  destruct (truthyString _) as [ttl|];
    [|left; eexists; split; [reflexivity | now left]].
  destruct (truthyNumber _) as [target|];
    [|left; eexists; split; [reflexivity | now left]].
  destruct (Body.targetDate b) as [d|];
    [|left; eexists; split; [reflexivity | now left]].
  destruct (leQ target 0); [left; eexists; split; [reflexivity | now left]|].
  destruct (d <=? now)%Z; [left; eexists; split; [reflexivity | now left]|].
  destruct (save now _) as [g|] eqn:E;
    [|left; eexists; split; [reflexivity | now right]].
  right. exists g. split; [reflexivity|].
  pose proof (save_valid _ _ _ E) as V. apply save_some in E. subst g.
  rewrite preSave_id, preSave_user. now repeat split.
Qed.

Lemma deleted_not_found id userId goals g :
  findOne id userId goals = Some g ->
  findOne id userId
    (List.filter (fun h => negb (Nat.eqb (_id h) (_id g))) goals) = None.
Proof.
  intros Hf. apply findOne_some in Hf. destruct Hf as (_ & Hi & _).
  unfold findOne. induction goals as [|h rest IH]; simpl; [reflexivity|].
  destruct (Nat.eqb (_id h) (_id g)) eqn:E; simpl; [exact IH|].
  rewrite Hi in E. rewrite E. simpl. exact IH.
Qed.

(** X12. Deleting a goal the caller owns removes every document with its
    identifier and keeps the others in order; looking it up afterwards
    finds nothing, and deleting it again answers not-found. *)
Theorem deleteGoal_removes
  (id userId : ObjectId) (goals : list Goal) (g : Goal) :
  findOne id userId goals = Some g ->
  let goals' := List.filter (fun h => negb (Nat.eqb (_id h) id)) goals in
  deleteGoal id userId goals = (inr tt, goals')
  /\ findOne id userId goals' = None
  /\ deleteGoal id userId goals'
     = (inl (fail NotFoundError 404 "Goal not found."), goals')
  /\ (forall h, In h goals' <-> In h goals /\ _id h <> id).
Proof.
  intros Hf goals'.
  destruct (findOne_some _ _ _ _ Hf) as (_ & Hi & _). subst id.
  assert (N : findOne (_id g) userId goals' = None)
    by (now apply deleted_not_found).
  split; [|split; [exact N|split]].
  - unfold deleteGoal. now rewrite Hf.
  - unfold deleteGoal. now rewrite N.
  - intros h. unfold goals'. rewrite filter_In, negb_true_iff, Nat.eqb_neq.
    reflexivity.
Qed.

Lemma deleteGoal_removes_witness :
  deleteGoal 1%nat 7%nat [goalAt30; othersGoal]
  = (inr tt,
     List.filter (fun h => negb (Nat.eqb (_id h) 1%nat)) [goalAt30; othersGoal]).
Proof.
  refine (proj1 (deleteGoal_removes 1%nat 7%nat [goalAt30; othersGoal]
                   goalAt30 _)).
  vm_compute. reflexivity.
Defined.

(** ** Derived fields *)

Lemma ratio_le_100 (cur target : Q) :
  0 < target -> (cur / target * 100 <= 100 <-> cur <= target).
Proof.
  intros Ht.
  assert (E : cur / target * 100 == 100 * (cur * / target)) by (field; lra).
  rewrite E. clear E.
  assert (P : 0 < / target) by (now apply Qinv_lt_0_compat).
  assert (I : target * / target == 1) by (field; lra).
  split; intros H.
  - assert (K : cur * / target <= 1) by lra.
    assert (M : cur * / target * target <= 1 * target)
      by (apply Qmult_le_compat_r; lra).
    assert (N : cur * / target * target == cur) by (field; lra).
    lra.
  - assert (M : cur * / target <= target * / target)
      by (apply Qmult_le_compat_r; lra).
    lra.
Qed.

Lemma ratio_ge_100 (cur target : Q) :
  0 < target -> (100 <= cur / target * 100 <-> target <= cur).
Proof.
  intros Ht.
  assert (E : cur / target * 100 == 100 * (cur * / target)) by (field; lra).
  rewrite E. clear E.
  assert (P : 0 < / target) by (now apply Qinv_lt_0_compat).
  assert (I : target * / target == 1) by (field; lra).
  split; intros H.
  - assert (K : 1 <= cur * / target) by lra.
    assert (M : 1 * target <= cur * / target * target)
      by (apply Qmult_le_compat_r; lra).
    assert (N : cur * / target * target == cur) by (field; lra).
    lra.
  - assert (M : target * / target <= cur * / target)
      by (apply Qmult_le_compat_r; lra).
    lra.
Qed.

Lemma ratio_nonneg (cur target : Q) :
  0 < target -> 0 <= cur -> 0 <= cur / target * 100.
Proof.
  intros Ht Hc.
  assert (P : 0 < / target) by (now apply Qinv_lt_0_compat).
  assert (M : 0 <= cur * / target) by (apply Qmult_le_0_compat; lra).
  unfold Qdiv. lra.
Qed.

(** X13. For a goal with a non-negative target and saved amount, the
    progress percentage lies between 0 and 100, and it is 100 exactly when
    the target is positive and reached; a target of 0 gives 0. *)
Theorem progressPercentage_bounds (g : Goal) :
  0 <= targetAmount g -> 0 <= currentAmount g ->
  0 <= progressPercentage g <= 100
  /\ (progressPercentage g == 100
      <-> 0 < targetAmount g /\ targetAmount g <= currentAmount g)
  /\ (targetAmount g == 0 -> progressPercentage g = 0).
Proof.
  intros Ht Hc. unfold progressPercentage.
  destruct (Qeq_bool (targetAmount g) 0) eqn:E.
  - apply Qeq_bool_iff in E. split; [lra|]. split; [|reflexivity].
    split; intros H; [exfalso; lra | lra].
  - assert (Hp : 0 < targetAmount g).
    { apply not_true_iff_false in E. rewrite Qeq_bool_iff in E.
      destruct (Qlt_le_dec 0 (targetAmount g)); [assumption|].
      exfalso. apply E. lra. }
    pose proof (ratio_le_100 (currentAmount g) _ Hp) as L.
    pose proof (ratio_ge_100 (currentAmount g) _ Hp) as G.
    pose proof (ratio_nonneg (currentAmount g) _ Hp Hc) as N.
    unfold minQ.
    destruct (leQ (currentAmount g / targetAmount g * 100) 100) eqn:M;
      [apply leQ_true in M | apply leQ_false in M].
    + split; [lra|]. split; [|intros H; exfalso; lra].
      split.
      * intros H. split; [exact Hp|]. apply G. lra.
      * intros (_ & H). apply G in H. lra.
    + split; [lra|]. split; [|intros H; exfalso; lra].
      split; [intros _|reflexivity].
      split; [exact Hp|]. apply G. lra.
Qed.

Lemma progressPercentage_bounds_witness :
  0 <= progressPercentage goalAt30 <= 100.
Proof.
  refine (proj1 (progressPercentage_bounds goalAt30 _ _));
    vm_compute; discriminate.
Defined.

Lemma days_ceiling (d : Z) :
  let days := Qceiling (inject_Z d / (1000 * 3600 * 24)) in
  ((days - 1) * dayMs < d <= days * dayMs)%Z.
Proof.
  intros days.
  assert (E : inject_Z d / (1000 * 3600 * 24)
              == inject_Z d * (1 # 86400000)) by (now field).
  pose proof (Qle_ceiling (inject_Z d / (1000 * 3600 * 24))) as U.
  pose proof (Qceiling_lt (inject_Z d / (1000 * 3600 * 24))) as L.
  fold days in U, L. rewrite E in U, L. unfold dayMs.
  split.
  - rewrite Zlt_Qlt, inject_Z_mult.
    change (inject_Z 86400000) with (86400000 : Q).
    revert L. generalize (inject_Z (days - 1)), (inject_Z d). intros; lra.
  - rewrite Zle_Qle, inject_Z_mult.
    change (inject_Z 86400000) with (86400000 : Q).
    revert U. generalize (inject_Z days), (inject_Z d). intros; lra.
Qed.

(** X14. The days remaining are the whole days that cover the time to the
    target date, so they are positive exactly while the target date lies
    ahead. The required daily savings are never negative, are positive
    exactly when days remain and the target is not reached, and then that
    amount saved on each remaining day makes up the missing amount. *)
Theorem requiredDailySavings_covers_rest (today : Time) (g : Goal) :
  ((daysRemaining today g - 1) * dayMs < targetDate g - today
   <= daysRemaining today g * dayMs)%Z
  /\ ((0 < daysRemaining today g)%Z <-> (today < targetDate g)%Z)
  /\ 0 <= requiredDailySavings today g
  /\ (0 < requiredDailySavings today g
      <-> (0 < daysRemaining today g)%Z /\ currentAmount g < targetAmount g)
  /\ (0 < requiredDailySavings today g ->
      requiredDailySavings today g * inject_Z (daysRemaining today g)
      == targetAmount g - currentAmount g).
Proof.
  pose proof (days_ceiling (targetDate g - today)) as C. cbv zeta in C.
  fold (daysRemaining today g) in C.
  split; [exact C|]. split; [unfold dayMs in C; lia|].
  unfold requiredDailySavings.
  destruct (daysRemaining today g <=? 0)%Z eqn:D;
    [apply Z.leb_le in D | apply Z.leb_gt in D]; simpl.
  - split; [lra|]. split; [|intros H; exfalso; lra].
    split; [intros H; exfalso; lra | intros (H & _); lia].
  - assert (Dq : 0 < inject_Z (daysRemaining today g)).
    { change 0 with (inject_Z 0). now rewrite <- Zlt_Qlt. }
    destruct (leQ (targetAmount g - currentAmount g) 0) eqn:R;
      [apply leQ_true in R | apply leQ_false in R].
    + split; [lra|]. split; [|intros H; exfalso; lra].
      split; [intros H; exfalso; lra | intros (_ & H); lra].
    + assert (P : 0 < (targetAmount g - currentAmount g)
                      / inject_Z (daysRemaining today g)).
      { apply Qlt_shift_div_l; lra. }
      split; [lra|]. split.
      * split; [intros _; split; [exact D | lra] | intros _; exact P].
      * intros _. field. lra.
Qed.

(** X15. The overdue query returns exactly the owner's active goals whose
    target date has passed; each of them has no days remaining and no
    required daily savings, and is among the goals the priority query
    returns. *)
Theorem overdue_goals_are_past_due
  (today : Time) (userId : ObjectId) (goals : list Goal) (g : Goal) :
  (In g (getOverdueGoals today userId goals)
   <-> In g goals /\ user g = userId /\ status g = Active
       /\ (targetDate g < today)%Z)
  /\ (In g (getOverdueGoals today userId goals) ->
      (daysRemaining today g <= 0)%Z
      /\ requiredDailySavings today g = 0
      /\ In g (getGoalsByPriority userId goals)).
Proof.
  assert (M : In g (getOverdueGoals today userId goals)
              <-> In g goals /\ user g = userId /\ status g = Active
                  /\ (targetDate g < today)%Z).
  { unfold getOverdueGoals.
    rewrite filter_In, !andb_true_iff, Nat.eqb_eq, status_eqb_eq, Z.ltb_lt.
    tauto. }
  split; [exact M|]. intros H. apply M in H.
  destruct H as (Hin & Hu & Hs & Hd).
  pose proof (days_ceiling (targetDate g - today)) as C. cbv zeta in C.
  fold (daysRemaining today g) in C. unfold dayMs in C.
  assert (D : (daysRemaining today g <= 0)%Z) by lia.
  split; [exact D|]. split.
  - unfold requiredDailySavings.
    now rewrite (proj2 (Z.leb_le _ _) D).
  - unfold getGoalsByPriority. apply sort_In.
    apply filter_In. split; [exact Hin|].
    now rewrite Hu, Hs, Nat.eqb_refl.
Qed.

(** ** The summary *)

Lemma fold_Qplus_from (l : list Q) : forall a,
  fold_left Qplus l a == a + sumQ l.
Proof.
  unfold sumQ. induction l as [|x l IH]; intros a; simpl; [lra|].
  rewrite (IH (a + x)), (IH (0 + x)). lra.
Qed.

Lemma sumQ_cons (x : Q) (l : list Q) : sumQ (x :: l) == x + sumQ l.
Proof. unfold sumQ at 1. simpl. rewrite fold_Qplus_from. lra. Qed.

(** A sum over the goals of an owner is the sum of the sums over the four
    statuses. *)
Lemma sum_by_status (f : Goal -> Q) (userId : ObjectId) (goals : list Goal) :
  sumQ (map f (List.filter (fun g => Nat.eqb (user g) userId) goals))
  == sumQ (map f (goalsInStatus userId Active goals))
     + sumQ (map f (goalsInStatus userId Completed goals))
     + sumQ (map f (goalsInStatus userId Paused goals))
     + sumQ (map f (goalsInStatus userId Cancelled goals)).
Proof.
  unfold goalsInStatus.
  induction goals as [|g rest IH]; simpl; [reflexivity|].
  destruct (Nat.eqb (user g) userId); simpl; [|exact IH].
  destruct (status g); simpl; rewrite !sumQ_cons, IH; lra.
Qed.

Lemma filter_length_perm {A : Type} (f : A -> bool) (l l' : list A) :
  Permutation l l' -> length (List.filter f l) = length (List.filter f l').
Proof.
  induction 1 as [|x l l' _ IH|x y l|l1 l2 l3 _ IH1 _ IH2]; simpl.
  - reflexivity.
  - destruct (f x); simpl; now rewrite IH.
  - destruct (f x), (f y); reflexivity.
  - now rewrite IH1.
Qed.

Lemma filter_length_le {A : Type} (f h : A -> bool) (l : list A) :
  (forall x, f x = true -> h x = true) ->
  (length (List.filter f l) <= length (List.filter h l))%nat.
Proof.
  intros Hi. induction l as [|x l IH]; simpl; [lia|].
  destruct (f x) eqn:E.
  - rewrite (Hi x E). simpl. lia.
  - destruct (h x); simpl; lia.
Qed.

(** X16. The summary always answers. Its totals are the sums of the saved
    and target amounts over all goals of the owner, in every status; the
    active and completed counts are the numbers of the owner's goals in
    those statuses; the high-priority count is the number of active goals
    with priority high or urgent, whatever order the priority query
    returns them in; and neither the overdue nor the high-priority count
    exceeds the active count. *)
Theorem goalsSummary_totals
  (now : Time) (userId : ObjectId) (goals : list Goal) :
  exists s,
    GoalSummary.goalsSummary now userId goals = inr s
    /\ GoalSummary.totalSaved s
       == sumQ (map currentAmount
                  (List.filter (fun g => Nat.eqb (user g) userId) goals))
    /\ GoalSummary.totalTarget s
       == sumQ (map targetAmount
                  (List.filter (fun g => Nat.eqb (user g) userId) goals))
    /\ GoalSummary.activeCount s = length (goalsInStatus userId Active goals)
    /\ GoalSummary.completedCount s
       = length (goalsInStatus userId Completed goals)
    /\ GoalSummary.highPriorityCount s
       = length (List.filter GoalSummary.isHighPriority
                   (goalsInStatus userId Active goals))
    /\ (GoalSummary.overdueCount s <= GoalSummary.activeCount s)%nat
    /\ (GoalSummary.highPriorityCount s <= GoalSummary.activeCount s)%nat.
Proof.
  pose proof (getUserGoalStats_lookup userId goals Active) as La.
  pose proof (getUserGoalStats_lookup userId goals Completed) as Lc.
  pose proof (getUserGoalStats_lookup userId goals Paused) as Lp.
  pose proof (getUserGoalStats_lookup userId goals Cancelled) as Lx.
  simpl status_label in La, Lc, Lp, Lx.
  unfold GoalSummary.goalsSummary, GoalSummary.statValues.
  cbn [omap list_omap]. rewrite La, Lc, Lp, Lx.
  eexists. split; [reflexivity|].
  cbn [GoalSummary.totalSaved GoalSummary.totalTarget GoalSummary.activeCount
       GoalSummary.completedCount GoalSummary.highPriorityCount
       GoalSummary.overdueCount fold_left totalCurrent totalTarget count].
  assert (Hh : length (List.filter GoalSummary.isHighPriority
                         (getGoalsByPriority userId goals))
               = length (List.filter GoalSummary.isHighPriority
                           (goalsInStatus userId Active goals))).
  { apply filter_length_perm. apply sort_perm. }
  split; [rewrite (sum_by_status currentAmount); lra|].
  split; [rewrite (sum_by_status targetAmount); lra|].
  split; [reflexivity|]. split; [reflexivity|]. split; [exact Hh|].
  split.
  - unfold getOverdueGoals, goalsInStatus. apply filter_length_le.
    intros x H. now apply andb_prop in H.
  - rewrite Hh. clear.
    induction (goalsInStatus userId Active goals) as [|x l IH]; simpl; [lia|].
    destruct (GoalSummary.isHighPriority x); simpl; lia.
Qed.

End GoalEngine.

(** * Further properties of the analytics *)

Section AnalyticsMore.
Import Analytics.

Lemma div_mono (a b c : Q) : 0 < c -> a <= b -> a / c <= b / c.
Proof.
  intros Hc H. unfold Qdiv. apply Qmult_le_compat_r; [exact H|].
  apply Qlt_le_weak. now apply Qinv_lt_0_compat.
Qed.

Lemma utilization_mono (s1 s2 budget : Q) :
  s1 <= s2 -> budgetUtilizationOf s1 budget <= budgetUtilizationOf s2 budget.
Proof.
  intros H. unfold budgetUtilizationOf.
  destruct (gtQ budget 0) eqn:E; [|lra].
  apply gtQ_true in E. apply double_mono.
  apply Qmult_le_compat_r; [|lra]. apply double_mono. now apply div_mono.
Qed.

Lemma projection_mono (s1 s2 : Q) (day dim : Z) :
  (0 <= dim)%Z -> s1 <= s2 ->
  projectedMonthlyTotalOf s1 day dim <= projectedMonthlyTotalOf s2 day dim.
Proof.
  intros Hd H. unfold projectedMonthlyTotalOf, dailyAverageOf.
  assert (D : 0 <= inject_Z dim).
  { change 0 with (inject_Z 0). now rewrite <- Zle_Qle. }
  apply double_mono.
  destruct (day >? 0)%Z eqn:E; [|lra].
  apply Qmult_le_compat_r; [|exact D]. apply double_mono.
  apply div_mono; [|exact H].
  change 0 with (inject_Z 0). rewrite <- Zlt_Qlt. lia.
Qed.

(** X17. With the budget, the day and the length of the month fixed,
    spending more never gives a better budget status: the status moves only
    from on-track towards projected-overspend, warning and over-budget. *)
Theorem budget_status_worsens_with_spend
  (rows1 rows2 : list Q) (user : UserModel.User) (currentDay daysInMonth : Z) :
  (0 <= daysInMonth)%Z ->
  firstTotal rows1 <= firstTotal rows2 ->
  (statusRank (budgetStatus (budgetAnalysis rows1 user currentDay daysInMonth))
   <= statusRank
        (budgetStatus (budgetAnalysis rows2 user currentDay daysInMonth)))%nat.
Proof.
  intros Hd Hs. rewrite !budgetStatus_classify.
  pose proof (utilization_mono _ _ (UserModel.monthlyBudget user) Hs) as U.
  pose proof (projection_mono _ _ currentDay _ Hd Hs) as P.
  unfold classifyBudget.
  repeat match goal with
         | |- context [gtQ ?a ?b] =>
             let E := fresh "E" in
             destruct (gtQ a b) eqn:E;
             [apply gtQ_true in E | apply gtQ_false in E]
         end;
    simpl; try lia; exfalso; lra.
Qed.

Lemma budget_status_worsens_with_spend_witness :
  Nat.le
    (statusRank (budgetStatus (budgetAnalysis [500] sampleUser 15 30)))
    (statusRank (budgetStatus (budgetAnalysis [850] sampleUser 15 30))).
Proof.
  apply (budget_status_worsens_with_spend [500] [850] sampleUser 15 30).
  - lia.
  - vm_compute. discriminate.
Defined.

(** X18. With no budget set (a budget of 0) the status is never warning or
    over-budget: it is projected-overspend as soon as anything was spent
    (on a day and in a month of positive length) and on-track when nothing
    was. *)
Theorem unset_budget_status
  (rows : list Q) (user : UserModel.User) (currentDay daysInMonth : Z) :
  UserModel.monthlyBudget user == 0 ->
  let status :=
    budgetStatus (budgetAnalysis rows user currentDay daysInMonth) in
  status <> Warning /\ status <> OverBudget
  /\ (0 < firstTotal rows -> (0 < currentDay)%Z -> (0 < daysInMonth)%Z ->
      status = ProjectedOverspend)
  /\ (firstTotal rows == 0 -> status = OnTrack).
Proof.
  intros Hb status. unfold status. rewrite budgetStatus_classify.
  unfold budgetUtilizationOf.
  assert (gtQ (UserModel.monthlyBudget user) 0 = false) as ->
    by (apply gtQ_false; lra).
  unfold classifyBudget.
  assert (gtQ 0 100 = false) as -> by reflexivity.
  assert (gtQ 0 80 = false) as -> by reflexivity.
  set (p := projectedMonthlyTotalOf _ _ _).
  split; [destruct (gtQ p _); discriminate|].
  split; [destruct (gtQ p _); discriminate|].
  split.
  - intros Hs Hd Hm.
    assert (gtQ p (UserModel.monthlyBudget user) = true) as ->; [|reflexivity].
    apply gtQ_true. unfold p, projectedMonthlyTotalOf, dailyAverageOf.
    rewrite (proj2 (Z.gtb_lt _ _) Hd).
    assert (Dq : 0 < inject_Z currentDay)
      by (change 0 with (inject_Z 0); now rewrite <- Zlt_Qlt).
    assert (Mq : 0 < inject_Z daysInMonth)
      by (change 0 with (inject_Z 0); now rewrite <- Zlt_Qlt).
    assert (A : 0 < double (firstTotal rows / inject_Z currentDay))
      by (apply double_pos, Qlt_shift_div_l; lra).
    assert (B : 0 < double (double (firstTotal rows / inject_Z currentDay)
                            * inject_Z daysInMonth))
      by (apply double_pos, Qmult_lt_0_compat; assumption).
    lra.
  - intros Hz.
    assert (gtQ p (UserModel.monthlyBudget user) = false) as ->; [|reflexivity].
    apply gtQ_false. unfold p, projectedMonthlyTotalOf, dailyAverageOf.
    rewrite Hb. apply Qle_lteq. right. apply double_zero.
    destruct (currentDay >? 0)%Z; [|apply Qmult_0_l].
    assert (Z0 : double (firstTotal rows / inject_Z currentDay) == 0).
    { apply double_zero. rewrite Hz. unfold Qdiv. apply Qmult_0_l. }
    rewrite Z0. apply Qmult_0_l.
Qed.

Lemma unset_budget_status_witness :
  budgetStatus
    (budgetAnalysis [50]
       {| UserModel._id := 7%nat; UserModel.monthlyBudget := 0;
          UserModel.currency := "INR" |} 3 30)
  = ProjectedOverspend.
Proof.
  refine (proj1 (proj2 (proj2
            (unset_budget_status [50]
               {| UserModel._id := 7%nat; UserModel.monthlyBudget := 0;
                  UserModel.currency := "INR" |} 3 30 _))) _ _ _).
  - reflexivity.
  - reflexivity.
  - reflexivity.
  - reflexivity.
Defined.

Lemma previous_of_following (y m : Z) :
  (0 <= m <= 11)%Z ->
  previousMonth (fst (followingMonth y m)) (snd (followingMonth y m)) = (y, m)
  /\ (0 <= snd (followingMonth y m) <= 11)%Z.
Proof.
  intros H. unfold followingMonth, previousMonth.
  destruct (m =? 11)%Z eqn:E; cbn [fst snd].
  - apply Z.eqb_eq in E. subst m. split; [|lia]. cbn. f_equal. lia.
  - apply Z.eqb_neq in E.
    assert ((m + 1 =? 0)%Z = false) as -> by (apply Z.eqb_neq; lia).
    split; [|lia]. f_equal. lia.
Qed.

Lemma round2_zero : round2 0 == 0.
Proof. reflexivity. Qed.

(** X19. [daysInMonth] is the date of [endOfMonth], which the handler gets
    from today by going to the same day of the next month and then to the
    day before the first of that month. On a day the next month has too it
    is the length of the current month, and no negative number of days
    remains. On a day the next month does not have (31 January, the 29th to
    31st before a shorter month) the date runs over into the month after
    the next, and [daysInMonth] is the length of the next month: the days
    remaining are negative and the recommended daily spending is 0. On the
    last day of a month the recommended daily spending is 0, and no days
    remain exactly when the next month is at least as long. On 31 January
    2025 with 500 spent the handler counts 28 days, 3 less than none
    remaining, and projects 451.61. *)
Theorem end_of_month_runs_into_next_month
  (today : CalendarDate) (rows : list Q) (user : UserModel.User) :
  validDate today ->
  let next := followingMonth (fullYear today) (monthIndex today) in
  let thisLength := daysOfMonth (fullYear today) (monthIndex today) in
  let nextLength := daysOfMonth (fst next) (snd next) in
  let a := budgetAnalysisOn today rows user in
  ((dayOfMonth today <= nextLength)%Z ->
   dayOfMonth (endOfMonthOn today) = thisLength
   /\ (0 <= daysRemaining a)%Z)
  /\ ((nextLength < dayOfMonth today)%Z ->
      dayOfMonth (endOfMonthOn today) = nextLength
      /\ (daysRemaining a < 0)%Z
      /\ recommendedDailySpending a == 0)
  /\ (dayOfMonth today = thisLength ->
      recommendedDailySpending a == 0
      /\ (daysRemaining a = 0%Z <-> (thisLength <= nextLength)%Z))
  /\ dayOfMonth (endOfMonthOn january31) = 28%Z
  /\ daysRemaining (budgetAnalysisOn january31 [500] sampleUser) = (-3)%Z
  /\ Qred (projectedMonthlyTotal
             (budgetAnalysisOn january31 [500] sampleUser)) = 451.61
  /\ dayOfMonth (endOfMonthOn april30) = 30%Z.
Proof.
  intros ((Hm1 & Hm2) & (Hd1 & Hd2)) next thisLength nextLength a.
  destruct (previous_of_following (fullYear today) (monthIndex today)
              (conj Hm1 Hm2)) as (Back & Range).
  fold next in Back, Range.
  destruct (previous_of_following (fst next) (snd next) Range) as (Back2 & _).
  assert (Fit : (dayOfMonth today <= nextLength)%Z ->
                dayOfMonth (endOfMonthOn today) = thisLength).
  { intros H. unfold endOfMonthOn, setMonthToNext, setDateToZero.
    fold next. fold nextLength.
    rewrite (proj2 (Z.leb_le _ _) H). cbn [fullYear monthIndex dayOfMonth].
    now rewrite Back. }
  assert (Over : (nextLength < dayOfMonth today)%Z ->
                 dayOfMonth (endOfMonthOn today) = nextLength).
  { intros H. unfold endOfMonthOn, setMonthToNext, setDateToZero.
    fold next. fold nextLength.
    rewrite (proj2 (Z.leb_gt _ _) H). cbn [fullYear monthIndex dayOfMonth].
    now rewrite Back2. }
  assert (R : daysRemaining a
              = (dayOfMonth (endOfMonthOn today) - dayOfMonth today)%Z)
    by reflexivity.
  assert (Rec : (daysRemaining a <= 0)%Z -> recommendedDailySpending a == 0).
  { intros H. rewrite R in H. unfold a, budgetAnalysisOn, budgetAnalysis.
    cbn [recommendedDailySpending].
    assert (((dayOfMonth (endOfMonthOn today) - dayOfMonth today) >? 0)%Z
            = false) as ->
      by (rewrite Z.gtb_ltb; apply Z.ltb_ge; exact H).
    apply round2_zero. }
  fold thisLength in Hd2.
  split; [|split; [|split]].
  - intros H. split; [now apply Fit|]. rewrite R, (Fit H). lia.
  - intros H. split; [now apply Over|].
    assert (N : (daysRemaining a < 0)%Z) by (rewrite R, (Over H); lia).
    split; [exact N|]. apply Rec. lia.
  - intros Last.
    destruct (Z.le_gt_cases (dayOfMonth today) nextLength) as [H|H].
    + assert (Z0 : daysRemaining a = 0%Z) by (rewrite R, (Fit H); lia).
      split; [apply Rec; lia|]. split; [lia | intros _; exact Z0].
    + assert (N : (daysRemaining a < 0)%Z) by (rewrite R, (Over H); lia).
      split; [apply Rec; lia|]. split; lia.
  - clear. repeat split; vm_compute; reflexivity.
Qed.

Lemma end_of_month_runs_into_next_month_witness :
  dayOfMonth (endOfMonthOn january31) = 28%Z
  /\ Z.lt (daysRemaining (budgetAnalysisOn january31 [500] sampleUser)) 0%Z
  /\ recommendedDailySpending (budgetAnalysisOn january31 [500] sampleUser)
     == 0.
Proof.
  refine (proj1 (proj2
            (end_of_month_runs_into_next_month january31 [500] sampleUser _))
            _).
  - repeat split; vm_compute; discriminate.
  - reflexivity.
Defined.

(** ** The health report *)

(** The report of the handler, written out. *)
Lemma financialHealthOf_report
  (sqrt : Q -> Q) (u : UserModel.User) (goals : list GoalModel.Goal)
  (startOfMonth endOfMonth : Time) (expenses : list ExpenseModel.Expense)
  (totalExpenses totalIncome expenseVariability : list Q) :
  exists report active completed,
    financialHealthOf sqrt u goals startOfMonth endOfMonth expenses
      totalExpenses totalIncome expenseVariability = inr report
    /\ GoalModel.count active
       = length (goalsInStatus (UserModel._id u) GoalModel.Active goals)
    /\ GoalModel.totalCurrent active
       = sumQ (map GoalModel.currentAmount
                 (goalsInStatus (UserModel._id u) GoalModel.Active goals))
    /\ GoalModel.totalTarget active
       = sumQ (map GoalModel.targetAmount
                 (goalsInStatus (UserModel._id u) GoalModel.Active goals))
    /\ GoalModel.count completed
       = length (goalsInStatus (UserModel._id u) GoalModel.Completed goals)
    /\ (healthScore report, scoreFactors report)
       = scoreEmergency
           (goalsInStatus (UserModel._id u) GoalModel.Active goals)
           (scoreConsistency sqrt expenseVariability
              (scoreGoals (GoalModel.count active) (GoalModel.count completed)
                 (totalGoalProgressOf active)
                 (scoreBudget
                    (UserModel.getBudgetUtilization startOfMonth endOfMonth
                       expenses u)
                    (scoreSavings
                       (savingsRateOf (firstTotal totalExpenses)
                          (firstTotal totalIncome)) (0%Z, [])))))
    /\ recommendations report
       = recommendationsOf
           (savingsRateOf (firstTotal totalExpenses) (firstTotal totalIncome))
           (UserModel.getBudgetUtilization startOfMonth endOfMonth expenses u)
           (GoalModel.count active)
           (match List.find isEmergencyFund
                    (goalsInStatus (UserModel._id u) GoalModel.Active goals)
            with Some _ => true | None => false end).
Proof.
  pose proof (getUserGoalStats_lookup (UserModel._id u) goals
                GoalModel.Active) as Ha.
  pose proof (getUserGoalStats_lookup (UserModel._id u) goals
                GoalModel.Completed) as Hc.
  simpl GoalModel.status_label in Ha, Hc.
  unfold financialHealthOf, financialHealth. rewrite Ha, Hc.
  match type of Ha with
  | _ = Some ?a =>
      match type of Hc with
      | _ = Some ?c => eexists _, a, c
      end
  end.
  split; [reflexivity|].
  cbn [healthScore scoreFactors recommendations GoalModel.count
       GoalModel.totalCurrent GoalModel.totalTarget].
  repeat split. symmetry. apply surjective_pairing.
Qed.

Lemma award_length pts label st s :
  length (snd (award pts label st s)) = S (length (snd s)).
Proof. unfold award. simpl. rewrite length_app. simpl. lia. Qed.

Lemma mention_length label st s :
  length (snd (mention label st s)) = S (length (snd s)).
Proof. unfold mention. simpl. rewrite length_app. simpl. lia. Qed.

Lemma scoreSavings_length r s :
  length (snd (scoreSavings r s)) = S (length (snd s)).
Proof.
  unfold scoreSavings.
  repeat match goal with |- context [if ?c then _ else _] => destruct c end;
    apply award_length || apply mention_length.
Qed.

Lemma scoreBudget_length r s :
  length (snd (scoreBudget r s)) = S (length (snd s)).
Proof.
  unfold scoreBudget.
  repeat match goal with |- context [if ?c then _ else _] => destruct c end;
    apply award_length || apply mention_length.
Qed.

Lemma scoreGoals_length a c p s :
  length (snd (scoreGoals a c p s)) = S (length (snd s)).
Proof.
  unfold scoreGoals.
  repeat match goal with |- context [if ?c then _ else _] => destruct c end;
    apply award_length || apply mention_length.
Qed.

Lemma scoreEmergency_length l s :
  length (snd (scoreEmergency l s)) = S (length (snd s)).
Proof.
  unfold scoreEmergency. destruct (List.find _ _);
    repeat match goal with |- context [if ?c then _ else _] => destruct c end;
    apply award_length || apply mention_length.
Qed.

(** X20. A user without an active goal scores at most 70, however many
    goals are completed: the report lists "No active financial goals" and
    "No emergency fund" with 0 points and recommends setting goals and
    starting an emergency fund. *)
Theorem no_active_goal_caps_the_score
  (sqrt : Q -> Q) (u : UserModel.User) (goals : list GoalModel.Goal)
  (startOfMonth endOfMonth : Time) (expenses : list ExpenseModel.Expense)
  (totalExpenses totalIncome expenseVariability : list Q) :
  goalsInStatus (UserModel._id u) GoalModel.Active goals = [] ->
  exists report,
    financialHealthOf sqrt u goals startOfMonth endOfMonth expenses
      totalExpenses totalIncome expenseVariability = inr report
    /\ (healthScore report <= 70)%Z
    /\ In noActiveGoalsEntry (scoreFactors report)
    /\ In noEmergencyFundEntry (scoreFactors report)
    /\ In "Set specific financial goals to improve motivation"%string
          (recommendations report)
    /\ In "Start building an emergency fund for unexpected expenses"%string
          (recommendations report).
Proof.
  intros Hn.
  destruct (financialHealthOf_report sqrt u goals startOfMonth endOfMonth
              expenses totalExpenses totalIncome expenseVariability)
    as (report & active & completed & Hr & Hca & Hcur & Htg & _ & Hs & Hrec).
  exists report. split; [exact Hr|].
  rewrite Hn in *. simpl in Hca.
  assert (G : forall s,
             scoreGoals (GoalModel.count active) (GoalModel.count completed)
               (totalGoalProgressOf active) s
             = mention "No active financial goals" "poor" s).
  { intros s. unfold scoreGoals, totalGoalProgressOf. rewrite Hca. simpl.
    now rewrite andb_false_r. }
  rewrite G in Hs. unfold scoreEmergency in Hs. simpl in Hs.
  set (s2 := scoreBudget _ _) in Hs.
  destruct (scoreSavings_addsUpTo
              (savingsRateOf (firstTotal totalExpenses)
                 (firstTotal totalIncome))) as (B1 & S1).
  destruct (scoreBudget_addsUpTo
              (UserModel.getBudgetUtilization startOfMonth endOfMonth
                 expenses u)) as (B2 & S2).
  destruct (scoreConsistency_addsUpTo sqrt expenseVariability) as (B4 & S4).
  pose proof (proj1 (S2 (scoreSavings
                           (savingsRateOf (firstTotal totalExpenses)
                              (firstTotal totalIncome)) (0%Z, [])))) as E2.
  fold s2 in E2.
  pose proof (proj1 (S4 (mention "No active financial goals" "poor" s2)))
    as E4.
  assert (Hscore : healthScore report
                   = fst (scoreConsistency sqrt expenseVariability
                            (mention "No active financial goals" "poor" s2)))
    by (now inversion Hs).
  assert (Hfac : scoreFactors report
                 = snd (scoreConsistency sqrt expenseVariability
                          (mention "No active financial goals" "poor" s2))
                   ++ [noEmergencyFundEntry])
    by (now inversion Hs).
  split.
  { rewrite Hscore, E4. unfold mention at 1. cbn [fst]. rewrite E2.
    change (fst (scoreSavings
                   (savingsRateOf (firstTotal totalExpenses)
                      (firstTotal totalIncome)) (0%Z, [])))
      with (pointsAwarded
              (scoreSavings
                 (savingsRateOf (firstTotal totalExpenses)
                    (firstTotal totalIncome)))).
    lia. }
  split.
  { rewrite Hfac. apply in_or_app. left.
    unfold scoreConsistency.
    repeat match goal with
           | |- context [if ?c then _ else _] => destruct c
           end;
      unfold award, mention; cbn [snd fst];
      rewrite ?in_app_iff; simpl; tauto. }
  split; [rewrite Hfac; apply in_or_app; right; now left|].
  rewrite Hrec, Hca. unfold recommendationsOf. simpl.
  split; rewrite !in_app_iff; simpl; tauto.
Qed.

Lemma no_active_goal_caps_the_score_witness :
  exists report,
    financialHealthOf (fun x => x) sampleUser [othersGoal] 0%Z 1000%Z
      monthExpenses [700] [1000] [] = inr report
    /\ (healthScore report <= 70)%Z
    /\ In noActiveGoalsEntry (scoreFactors report)
    /\ In noEmergencyFundEntry (scoreFactors report)
    /\ In "Set specific financial goals to improve motivation"%string
          (recommendations report)
    /\ In "Start building an emergency fund for unexpected expenses"%string
          (recommendations report).
Proof.
  apply (no_active_goal_caps_the_score (fun x => x) sampleUser [othersGoal]).
  vm_compute. reflexivity.
Defined.

(** X21. The expense-consistency factor is listed only when two or more
    months of expense data exist: with fewer the report has four factor
    entries and a score of at most 85; with two or more it has five and a
    score of at least 5. *)
Theorem consistency_needs_two_months
  (sqrt : Q -> Q) (u : UserModel.User) (goals : list GoalModel.Goal)
  (startOfMonth endOfMonth : Time) (expenses : list ExpenseModel.Expense)
  (totalExpenses totalIncome expenseVariability : list Q) :
  exists report,
    financialHealthOf sqrt u goals startOfMonth endOfMonth expenses
      totalExpenses totalIncome expenseVariability = inr report
    /\ ((length expenseVariability < 2)%nat ->
        length (scoreFactors report) = 4%nat
        /\ (healthScore report <= 85)%Z)
    /\ ((2 <= length expenseVariability)%nat ->
        length (scoreFactors report) = 5%nat
        /\ (5 <= healthScore report)%Z).
Proof.
  destruct (financialHealthOf_report sqrt u goals startOfMonth endOfMonth
              expenses totalExpenses totalIncome expenseVariability)
    as (report & active & completed & Hr & _ & _ & _ & _ & Hs & _).
  exists report. split; [exact Hr|].
  set (s1 := scoreSavings _ _) in Hs.
  set (s2 := scoreBudget _ s1) in Hs.
  set (s3 := scoreGoals _ _ _ s2) in Hs.
  destruct (scoreSavings_addsUpTo
              (savingsRateOf (firstTotal totalExpenses)
                 (firstTotal totalIncome))) as (B1 & S1).
  destruct (scoreBudget_addsUpTo
              (UserModel.getBudgetUtilization startOfMonth endOfMonth
                 expenses u)) as (B2 & S2).
  destruct (scoreGoals_addsUpTo (GoalModel.count active)
              (GoalModel.count completed) (totalGoalProgressOf active))
    as (B3 & S3).
  destruct (scoreEmergency_addsUpTo
              (goalsInStatus (UserModel._id u) GoalModel.Active goals))
    as (B5 & S5).
  assert (E1 : fst s1 = pointsAwarded
                          (scoreSavings
                             (savingsRateOf (firstTotal totalExpenses)
                                (firstTotal totalIncome)))) by reflexivity.
  pose proof (proj1 (S2 s1)) as E2. fold s2 in E2.
  pose proof (proj1 (S3 s2)) as E3. fold s3 in E3.
  assert (L3 : length (snd s3) = 3%nat).
  { unfold s3, s2, s1.
    now rewrite scoreGoals_length, scoreBudget_length, scoreSavings_length. }
  assert (Hscore : forall s4,
             (healthScore report, scoreFactors report)
             = scoreEmergency
                 (goalsInStatus (UserModel._id u) GoalModel.Active goals) s4 ->
             healthScore report
             = (fst s4 + pointsAwarded
                           (scoreEmergency
                              (goalsInStatus (UserModel._id u)
                                 GoalModel.Active goals)))%Z
             /\ length (scoreFactors report) = S (length (snd s4))).
  { intros s4 H. split.
    - rewrite <- (proj1 (S5 s4)), <- H. reflexivity.
    - rewrite <- scoreEmergency_length
        with (l := goalsInStatus (UserModel._id u) GoalModel.Active goals).
      now rewrite <- H. }
  split.
  - intros Hlt. unfold scoreConsistency in Hs.
    rewrite (proj2 (Nat.leb_gt _ _) Hlt) in Hs.
    destruct (Hscore _ Hs) as (H1 & H2). split; [now rewrite H2, L3 | lia].
  - intros Hge.
    destruct (scoreConsistency_addsUpTo sqrt expenseVariability) as (B4 & S4).
    pose proof (proj1 (S4 s3)) as E4.
    destruct (Hscore _ Hs) as (H1 & H2).
    assert (P4 : (5 <= pointsAwarded
                         (scoreConsistency sqrt expenseVariability))%Z).
    { unfold pointsAwarded, scoreConsistency.
      rewrite (proj2 (Nat.leb_le _ _) Hge).
      repeat match goal with
             | |- context [if ?c then _ else _] => destruct c
             end; simpl; lia. }
    assert (L4 : length (snd (scoreConsistency sqrt expenseVariability s3))
                 = 4%nat).
    { unfold scoreConsistency. rewrite (proj2 (Nat.leb_le _ _) Hge).
      repeat match goal with
             | |- context [if ?c then _ else _] => destruct c
             end; rewrite award_length, L3; reflexivity. }
    split; [now rewrite H2, L4 | lia].
Qed.

(** ** Rounding *)

(** X22. The figures the handlers round to two decimals differ from the
    computed ones by at most half a hundredth (the rounded figure is above
    the computed one minus 0.005 and at most the computed one plus 0.005),
    and a figure that already is a whole number of hundredths is returned
    unchanged. *)
Theorem round2_within_half_a_hundredth (x : Q) (n : Z) :
  x - 0.005 < round2 x <= x + 0.005
  /\ round2 (inject_Z n / 100) == inject_Z n / 100.
Proof.
  assert (R : forall y, round2 y
                        == inject_Z (Qfloor (y * 100 + 0.5)) * (1 # 100)).
  { intros y. unfold round2. now field. }
  split.
  - rewrite R.
    pose proof (Qfloor_le (x * 100 + 0.5)) as L.
    pose proof (Qlt_floor (x * 100 + 0.5)) as U.
    rewrite inject_Z_plus in U. change (inject_Z 1) with 1 in U.
    revert L U. generalize (inject_Z (Qfloor (x * 100 + 0.5))).
    intros f L U. split; lra.
  - rewrite R.
    assert (F : Qfloor (inject_Z n / 100 * 100 + 0.5) = n).
    { assert (E : inject_Z n / 100 * 100 + 0.5 == inject_Z n + (1 # 2))
        by (now field).
      revert E. generalize (inject_Z n / 100 * 100 + 0.5). intros y E.
      pose proof (Qfloor_le y) as L. pose proof (Qlt_floor y) as U.
      assert (A : (Qfloor y < n + 1)%Z).
      { rewrite Zlt_Qlt, inject_Z_plus. change (inject_Z 1) with 1. lra. }
      assert (B : (n < Qfloor y + 1)%Z).
      { rewrite Zlt_Qlt. lra. }
      lia. }
    rewrite F. now field.
Qed.

End AnalyticsMore.

(** * Further properties of the expense records *)

Section ExpenseFacts.
Import ExpenseModel ExpenseRoutes.

(** ** Trimming

    The schema trims a text again that the route has trimmed: the second
    trim changes nothing. *)

Lemma rtrim_idempotent (s : string) : rtrim (rtrim s) = rtrim s.
Proof.
  induction s as [|a s IH]; [reflexivity|].
  cbn [rtrim]. destruct (rtrim s) as [|b r] eqn:E.
  - destruct (is_space a) eqn:S; [reflexivity|]. cbn [rtrim]. now rewrite S.
  - cbn [rtrim]. cbn [rtrim] in IH. now rewrite IH.
Qed.

Lemma ltrim_head (s : string) :
  match ltrim s with
  | EmptyString => True
  | String a _ => is_space a = false
  end.
Proof.
  induction s as [|a s IH]; [exact I|].
  cbn [ltrim]. destruct (is_space a) eqn:S; [exact IH | exact S].
Qed.

Lemma trim_idempotent (s : string) : trim (trim s) = trim s.
Proof.
  unfold trim. pose proof (ltrim_head s) as H.
  destruct (ltrim s) as [|a t]; [reflexivity|].
  assert (E : ltrim (rtrim (String a t)) = rtrim (String a t)).
  { cbn [rtrim]. destruct (rtrim t); rewrite ?H; cbn [ltrim]; now rewrite H. }
  rewrite E. apply rtrim_idempotent.
Qed.

(** ** The suggested category *)

Lemma find_first {A} (f : A -> bool) (before : list A) (x : A) (after : list A) :
  Forall (fun y => f y = false) before -> f x = true ->
  List.find f (before ++ x :: after) = Some x.
Proof.
  induction 1 as [|y l Hy _ IH]; simpl; intros Hx.
  - now rewrite Hx.
  - rewrite Hy. now apply IH.
Qed.

Lemma keyword_categories (entry : Category * list string) :
  In entry categoryKeywords -> fst entry <> Emergency /\ fst entry <> Other.
Proof.
  unfold categoryKeywords. cbn [In].
  intros H. repeat (destruct H as [<- | H]; [split; discriminate|]).
  contradiction.
Qed.

(** X23. The suggested category is never [emergency]; it is [other]
    exactly when no keyword of the table occurs in the description put in
    lower case; otherwise it is the category of the first entry of the
    table, in the order it is written, with a keyword that occurs. *)
Theorem suggestCategory_first_keyword (e : Expense) :
  let text := toLowerCase (description e) in
  suggestCategory e <> Emergency
  /\ (suggestCategory e = Other
      <-> forall entry, In entry categoryKeywords ->
            mentions text (snd entry) = false)
  /\ (forall before entry after,
        categoryKeywords = before ++ entry :: after ->
        Forall (fun x => mentions text (snd x) = false) before ->
        mentions text (snd entry) = true ->
        suggestCategory e = fst entry).
Proof.
  intros text. unfold suggestCategory. fold text.
  split; [|split].
  - destruct (List.find _ categoryKeywords) as [entry|] eqn:F; [|discriminate].
    apply find_some in F as [Hin _]. now apply keyword_categories.
  - destruct (List.find _ categoryKeywords) as [entry|] eqn:F.
    + apply find_some in F as [Hin Hm]. split.
      * intros E. now apply keyword_categories in Hin.
      * intros H. rewrite (H _ Hin) in Hm. discriminate.
    + split; [|reflexivity]. intros _ entry Hin.
      exact (find_none _ _ F entry Hin).
  - intros before entry after E Hb Hm. rewrite E.
    now rewrite (find_first _ before entry after Hb Hm).
Qed.

(** ** Adding an expense *)

Lemma truthyText_some (s : string) : s <> ""%string -> truthyText (Some s) = Some s.
Proof.
  intros H. unfold truthyText. destruct (String.eqb s "") eqn:E; [|reflexivity].
  now apply String.eqb_eq in E.
Qed.

Lemma truthyAmount_some (a : Q) : 0 < a -> truthyAmount (Some a) = Some a.
Proof.
  intros H. unfold truthyAmount. destruct (Qeq_bool a 0) eqn:E; [|reflexivity].
  apply Qeq_bool_iff in E. lra.
Qed.

Lemma positive_not_leQ (a : Q) : 0 < a -> leQ a 0 = false.
Proof. intros H. apply leQ_false. exact H. Qed.

Lemma autoSuggest_text given d :
  description (base (autoSuggest given d)) = description (base d)
  /\ amount (base (autoSuggest given d)) = amount (base d)
  /\ user (base (autoSuggest given d)) = user (base d).
Proof. unfold autoSuggest. destruct given as [[]|]; repeat split. Qed.

Lemma autoSuggest_valid given d :
  geQ (amount (base d)) 0 = true -> aiConfidence d = None ->
  validExpense (autoSuggest given d)
  = negb (String.eqb (description (base d)) "").
Proof.
  intros Ha Hc. unfold validExpense.
  destruct (autoSuggest_text given d) as (-> & -> & _). rewrite Ha.
  unfold autoSuggest.
  destruct given as [[]|]; cbn [aiConfidence]; rewrite ?Hc;
    rewrite ?andb_true_r; try reflexivity;
    cbn [andb]; (replace (geQ 0.8 0 && leQ 0.8 1) with true by (symmetry; vm_compute; reflexivity));
    now rewrite andb_true_r.
Qed.




(** X25. A description of white space only passes the checks of
    [POST /api/expenses] but trims to the empty string, which the schema
    refuses: the request ends in the 500 answer and nothing is stored. *)
Theorem blank_description_fails_the_save
  (now : Time) (userId : ObjectId) (b : ExpenseBody.t)
  (stored : list ExpenseDoc) (a : Q) (text : string) :
  ExpenseBody.amount b = Some a -> 0 < a ->
  ExpenseBody.description b = Some text ->
  text <> ""%string -> trim text = ""%string ->
  createExpense now userId b stored
  = (inl {| kind := StoreFailure; http := 500;
            message := "Server error while adding expense." |}, stored).
Proof.
  intros Ea Ha Et Hne Ht.
  unfold createExpense. rewrite Ea, Et, truthyAmount_some, truthyText_some by assumption.
  rewrite positive_not_leQ by assumption.
  rewrite autoSuggest_valid; [| apply geQ_true; cbn; lra | reflexivity].
  cbn [newExpense base description]. rewrite Ht. reflexivity.
Qed.

Lemma blank_description_fails_the_save_witness :
  createExpense 5%Z 7%nat (expenseBody 10 "   ") []
  = (inl {| kind := StoreFailure; http := 500;
            message := "Server error while adding expense." |}, []).
Proof.
  apply (blank_description_fails_the_save 5%Z 7%nat (expenseBody 10 "   ") [] 10 "   ");
    [ reflexivity | reflexivity | reflexivity | discriminate | reflexivity ].
Defined.

(** ** Adding expenses in bulk *)

Lemma bulkStep_cases now userId acc i b :
  (exists d, accepted now userId b d
             /\ bulkStep now userId acc (i, b) = (fst acc ++ [d], snd acc))
  \/ (exists msg, (msg = requiredMessage i \/ msg = positiveMessage i)
                  /\ bulkStep now userId acc (i, b) = (fst acc, snd acc ++ [msg])).
Proof.
  unfold bulkStep. cbn [fst snd].
  destruct (truthyAmount (ExpenseBody.amount b)) as [a|] eqn:Ea;
    [destruct (truthyText (ExpenseBody.description b)) as [text|] eqn:Et|].
  - destruct (leQ a 0) eqn:L.
    + right. eexists. split; [right; reflexivity | reflexivity].
    + left. eexists. split; [|reflexivity].
      exists a, text. apply leQ_false in L. repeat split; assumption.
  - right. eexists. split; [left; reflexivity | reflexivity].
  - right. eexists. split; [left; reflexivity | reflexivity].
Qed.

Lemma bulk_fold now userId (entries : list ExpenseBody.t) : forall k acc,
  let result := fold_left (bulkStep now userId)
                  (combine (seq k (length entries)) entries) acc in
  (exists errs, snd result = snd acc ++ errs)
  /\ (snd result = snd acc ->
      exists docs, fst result = fst acc ++ docs
                   /\ Forall2 (accepted now userId) entries docs).
Proof.
  induction entries as [|b entries IH]; intros k acc; cbn [length seq combine fold_left].
  - split; [exists []; now rewrite app_nil_r|].
    intros _. exists []. split; [now rewrite app_nil_r | constructor].
  - specialize (IH (S k) (bulkStep now userId acc (k, b))). cbn zeta in IH.
    destruct IH as ((errs & E) & IH).
    destruct (bulkStep_cases now userId acc k b)
      as [(d & Hd & S) | (msg & _ & S)]; rewrite S in *; cbn [fst snd] in *.
    + split; [now exists errs|]. intros R.
      destruct (IH R) as (docs & F & A).
      exists (d :: docs). split; [now rewrite F, <- app_assoc | now constructor].
    + split; [exists (msg :: errs); now rewrite E, <- app_assoc|].
      intros R. rewrite E, <- app_assoc in R.
      apply (f_equal (@length string)) in R. rewrite !length_app in R.
      cbn in R. lia.
Qed.

Lemma bulk_fold_message now userId (msg : nat -> string)
  (entries : list ExpenseBody.t) : forall k acc i b,
  entries !! i = Some b ->
  (forall acc j, bulkStep now userId acc (j, b) = (fst acc, snd acc ++ [msg j])) ->
  In (msg (k + i)%nat)
    (snd (fold_left (bulkStep now userId)
            (combine (seq k (length entries)) entries) acc)).
Proof.
  induction entries as [|b0 entries IH]; intros k acc i b Hi Hb;
    [discriminate|].
  cbn [length seq combine fold_left].
  destruct i as [|i]; cbn in Hi.
  - injection Hi as ->. rewrite Nat.add_0_r.
    destruct (bulk_fold now userId entries (S k) (bulkStep now userId acc (k, b)))
      as ((errs & E) & _).
    rewrite E, Hb. cbn [snd]. rewrite !in_app_iff. cbn. tauto.
  - replace (k + S i)%nat with (S k + i)%nat by lia. now apply (IH _ _ i b).
Qed.

Lemma bulkStep_required now userId b :
  truthyAmount (ExpenseBody.amount b) = None
  \/ truthyText (ExpenseBody.description b) = None ->
  forall acc j,
    bulkStep now userId acc (j, b) = (fst acc, snd acc ++ [requiredMessage j]).
Proof.
  intros H acc j. unfold bulkStep. cbn [fst snd].
  destruct H as [-> | H]; [reflexivity|]. rewrite H.
  now destruct (truthyAmount _).
Qed.

Lemma bulkStep_positive now userId b a text :
  truthyAmount (ExpenseBody.amount b) = Some a ->
  truthyText (ExpenseBody.description b) = Some text -> a <= 0 ->
  forall acc j,
    bulkStep now userId acc (j, b) = (fst acc, snd acc ++ [positiveMessage j]).
Proof.
  intros Ea Et Ha acc j. unfold bulkStep. cbn [fst snd]. rewrite Ea, Et.
  apply leQ_true in Ha. now rewrite Ha.
Qed.

(** X26. [POST /api/expenses/bulk] stores either nothing or one expense
    for every entry, in the order of the entries, each built from its
    entry with a positive amount and passing the schema. *)
Theorem bulk_stores_all_or_nothing
  (now : Time) (userId : ObjectId) (entries : list ExpenseBody.t)
  (stored : list ExpenseDoc) :
  match createExpenses now userId (Some entries) stored with
  | (inr docs, stored') =>
      stored' = stored ++ docs
      /\ entries <> []
      /\ Forall2 (accepted now userId) entries docs
      /\ forallb validExpense docs = true
  | (inl _, stored') => stored' = stored
  end.
Proof.
  unfold createExpenses.
  destruct entries as [|b entries]; [reflexivity|].
  set (es := b :: entries).
  destruct (bulk_fold now userId es 0 ([], [])) as (_ & H).
  cbn zeta in H. cbn [fst snd] in H.
  destruct (snd (fold_left _ _ _)) as [|m errs] eqn:E; [|reflexivity].
  destruct (forallb validExpense _) eqn:V; [|reflexivity].
  destruct (H eq_refl) as (docs & F & A). rewrite app_nil_l in F.
  rewrite F in *. repeat split; try assumption. discriminate.
Qed.

(** X27. One entry of a bulk request with an amount of zero or less
    rejects the whole request with 400 and stores nothing; the errors name
    the entry by its position counted from 1. An amount of 0 is reported
    as missing, a negative amount with a description as not greater
    than 0. *)
Theorem bulk_bad_entry_rejects_all
  (now : Time) (userId : ObjectId) (entries : list ExpenseBody.t)
  (stored : list ExpenseDoc) (i : nat) (b : ExpenseBody.t) (a : Q) :
  entries !! i = Some b ->
  ExpenseBody.amount b = Some a -> a <= 0 ->
  exists errs,
    createExpenses now userId (Some entries) stored
    = (inl {| failure := {| kind := ValidationError; http := 400;
                            message := "Validation errors found." |};
              errors := errs |}, stored)
    /\ (In (requiredMessage i) errs \/ In (positiveMessage i) errs)
    /\ (a == 0 -> In (requiredMessage i) errs)
    /\ (a < 0 -> truthyText (ExpenseBody.description b) <> None ->
        In (positiveMessage i) errs).
Proof.
  intros Hi Ea Ha.
  set (result := fold_left (bulkStep now userId)
                   (combine (seq 0 (length entries)) entries) ([], [])).
  assert (R : (a == 0 -> In (requiredMessage i) (snd result))
              /\ (a < 0 -> truthyText (ExpenseBody.description b) <> None ->
                  In (positiveMessage i) (snd result))
              /\ (In (requiredMessage i) (snd result)
                  \/ In (positiveMessage i) (snd result))).
  { assert (Z : a == 0 -> In (requiredMessage i) (snd result)).
    { intros Z.
      apply (bulk_fold_message now userId requiredMessage entries 0 _ i b Hi).
      apply bulkStep_required. left. rewrite Ea. cbn.
      apply Qeq_bool_iff in Z. now rewrite Z. }
    assert (N : a < 0 -> forall text,
                truthyText (ExpenseBody.description b) = Some text ->
                In (positiveMessage i) (snd result)).
    { intros N text Et.
      apply (bulk_fold_message now userId positiveMessage entries 0 _ i b Hi).
      apply (bulkStep_positive now userId b a text); [|exact Et|exact Ha].
      rewrite Ea. cbn. destruct (Qeq_bool a 0) eqn:Q; [|reflexivity].
      apply Qeq_bool_iff in Q. lra. }
    split; [exact Z|]. split.
    - intros N' Hd.
      destruct (truthyText (ExpenseBody.description b)) as [text|] eqn:Et;
        [now apply (N N' text) | contradiction].
    - destruct (Qlt_le_dec a 0) as [N'|P]; [|left; apply Z; lra].
      destruct (truthyText (ExpenseBody.description b)) as [text|] eqn:Et;
        [right; now apply (N N' text)|].
      left.
      apply (bulk_fold_message now userId requiredMessage entries 0 _ i b Hi).
      apply bulkStep_required. now right. }
  unfold createExpenses.
  destruct entries as [|b0 entries]; [discriminate|].
  fold result.
  destruct (snd result) as [|m errs] eqn:E.
  - destruct R as (_ & _ & [[] | []]).
  - eexists. split; [reflexivity|]. tauto.
Qed.

Lemma bulk_bad_entry_rejects_all_witness :
  exists errs,
    createExpenses 5%Z 7%nat
      (Some [expenseBody 120 "Lunch"; expenseBody (-3) "Bus"]) []
    = (inl {| failure := {| kind := ValidationError; http := 400;
                            message := "Validation errors found." |};
              errors := errs |}, [])
    /\ In "Expense 2: Amount must be greater than 0."%string errs.
Proof.
  destruct (bulk_bad_entry_rejects_all 5%Z 7%nat
              [expenseBody 120 "Lunch"; expenseBody (-3) "Bus"] [] 1
              (expenseBody (-3) "Bus") (-3))
    as (errs & E & _ & _ & H);
    [ reflexivity | reflexivity | vm_compute; discriminate |].
  exists errs. split; [exact E|]. apply H; [reflexivity | discriminate].
Defined.

(** ** Pages *)

Lemma firstn_plus {A} (a b : nat) : forall l : list A,
  firstn (a + b) l = firstn a l ++ firstn b (skipn a l).
Proof.
  induction a as [|a IH]; intros l; [reflexivity|].
  destruct l as [|x l]; cbn [Nat.add firstn skipn app].
  - now rewrite firstn_nil.
  - now rewrite IH.
Qed.

Lemma chunks_concat {A} (m : nat) (l : list A) (n : nat) :
  concat (map (fun k => firstn m (skipn (k * m) l)) (seq 0 n))
  = firstn (n * m) l.
Proof.
  induction n as [|n IH]; [reflexivity|].
  rewrite seq_S, map_app, concat_app, IH. cbn [Nat.add map concat].
  rewrite app_nil_r.
  replace (S n * m)%nat with (n * m + m)%nat by lia.
  now rewrite firstn_plus.
Qed.

Lemma page_skip (page limit : positive) :
  Z.to_nat ((Z.pos page - 1) * Z.pos limit)
  = ((Pos.to_nat page - 1) * Pos.to_nat limit)%nat.
Proof. rewrite Z2Nat.inj_mul by lia. f_equal; lia. Qed.

Lemma ceiling_bounds (total : nat) (limit : positive) :
  let pages := Qceiling (inject_Z (Z.of_nat total) / inject_Z (Z.pos limit)) in
  ((pages - 1) * Z.pos limit < Z.of_nat total <= pages * Z.pos limit)%Z.
Proof.
  intros pages.
  pose proof (Qle_ceiling (inject_Z (Z.of_nat total) / inject_Z (Z.pos limit))) as U.
  pose proof (Qceiling_lt (inject_Z (Z.of_nat total) / inject_Z (Z.pos limit))) as L.
  fold pages in U, L.
  assert (P : 0 < inject_Z (Z.pos limit)).
  { rewrite <- (Zlt_Qlt 0). lia. }
  split.
  - rewrite Zlt_Qlt, inject_Z_mult.
    revert L P. generalize (inject_Z (pages - 1)) (inject_Z (Z.of_nat total)) (inject_Z (Z.pos limit)).
    intros x t m L P. apply (Qmult_lt_r _ _ m P) in L.
    assert (E : t / m * m == t) by (field; lra). rewrite E in L. exact L.
  - rewrite Zle_Qle, inject_Z_mult.
    revert U P. generalize (inject_Z pages) (inject_Z (Z.of_nat total)) (inject_Z (Z.pos limit)).
    intros x t m U P. apply (Qmult_le_r _ _ m P) in U.
    assert (E : t / m * m == t) by (field; lra). rewrite E in U. exact U.
Qed.

(** X28. The pages from 1 to [totalPages] of [GET /api/expenses], one
    after the other, are the matching expenses in their order: none is
    left out and none comes twice. *)
Theorem pages_cover_the_matches (limit : positive) (matching : list ExpenseDoc) :
  concat (allPages limit matching) = matching.
Proof.
  unfold allPages, expensesPage. cbn [fst snd totalPages].
  set (pages := Qceiling _).
  pose proof (ceiling_bounds (length matching) limit) as B. cbn zeta in B.
  fold pages in B.
  rewrite (map_ext _ (fun k => firstn (Pos.to_nat limit)
                                 (skipn (k * Pos.to_nat limit) matching))).
  - rewrite chunks_concat. apply firstn_all2. nia.
  - intros k. rewrite page_skip. do 2 f_equal.
    rewrite Nat2Pos.id by discriminate. lia.
Qed.

(** X29. A page holds at most [limit] expenses. [hasNextPage] is set
    exactly when the next page is not empty, and then the page is full;
    [hasPrevPage] is clear exactly on page 1; a page is empty exactly when
    its number is beyond [totalPages]. *)
Theorem next_page_flag (page limit : positive) (matching : list ExpenseDoc) :
  let expenses := fst (expensesPage page limit matching) in
  let pagination := snd (expensesPage page limit matching) in
  (length expenses <= Pos.to_nat limit)%nat
  /\ (hasNextPage pagination = true
      <-> fst (expensesPage (page + 1) limit matching) <> [])
  /\ (hasNextPage pagination = true -> length expenses = Pos.to_nat limit)
  /\ (hasPrevPage pagination = false <-> page = 1%positive)
  /\ (expenses = [] <-> (Z.pos page > totalPages pagination)%Z).
Proof.
  unfold expensesPage. cbn [fst snd hasNextPage hasPrevPage totalPages].
  set (pages := Qceiling _).
  pose proof (ceiling_bounds (length matching) limit) as B. cbn zeta in B.
  fold pages in B. rewrite !page_skip.
  set (m := Pos.to_nat limit) in *.
  assert (Hm : (0 < m)%nat) by (subst m; lia).
  assert (Hz : Z.pos limit = Z.of_nat m) by (subst m; lia).
  rewrite Hz in B.
  set (p := Pos.to_nat page).
  assert (Hp : Z.pos page = Z.of_nat p) by (subst p; lia).
  assert (Hp1 : Pos.to_nat (page + 1) = S p) by (subst p; lia).
  assert (P0 : (0 < p)%nat) by (subst p; lia).
  rewrite Hp1, Hp.
  assert (Next : (Z.of_nat p <? pages)%Z = true <-> (p * m < length matching)%nat).
  { rewrite Z.ltb_lt. split; intros H; nia. }
  assert (Empty : forall k, firstn m (skipn k matching) = [] <-> (length matching <= k)%nat).
  { intros k. split; intros H.
    - apply (f_equal (@length _)) in H. rewrite length_firstn, length_skipn in H.
      cbn in H. lia.
    - rewrite skipn_all2 by exact H. apply firstn_nil. }
  split; [apply firstn_le_length|]. split; [|split; [|split]].
  - rewrite Next. replace (S p - 1)%nat with p by lia.
    rewrite Empty. lia.
  - rewrite Next. intros H. rewrite length_firstn, length_skipn. nia.
  - rewrite Z.gtb_ltb, Z.ltb_ge. split; intros H.
    + apply Pos2Nat.inj. fold p. lia.
    + subst page. cbn in Hp. lia.
  - rewrite Empty. split; intros H; nia.
Qed.

(** ** The monthly trend *)

Lemma month_eqb_eq (a b : Z * Z) : month_eqb a b = true <-> a = b.
Proof.
  destruct a as [y m], b as [y' m']. unfold month_eqb. cbn [fst snd].
  rewrite andb_true_iff, !Z.eqb_eq. split; [intros [-> ->]|intros [= -> ->]]; auto.
Qed.

Lemma byMonthAsc_total (a b : TrendRow) :
  byMonthAsc a b = false -> byMonthAsc b a = true.
Proof.
  unfold byMonthAsc. rewrite orb_false_iff, andb_false_iff, orb_true_iff,
    andb_true_iff, !Z.ltb_lt, !Z.ltb_ge, Z.eqb_neq, Z.eqb_eq, Z.leb_le, Z.leb_gt.
  lia.
Qed.

Lemma byMonthAsc_before (a b : TrendRow) :
  byMonthAsc a b = true <-> monthBefore a b.
Proof.
  unfold byMonthAsc, monthBefore.
  now rewrite orb_true_iff, andb_true_iff, Z.ltb_lt, Z.eqb_eq, Z.leb_le.
Qed.

(** X30. The monthly trend of the expenses of an owner from a start date
    on has one row for each month of a year that occurs among them and
    none for the others; a row carries the sum of the amounts of its month
    and their number; rows come in the order of the calendar. *)
Theorem monthly_trend_exact (yearOf monthOf : Time -> Z)
  (userId : ObjectId) (startDate : Time) (expenses : list Expense) :
  let matching :=
    List.filter (fun e => Nat.eqb (user e) userId && (startDate <=? date e)%Z)
      expenses in
  let rows := getMonthlyTrend yearOf monthOf userId startDate expenses in
  let inMonth y m :=
    List.filter (fun e => month_eqb (monthKey yearOf monthOf e) (y, m))
      matching in
  (forall y m, (exists row, In row rows /\ trendYear row = y /\ trendMonth row = m)
               <-> inMonth y m <> [])
  /\ List.NoDup (map (fun row => (trendYear row, trendMonth row)) rows)
  /\ (forall row, In row rows ->
        trendTotal row
        = sumQ (map amount (inMonth (trendYear row) (trendMonth row)))
        /\ trendCount row = length (inMonth (trendYear row) (trendMonth row)))
  /\ StronglySorted monthBefore rows.
Proof.
  intros matching rows inMonth.
  set (key := monthKey yearOf monthOf).
  set (groups := Mongo.group key month_eqb accInit accStep matching).
  assert (Hrows : forall row, In row rows <-> In row (map mkTrendRow groups)).
  { intros row. apply sort_In. }
  assert (Hnd : List.NoDup (map fst groups)).
  { apply NoDup_group. apply month_eqb_eq. }
  assert (Hrow : forall y m, Mongo.rowOf month_eqb (y, m) groups
                 = match inMonth y m with
                   | [] => None
                   | ms => Some (fold_left accStep ms accInit)
                   end).
  { intros y m. apply rowOf_group. apply month_eqb_eq. }
  assert (Hin : forall row, In row rows ->
                  inMonth (trendYear row) (trendMonth row) <> []
                  /\ row = mkTrendRow
                             ((trendYear row, trendMonth row),
                              fold_left accStep
                                (inMonth (trendYear row) (trendMonth row)) accInit)).
  { intros row Hr. apply Hrows, in_map_iff in Hr.
    destruct Hr as ([[y m] a] & <- & Hka). cbn [mkTrendRow trendYear trendMonth fst snd].
    apply (rowOf_In month_eqb month_eqb_eq) in Hka; [|exact Hnd].
    rewrite Hrow in Hka. destruct (inMonth y m) eqn:E; [discriminate|].
    injection Hka as <-. split; [discriminate | reflexivity]. }
  split; [|split; [|split]].
  - intros y m. split.
    + intros (row & Hr & <- & <-). now apply Hin.
    + intros Hne. specialize (Hrow y m).
      destruct (inMonth y m) as [|e ms] eqn:E; [contradiction|].
      apply (rowOf_Some month_eqb month_eqb_eq) in Hrow.
      exists (mkTrendRow ((y, m), fold_left accStep (e :: ms) accInit)).
      split; [|split; reflexivity]. apply Hrows. now apply in_map.
  - apply (Permutation_NoDup
             (l := map (fun row => (trendYear row, trendMonth row))
                     (map mkTrendRow groups))).
    + apply Permutation_map. symmetry. apply sort_perm.
    + rewrite map_map.
      rewrite (map_ext _ fst); [exact Hnd|]. now intros [[y m] a].
  - intros row Hr. destruct (Hin row Hr) as (_ & E).
    rewrite fold_accStep in E.
    split; [apply (f_equal trendTotal) in E | apply (f_equal trendCount) in E];
      exact E.
  - apply Sorted_StronglySorted.
    + intros a b c. unfold monthBefore. lia.
    + eapply Sorted_ind with (P := Sorted _);
        [ constructor | | apply (sort_sorted byMonthAsc byMonthAsc_total) ].
      intros a l _ IH Hh. constructor; [exact IH|].
      destruct Hh; constructor. now apply byMonthAsc_before.
Qed.

End ExpenseFacts.
